(** * Gear Lever update manager: a shallow embedding of
      [src/models/UpdateManager.py]

    The development follows the Python module from top to bottom:
    Python string helpers and the fragment of [re] the module uses, the
    embedded-metadata extractor ([UpdateManagerChecker.check_app]), the
    GitHub descriptor parser ([GithubUpdater.get_url_data]), asset
    selection ([GithubUpdater.fetch_target_asset]), the HTTP side of
    [StaticFileUpdater] in a state-and-exception monad, and the dispatcher
    ([UpdateManagerChecker.check_url]).

    Strings are Rocq strings: one [ascii] per code point below 256. *)

From Stdlib Require Import ZArith QArith Ascii String List Bool Lia Sorted.
From stdpp Require Import base gmap strings list.

Local Open Scope string_scope.

(** ** Python [str] methods used by the module *)

Module PyStr.

Definition newline : ascii := "010"%char.

(** [str.isspace] on code points below 256: TAB..CR, FS..US, SPACE,
    NEL and NBSP.  [str.strip()] and the regex class [\s] share it. *)
Definition isspace (c : ascii) : bool :=
  let n := nat_of_ascii c in
  ((9 <=? n)%nat && (n <=? 13)%nat) || ((28 <=? n)%nat && (n <=? 32)%nat)
  || (n =? 133)%nat || (n =? 160)%nat.

Fixpoint lstrip_by (p : ascii -> bool) (s : string) : string :=
  match s with
  | String c s' => if p c then lstrip_by p s' else s
  | EmptyString => EmptyString
  end.

Definition strip_by (p : ascii -> bool) (s : string) : string :=
  String.rev (lstrip_by p (String.rev (lstrip_by p s))).

(** [s.strip()] *)
Definition strip (s : string) : string := strip_by isspace s.

(** [s.replace(a, b)] for single characters. *)
Fixpoint replace_char (a b : ascii) (s : string) : string :=
  match s with
  | String c s' => String (if Ascii.eqb c a then b else c) (replace_char a b s')
  | EmptyString => EmptyString
  end.

(** [s.replace(a, '')] for a single character. *)
Fixpoint remove_char (a : ascii) (s : string) : string :=
  match s with
  | String c s' =>
      if Ascii.eqb c a then remove_char a s' else String c (remove_char a s')
  | EmptyString => EmptyString
  end.

Definition startswith (s p : string) : bool := String.prefix p s.

Definition endswith (s p : string) : bool :=
  String.prefix (String.rev p) (String.rev s).

(** [c in s] for a character. *)
Fixpoint mem (c : ascii) (s : string) : bool :=
  match s with
  | String x s' => Ascii.eqb x c || mem c s'
  | EmptyString => false
  end.

(** [p in s] for a substring. *)
Fixpoint contains (s p : string) : bool :=
  String.prefix p s ||
  match s with
  | String _ s' => contains s' p
  | EmptyString => false
  end.

(** [s.count(c)] for a character. *)
Fixpoint count (c : ascii) (s : string) : nat :=
  match s with
  | String x s' => (if Ascii.eqb x c then 1 else 0) + count c s'
  | EmptyString => 0
  end.

(** [s.split(sep)] for a one-character separator: never empty. *)
Fixpoint split (sep : ascii) (s : string) : list string :=
  match s with
  | EmptyString => [EmptyString]
  | String c s' =>
      if Ascii.eqb c sep then EmptyString :: split sep s'
      else match split sep s' with
           | h :: t => String c h :: t
           | [] => [String c EmptyString]
           end
  end.

(** [s.split(sep, 1)]: the text before the first [sep] and, when there
    is one, the text after it. *)
Fixpoint split1 (sep : ascii) (s : string) : string * option string :=
  match s with
  | EmptyString => (EmptyString, None)
  | String c s' =>
      if Ascii.eqb c sep then (EmptyString, Some s')
      else let '(h, t) := split1 sep s' in (String c h, t)
  end.

Definition lower_char (c : ascii) : ascii :=
  let n := nat_of_ascii c in
  if (65 <=? n)%nat && (n <=? 90)%nat then ascii_of_nat (n + 32) else c.

(** [s.lower()] on the ASCII letters. *)
Fixpoint lower (s : string) : string :=
  match s with
  | String c s' => String (lower_char c) (lower s')
  | EmptyString => EmptyString
  end.

(** [s[i:]] *)
Fixpoint drop (n : nat) (s : string) : string :=
  match n, s with
  | S n', String _ s' => drop n' s'
  | _, _ => s
  end.

(** [s[:i]] *)
Fixpoint take (n : nat) (s : string) : string :=
  match n, s with
  | S n', String c s' => String c (take n' s')
  | _, _ => EmptyString
  end.

(** Truthiness of a [str]. *)
Definition truthy (s : string) : bool :=
  match s with EmptyString => false | _ => true end.

Definition is_digit (c : ascii) : bool :=
  let n := nat_of_ascii c in (48 <=? n)%nat && (n <=? 57)%nat.

Definition digit_val (c : ascii) : Z := Z.of_nat (nat_of_ascii c) - 48.

(** The digits of an [int] literal: decimal digits, single underscores
    allowed between digits.  [prev] tells whether the previous
    character was a digit. *)
Fixpoint int_digits (prev : bool) (acc : Z) (s : string) : option Z :=
  match s with
  | EmptyString => if prev then Some acc else None
  | String c s' =>
      if is_digit c then int_digits true (10 * acc + digit_val c) s'
      else if Ascii.eqb c "_" && prev
           then match s' with
                | String d _ => if is_digit d then int_digits false acc s' else None
                | EmptyString => None
                end
           else None
  end.

(** The whitespace [int] skips around a number: the ASCII blanks and
    the two spaces above 127, but not FS..US. *)
Definition int_space (c : ascii) : bool :=
  let n := nat_of_ascii c in
  ((9 <=? n)%nat && (n <=? 13)%nat) || (n =? 32)%nat
  || (n =? 133)%nat || (n =? 160)%nat.

(** The number of decimal digits in [s]. *)
Fixpoint digit_count (s : string) : nat :=
  match s with
  | String c s' => (if is_digit c then 1 else 0) + digit_count s'
  | EmptyString => 0
  end.

(** [sys.get_int_max_str_digits()]: the interpreter's default. *)
Definition int_max_str_digits : nat := 4300.

(** The digits of a literal within the limit on their number, which
    counts every digit and no underscore. *)
Definition int_literal (d : string) : option Z :=
  if (digit_count d <=? int_max_str_digits)%nat then int_digits false 0 d
  else None.

(** [int(s)] on a [str]: surrounding whitespace, an optional sign, then
    digits, no more of them than the limit; [None] stands for
    [ValueError]. *)
Definition int (s : string) : option Z :=
  match strip_by int_space s with
  | String "-" d => Z.opp <$> int_literal d
  | String "+" d => int_literal d
  | d => int_literal d
  end.

End PyStr.

(** ** The fragment of Python's [re] the module uses

    A backtracking matcher in continuation-passing style: alternatives
    are tried left to right and [*] is greedy, as in [re].  Repetition is
    only ever applied to a single character class in the source
    patterns ([.*]), which keeps the matcher structurally recursive.
    Groups only capture, and the module reads group 0 alone, so they are
    not represented. *)

Module Re.

Inductive cclass : Type :=
| CLit (c : ascii)     (* a literal or escaped character *)
| CDot                 (* [.]: anything but a newline *)
| CSpace.              (* [\s] *)

Definition cclass_match (k : cclass) (c : ascii) : bool :=
  match k with
  | CLit x => Ascii.eqb c x
  | CDot => negb (Ascii.eqb c PyStr.newline)
  | CSpace => PyStr.isspace c
  end.

Inductive regex : Type :=
| Eps
| Chr (k : cclass)
| Many (k : cclass)              (* [k*], greedy *)
| Seq (r1 r2 : regex)
| Or (r1 r2 : regex)
| Bol                            (* [^] without MULTILINE *)
| Eol.                           (* [$] without MULTILINE *)

(** A string literal as a pattern. *)
Fixpoint lit (s : string) : regex :=
  match s with
  | EmptyString => Eps
  | String c s' => Seq (Chr (CLit c)) (lit s')
  end.

(** Continuations receive the position reached and the rest of the
    subject, and answer the end position of the whole match. *)
Definition cont : Type := nat -> string -> option nat.

Fixpoint many (k : cclass) (pos : nat) (s : string) (kont : cont) : option nat :=
  match s with
  | String c s' =>
      if cclass_match k c then
        match many k (S pos) s' kont with
        | Some e => Some e
        | None => kont pos s
        end
      else kont pos s
  | EmptyString => kont pos s
  end.

Fixpoint run (r : regex) (pos : nat) (s : string) (kont : cont) : option nat :=
  match r with
  | Eps => kont pos s
  | Chr k =>
      match s with
      | String c s' => if cclass_match k c then kont (S pos) s' else None
      | EmptyString => None
      end
  | Many k => many k pos s kont
  | Seq r1 r2 => run r1 pos s (fun p s' => run r2 p s' kont)
  | Or r1 r2 =>
      match run r1 pos s kont with
      | Some e => Some e
      | None => run r2 pos s kont
      end
  | Bol => if (pos =? 0)%nat then kont pos s else None
  | Eol =>
      match s with
      | EmptyString => kont pos s
      | String c EmptyString =>
          if Ascii.eqb c PyStr.newline then kont pos s else None
      | _ => None
      end
  end.

Definition accept : cont := fun p _ => Some p.

(** Whether an attempt found a match. *)
Definition is_some {A : Type} (o : option A) : bool :=
  match o with Some _ => true | None => false end.

(** A match attempt at position [pos], where [s] is the subject from
    [pos] on: the end position. *)
Definition match_at (r : regex) (pos : nat) (s : string) : option nat :=
  run r pos s accept.

(** [re.search]: the leftmost start that matches, as (start, end). *)
Fixpoint search_from (r : regex) (pos : nat) (s : string) : option (nat * nat) :=
  match match_at r pos s with
  | Some e => Some (pos, e)
  | None =>
      match s with
      | String _ s' => search_from r (S pos) s'
      | EmptyString => None
      end
  end.

(** [re.search(r, s)]; the answer is [m[0]], the matched text. *)
Definition search (r : regex) (s : string) : option string :=
  match search_from r 0 s with
  | Some (b, e) => Some (PyStr.take (e - b) (PyStr.drop b s))
  | None => None
  end.

(** [re.match(r, s)]: a match at the start only. *)
Definition rmatch (r : regex) (s : string) : option string :=
  match match_at r 0 s with
  | Some e => Some (PyStr.take e s)
  | None => None
  end.

(** [re.sub(r, '', s)]: every non-overlapping match, left to right, is
    removed.  The source patterns never match the empty string; a
    match of length zero is stepped over. *)
Fixpoint sub_from (fuel : nat) (r : regex) (pos : nat) (s : string) : string :=
  match fuel with
  | O => s
  | S fuel' =>
      match match_at r pos s with
      | Some e =>
          if (pos <? e)%nat
          then sub_from fuel' r e (PyStr.drop (e - pos) s)
          else match s with
               | String c s' => String c (sub_from fuel' r (S pos) s')
               | EmptyString => EmptyString
               end
      | None =>
          match s with
          | String c s' => String c (sub_from fuel' r (S pos) s')
          | EmptyString => EmptyString
          end
      end
  end.

Definition sub_empty (r : regex) (s : string) : string :=
  sub_from (S (String.length s)) r 0 s.

End Re.

(** ** [UpdateManagerChecker.check_app] (lines 92-113) *)

Module Checker.

(** [pattern_gh]: the literal [gh-releases-zsync\|], then [.*], then
    the group [(.zsync)].  The dot before [zsync] is not escaped in the
    source, so it stands for any character. *)
Definition pattern_gh : Re.regex :=
  Re.Seq (Re.lit "gh-releases-zsync|")
    (Re.Seq (Re.Many Re.CDot) (Re.Seq (Re.Chr Re.CDot) (Re.lit "zsync"))).

(** [pattern_link]: [^], the literal [zsync\|http], a group holding
    [.*], then [\s]. *)
Definition pattern_link : Re.regex :=
  Re.Seq Re.Bol
    (Re.Seq (Re.lit "zsync|http")
       (Re.Seq (Re.Many Re.CDot) (Re.Chr Re.CSpace))).

(** The pattern of the [re.sub] call: [^] and the literal [zsync\|]. *)
Definition pattern_zsync_prefix : Re.regex :=
  Re.Seq Re.Bol (Re.lit "zsync|").

(** The body of [check_app] after the [readelf] call: [readelf_out] is
    what [terminal.sandbox_sh] returned. *)
Definition check_app_out (readelf_out : string) : option string :=
  let readelf_out :=
    PyStr.replace_char PyStr.newline " " readelf_out +:+ " " in
  match Re.search pattern_gh readelf_out with
  | Some m => Some (PyStr.strip m)
  | None =>
      match Re.search pattern_link readelf_out with
      | Some m => Some (PyStr.strip (Re.sub_empty pattern_zsync_prefix m))
      | None => None
      end
  end.

End Checker.

(** ** Exceptions and results *)

Inductive exn : Type :=
| ValueError                      (* [int()], [urlsplit] *)
| OSError                         (* [os.path.getsize], [open], [os.remove], [shutil.rmtree] *)
| RequestException                (* a [requests] call that fails outright *)
| HTTPError (status : Z)          (* [Response.raise_for_status] *)
| StreamError                     (* the body iterator breaks off *)
| DownloadInterruptedException.   (* [Models.DownloadInterruptedException] *)

Inductive result (A : Type) : Type :=
| Return (a : A)
| Raise (e : exn).
Arguments Return {A} a.
Arguments Raise {A} e.

(** ** [urllib.parse.urlsplit] on a [str] *)

Module UrlParse.

Record SplitResult : Type := {
  scheme : string;
  netloc : string;
  path : string;
  query : string;
  fragment : string
}.

(** [url.lstrip(_WHATWG_C0_CONTROL_OR_SPACE)] *)
Fixpoint lstrip_c0 (s : string) : string :=
  match s with
  | String c s' => if (nat_of_ascii c <=? 32)%nat then lstrip_c0 s' else s
  | EmptyString => EmptyString
  end.

Definition is_alpha (c : ascii) : bool :=
  let n := nat_of_ascii c in
  ((65 <=? n)%nat && (n <=? 90)%nat) || ((97 <=? n)%nat && (n <=? 122)%nat).

Definition scheme_char (c : ascii) : bool :=
  is_alpha c || PyStr.is_digit c || PyStr.mem c "+-.".

Fixpoint all_chars (p : ascii -> bool) (s : string) : bool :=
  match s with
  | String c s' => p c && all_chars p s'
  | EmptyString => true
  end.

(** [_splitnetloc(url, 2)] applied to the text after the two slashes:
    the netloc runs up to the first of [/], [?] and [#]. *)
Fixpoint splitnetloc (s : string) : string * string :=
  match s with
  | String c s' =>
      if PyStr.mem c "/?#" then (EmptyString, s)
      else let '(n, r) := splitnetloc s' in (String c n, r)
  | EmptyString => (EmptyString, EmptyString)
  end.

(** The clean-up at the start of [urlsplit]: leading C0 controls and
    spaces are stripped, then TAB, CR and LF are removed everywhere. *)
Definition clean (url : string) : string :=
  PyStr.remove_char "010"
    (PyStr.remove_char "013" (PyStr.remove_char "009" (lstrip_c0 url))).

(** The scheme: the text before the first colon, when it starts with a
    letter and holds scheme characters only. *)
Definition split_scheme (url : string) : string * string :=
  match PyStr.split1 ":" url with
  | (String c0 pre, Some rest) =>
      if is_alpha c0 && all_chars scheme_char (String c0 pre)
      then (PyStr.lower (String c0 pre), rest)
      else (EmptyString, url)
  | _ => (EmptyString, url)
  end.

Definition split_netloc (url : string) : string * string :=
  match url with
  | String "/" (String "/" rest) => splitnetloc rest
  | _ => (EmptyString, url)
  end.

Definition unmatched_bracket (nl : string) : bool :=
  (PyStr.mem "[" nl && negb (PyStr.mem "]" nl))
  || (PyStr.mem "]" nl && negb (PyStr.mem "[" nl)).

(** [url.split(sep, 1)] when [sep in url], else the url and [''] *)
Definition cut (sep : ascii) (url : string) : string * string :=
  match PyStr.split1 sep url with
  | (u, Some f) => (u, f)
  | (u, None) => (u, EmptyString)
  end.

(** *** The check of a bracketed host

    [urlsplit] hands a netloc that holds both square brackets to
    [_check_bracketed_netloc], which asks the [ipaddress] module.  The
    functions below answer whether the Python function of the same
    name returns; [false] stands for its exception. *)

Definition is_hex (c : ascii) : bool :=
  let n := nat_of_ascii c in
  PyStr.is_digit c || ((97 <=? n)%nat && (n <=? 102)%nat)
  || ((65 <=? n)%nat && (n <=? 70)%nat).

(** [IPv4Address._parse_octet] *)
Definition parse_octet (octet_str : string) : bool :=
  PyStr.truthy octet_str
  && all_chars PyStr.is_digit octet_str
  && (String.length octet_str <=? 3)%nat
  && (String.eqb octet_str "0" || negb (String.prefix "0" octet_str))
  && match PyStr.int_digits false 0 octet_str with
     | Some n => (n <=? 255)%Z
     | None => false
     end.

(** [IPv4Address(s)] *)
Definition IPv4Address (s : string) : bool :=
  negb (PyStr.mem "/" s) && PyStr.truthy s
  && let octets := PyStr.split "." s in
     (length octets =? 4)%nat && forallb parse_octet octets.

(** [IPv6Address._parse_hextet]: hex digits only, four at most, and
    [int(hextet_str, 16)] refuses the empty string. *)
Definition parse_hextet (hextet_str : string) : bool :=
  all_chars is_hex hextet_str
  && (String.length hextet_str <=? 4)%nat
  && PyStr.truthy hextet_str.

(** [IPv6Address._ip_int_from_string].  An IPv4 suffix is replaced by
    the two hextets of its value; only that they are hextets matters
    here, so both are written [0]. *)
Definition ip_int_from_string (ip_str : string) : bool :=
  if negb (PyStr.truthy ip_str) then false
  else
    let parts := PyStr.split ":" ip_str in
    if (length parts <? 3)%nat then false
    else
      match (if PyStr.mem "." (List.last parts "")
             then if IPv4Address (List.last parts "")
                  then Some (List.removelast parts ++ ["0"; "0"])%list
                  else None
             else Some parts) with
      | None => false
      | Some parts =>
          let n := length parts in
          if (9 <? n)%nat then false
          else
            let empty_at := fun i => negb (PyStr.truthy (nth i parts "")) in
            match List.filter empty_at (List.seq 1 (n - 2)) with
            | _ :: _ :: _ => false
            | [skip_index] =>
                let parts_hi :=
                  if empty_at 0%nat then (skip_index - 1)%nat else skip_index in
                let parts_lo :=
                  if empty_at (n - 1)%nat then (n - skip_index - 1 - 1)%nat
                  else (n - skip_index - 1)%nat in
                if empty_at 0%nat && negb (parts_hi =? 0)%nat then false
                else if empty_at (n - 1)%nat && negb (parts_lo =? 0)%nat then false
                else if (8 <=? parts_hi + parts_lo)%nat then false
                else forallb parse_hextet (List.firstn parts_hi parts)
                     && forallb parse_hextet (List.skipn (n - parts_lo) parts)
            | [] =>
                (n =? 8)%nat && negb (empty_at 0%nat) && negb (empty_at (n - 1)%nat)
                && forallb parse_hextet parts
            end
      end.

(** [IPv6Address(s)]: no slash, an optional scope id after [%], which
    is not empty and holds no [%]. *)
Definition IPv6Address (s : string) : bool :=
  negb (PyStr.mem "/" s)
  && match PyStr.split1 "%" s with
     | (addr, None) => ip_int_from_string addr
     | (addr, Some scope_id) =>
         PyStr.truthy scope_id && negb (PyStr.mem "%" scope_id)
         && ip_int_from_string addr
     end.

Fixpoint skip_hex (s : string) : string :=
  match s with
  | String c s' => if is_hex c then skip_hex s' else s
  | EmptyString => EmptyString
  end.

(** [re.match] of the IPvFuture pattern: [v], hex digits, a dot, then
    at least one character, none a newline, to the end. *)
Definition ipvfuture (hostname : string) : bool :=
  match hostname with
  | String "v" (String c rest) =>
      is_hex c
      && match skip_hex rest with
         | String "." tail =>
             PyStr.truthy tail && negb (PyStr.mem PyStr.newline tail)
         | _ => false
         end
  | _ => false
  end.

(** [_check_bracketed_host]: [ip_address] tries [IPv4Address] first,
    and an IPv4 address is refused in brackets. *)
Definition check_bracketed_host (hostname : string) : bool :=
  if PyStr.startswith hostname "v" then ipvfuture hostname
  else if IPv4Address hostname then false
  else IPv6Address hostname.

(** [_check_bracketed_netloc] *)
Definition check_bracketed_netloc (nl : string) : bool :=
  let hostname_and_port := List.last (PyStr.split "@" nl) "" in
  match PyStr.split1 "[" hostname_and_port with
  | (before_bracket, Some bracketed) =>
      if PyStr.truthy before_bracket then false
      else
        let '(hostname, port) := cut "]" bracketed in
        if PyStr.truthy port && negb (PyStr.startswith port ":") then false
        else check_bracketed_host hostname
  | (_, None) =>
      check_bracketed_host (fst (PyStr.split1 ":" hostname_and_port))
  end.

(** [urlsplit(url)]: scheme, netloc, fragment and query are cut off in
    that order.  A netloc with an unmatched square bracket, or with a
    bracketed host that is no IPv6 or IPvFuture address, is a
    [ValueError].  ([_checknetloc], the last step, compares a netloc
    that is not ASCII with its NFKC form; on code points below 256 that
    form never holds one of the five characters it looks for, so the
    step never raises here.) *)
Definition urlsplit (url : string) : result SplitResult :=
  let url := clean url in
  let '(sch, url) := split_scheme url in
  let '(nl, url) := split_netloc url in
  if unmatched_bracket nl then Raise ValueError
  else if PyStr.mem "[" nl && PyStr.mem "]" nl && negb (check_bracketed_netloc nl)
  then Raise ValueError
  else
    let '(url, frag) := cut "#" url in
    let '(url, qry) := cut "?" url in
    Return {| scheme := sch; netloc := nl; path := url;
              query := qry; fragment := frag |}.

End UrlParse.

(** ** [GithubUpdater.get_url_data] and [can_handle_link] (lines 391-431) *)

Module Github.

(** The dict [get_url_data] returns. *)
Record url_data : Type := {
  username : string;
  repo : string;
  release : string;
  filename : string;
  tag_name : string
}.

(** Lines 417-428: the split on [|].  [None] is the [False] of the
    source. *)
Definition parse_items (tag_name url : string) : option url_data :=
  let items := PyStr.split "|" url in
  if negb (length items =? 5)%nat then None
  else Some {| username := nth 1 items "";
               repo := nth 2 items "";
               release := nth 3 items "";
               filename := nth 4 items "";
               tag_name := tag_name |}.

Definition get_url_data (url : string) : result (option url_data) :=
  if PyStr.startswith url "https://" then
    match UrlParse.urlsplit url with
    | Raise e => Raise e
    | Return urldata =>
        if negb (String.eqb (UrlParse.netloc urldata) "github.com")
        then Return None
        else
          let paths := PyStr.split "/" (UrlParse.path urldata) in
          if negb (length paths =? 7)%nat then Return None
          else if negb (String.eqb (nth 3 paths "") "releases")
                  || negb (String.eqb (nth 4 paths "") "download")
          then Return None
          else
            let rel_name := "latest" in
            let tag_name := nth 5 paths "" in
            let url := "|" +:+ nth 1 paths "" +:+ "|" +:+ nth 2 paths ""
                       +:+ "|" +:+ rel_name +:+ "|" +:+ nth 6 paths "" in
            Return (parse_items tag_name url)
    end
  else Return (parse_items "*" url).

(** [get_url_data(url) != False]: a dict never equals [False]. *)
Definition can_handle_link (url : string) : result bool :=
  match get_url_data url with
  | Return (Some _) => Return true
  | Return None => Return false
  | Raise e => Raise e
  end.

(** *** The two descriptor shapes, for stating the grammar *)

(** No character of [cs] occurs in [s]. *)
Definition free_of (cs s : string) : bool :=
  UrlParse.all_chars (fun c => negb (PyStr.mem c s)) cs.

(** A path segment of a URL as [get_url_data] can take it apart: free
    of the separators [urlsplit] and the two splits cut at, and of the
    three characters [urlsplit] deletes. *)
Definition url_segment (s : string) : bool :=
  free_of ("/?#|" +:+ String "009" (String "010" (String "013" ""))) s.

Definition canonical_url (O R T F : string) : string :=
  "https://github.com/" +:+ O +:+ "/" +:+ R +:+ "/releases/download/"
  +:+ T +:+ "/" +:+ F.

Definition pipe_form (tag owner repo rel file : string) : string :=
  tag +:+ "|" +:+ owner +:+ "|" +:+ repo +:+ "|" +:+ rel +:+ "|" +:+ file.

End Github.

(** ** [GithubUpdater.fetch_target_asset] (lines 455-536) *)

Module Assets.

(** An element of [rel_data['assets']]. *)
Record asset : Type := {
  name : string;
  browser_download_url : string;
  id : Z;
  size : Z;
  content_type : string
}.

(** The JSON object the releases endpoint answers with. *)
Record release_data : Type := {
  rel_tag_name : string;
  assets : list asset
}.

(** [convert_glob_to_regex]: a star becomes [.*], any other character
    is escaped, hence literal; the result is anchored at both ends.
    The source builds the pattern text; its parse is built here. *)
Fixpoint glob_body (glob_str : string) : Re.regex :=
  match glob_str with
  | EmptyString => Re.Eps
  | String c rest =>
      Re.Seq (if Ascii.eqb c "*" then Re.Many Re.CDot else Re.Chr (Re.CLit c))
             (glob_body rest)
  end.

Definition convert_glob_to_regex (glob_str : string) : Re.regex :=
  Re.Seq Re.Bol (Re.Seq (glob_body glob_str) Re.Eol).

(** The group of the three delimiters [-], [_] and [.] both marker
    patterns open and close with. *)
Definition delim : Re.regex :=
  Re.Or (Re.Chr (Re.CLit "-")) (Re.Or (Re.Chr (Re.CLit "_")) (Re.Chr (Re.CLit "."))).

Definition is_x86 : Re.regex :=
  Re.Seq delim (Re.Seq (Re.lit "x86") delim).

Definition is_arm : Re.regex :=
  Re.Seq delim
    (Re.Seq (Re.Or (Re.lit "arm64") (Re.Or (Re.lit "aarch64") (Re.lit "armv7l")))
            delim).

(** The pattern of the last [re.sub]: an escaped dot, [zsync], [$]. *)
Definition zsync_suffix : Re.regex :=
  Re.Seq (Re.lit ".zsync") Re.Eol.

Definition matches (r : Re.regex) (s : string) : bool :=
  match Re.rmatch r s with Some _ => true | None => false end.

Definition found (r : Re.regex) (s : string) : bool :=
  match Re.search r s with Some _ => true | None => false end.

(** Lines 497-505: the candidates.  In embedded mode the scan stops at
    the first [.zsync] asset the glob matches. *)
Definition possible_targets (embedded : bool) (target_re : Re.regex)
    (l : list asset) : list asset :=
  if embedded then
    match List.find (fun a => matches target_re (name a)
                              && PyStr.endswith (name a) ".zsync") l with
    | Some a => [a]
    | None => []
    end
  else List.filter (fun a => matches target_re (name a)) l.

(** The test of line 522. *)
Definition arch_ok (t : asset) : bool :=
  found is_x86 (name t) || negb (found is_arm (name t)).

(** Lines 507-525: [zsync_file]. *)
Definition select_target (system_arch : string) (targets : list asset)
    : option asset :=
  match targets with
  | [t] => Some t
  | _ =>
      if String.eqb system_arch "x86_64"
      then List.find arch_ok targets
      else None
  end.

(** [fetch_target_asset].  [rel] is the outcome of lines 479-485: the
    decoded release, or [None] when the request, the status check or
    the JSON decoding raised.  [system_arch] is what
    [terminal.sandbox_sh(['arch'])] returns. *)
Definition fetch_target_asset (url_data : Github.url_data) (embedded : bool)
    (rel : option release_data) (system_arch : string) : option asset :=
  match rel with
  | None => None
  | Some rel_data =>
      let target_re := convert_glob_to_regex (Github.filename url_data) in
      let target_tag := convert_glob_to_regex (Github.tag_name url_data) in
      if negb (matches target_tag (rel_tag_name rel_data)) then None
      else
        match select_target system_arch
                (possible_targets embedded target_re (assets rel_data)) with
        | None => None
        | Some zsync_file =>
            let target_file := Re.sub_empty zsync_suffix (name zsync_file) in
            List.find (fun a => String.eqb (name a) target_file) (assets rel_data)
        end
  end.

(** The URL lines 476-477 build. *)
Definition rel_url (url_data : Github.url_data) : string :=
  "https://api.github.com/repos/" +:+ Github.username url_data +:+ "/"
  +:+ Github.repo url_data +:+ "/releases/" +:+ Github.release url_data.

(** *** Marker tokens, in words

    A name contains a marker token when one of the tokens stands in it
    between two of the delimiters [-], [_] and [.]. *)

Definition is_delim (c : ascii) : bool :=
  Ascii.eqb c "-" || Ascii.eqb c "_" || Ascii.eqb c ".".

(** [s] starts with a delimiter, then [tok], then a delimiter. *)
Definition token_at (tok s : string) : bool :=
  match s with
  | String d r =>
      is_delim d && String.prefix tok r
      && match PyStr.drop (String.length tok) r with
         | String d2 _ => is_delim d2
         | EmptyString => false
         end
  | EmptyString => false
  end.

Fixpoint contains_marker (toks : list string) (s : string) : bool :=
  existsb (fun t => token_at t s) toks
  || match s with
     | String _ s' => contains_marker toks s'
     | EmptyString => false
     end.

(** The name holds an x86 marker token, or holds no ARM marker token. *)
Definition x86_or_not_arm (t : asset) : bool :=
  contains_marker ["x86"] (name t)
  || negb (contains_marker ["arm64"; "aarch64"; "armv7l"] (name t)).

End Assets.

(** ** [StaticFileUpdater]: requests, files and the transfer handle *)

Module Http.

(** A [bytes] chunk as [iter_content] yields it. *)
Definition chunk : Type := list Byte.byte.

(** A [requests.Response].  [headers] is the case-insensitive header
    dict, keyed by the lower-case names.  [body] lists the chunks
    [iter_content(block_size)] yields when the response is left alone,
    and [body_end] how the iteration finishes after them ([None]: it
    just stops; [Some e]: it raises).  Once the response was closed
    under the iterator, the iterator still yields [closed_more] of the
    chunks to come (what the library had read ahead) and then finishes
    as [closed_end] says.  All of this is decided by [requests] and the
    server, not by this module, so it is part of the input. *)
Record response : Type := {
  status_code : Z;
  headers : gmap string string;
  body : list chunk;
  body_end : option exn;
  closed_more : nat;
  closed_end : option exn;
  closed : bool
}.

Definition set_closed (r : response) : response :=
  {| status_code := status_code r; headers := headers r; body := body r;
     body_end := body_end r; closed_more := closed_more r;
     closed_end := closed_end r; closed := true |}.

(** [Response.ok], which is also the truth value of a response:
    [raise_for_status] would not raise. *)
Definition ok (r : response) : bool :=
  negb ((400 <=? status_code r)%Z && (status_code r <? 600)%Z).

(** The network: what a HEAD or a streamed GET of a URL (redirects
    followed) comes back with; [None] when the call itself raises.
    [head_browser] is the HEAD [DynamicUpdater] sends, with its
    browser-like headers and a timeout. *)
Record network : Type := {
  head : string -> option response;
  get : string -> option response;
  head_browser : string -> option response
}.

Inductive event : Type :=
| EHead (url : string)                  (* [requests.head(url, ...)] *)
| EGet (url : string)                   (* [requests.get(url, ..., stream=True)] *)
| EClose (h : nat)                      (* [Response.close()] *)
| EWrite (fname : string) (n : nat)     (* [f.write(chunk)], [n] bytes *)
| EProgress (q : Q).                    (* [status_update_cb(q)] *)

(** The mutable world: the updater's [currend_download] field, the
    response objects (a handle is an index, so the field and the body
    iterator alias the same object), the file system, and the trace of
    what was done.  The file system is flat: the regular files with
    their contents, the directories, and for a directory the size
    [os.path.getsize] reports for it, which is the file system's
    business. *)
Record state : Type := {
  currend_download : option nat;
  responses : list response;
  files : gmap string (list Byte.byte);
  dirs : gset string;
  dir_size : string -> Z;
  trace : list event
}.

Definition set_currend_download (v : option nat) (st : state) : state :=
  {| currend_download := v; responses := responses st; files := files st;
     dirs := dirs st; dir_size := dir_size st; trace := trace st |}.

Definition set_responses (v : list response) (st : state) : state :=
  {| currend_download := currend_download st; responses := v; files := files st;
     dirs := dirs st; dir_size := dir_size st; trace := trace st |}.

Definition set_files (v : gmap string (list Byte.byte)) (st : state) : state :=
  {| currend_download := currend_download st; responses := responses st;
     files := v; dirs := dirs st; dir_size := dir_size st; trace := trace st |}.

Definition set_dirs (v : gset string) (st : state) : state :=
  {| currend_download := currend_download st; responses := responses st;
     files := files st; dirs := v; dir_size := dir_size st; trace := trace st |}.

Definition emit (e : event) (st : state) : state :=
  {| currend_download := currend_download st; responses := responses st;
     files := files st; dirs := dirs st; dir_size := dir_size st;
     trace := (trace st ++ [e])%list |}.

(** *** The monad: state and exceptions *)

Definition M (A : Type) : Type := state -> result A * state.

Definition ret {A} (a : A) : M A := fun st => (Return a, st).

Definition raise {A} (e : exn) : M A := fun st => (Raise e, st).

Definition bind {A B} (m : M A) (f : A -> M B) : M B :=
  fun st =>
    match m st with
    | (Return a, st') => f a st'
    | (Raise e, st') => (Raise e, st')
    end.

(** [try: m  except Exception as e: handler(e)] *)
Definition try_except {A} (m : M A) (handler : exn -> M A) : M A :=
  fun st =>
    match m st with
    | (Return a, st') => (Return a, st')
    | (Raise e, st') => handler e st'
    end.

(** [try: m  finally: cleanup] *)
Definition try_finally {A} (m : M A) (cleanup : M unit) : M A :=
  fun st =>
    match m st with
    | (Return a, st') =>
        match cleanup st' with
        | (Return _, st'') => (Return a, st'')
        | (Raise e, st'') => (Raise e, st'')
        end
    | (Raise e, st') =>
        match cleanup st' with
        | (Return _, st'') => (Raise e, st'')
        | (Raise e', st'') => (Raise e', st'')
        end
    end.

Definition modify (f : state -> state) : M unit := fun st => (Return tt, f st).

Definition gets {A} (f : state -> A) : M A := fun st => (Return (f st), st).

Declare Scope py_scope.
Delimit Scope py_scope with py.
Notation "x ← y ; z" := (bind y (fun x => z))
  (at level 20, y at level 100, z at level 200, only parsing) : py_scope.
Notation "' x ← y ; z" := (bind y (fun x => z))
  (at level 20, x pattern, y at level 100, z at level 200, only parsing) : py_scope.
Notation "y ;; z" := (bind y (fun _ => z))
  (at level 100, z at level 200, only parsing, right associativity) : py_scope.
Local Open Scope py_scope.

(** *** Library calls *)

(** A fresh response object for what the network answered. *)
Definition new_response (o : option response) : M nat :=
  match o with
  | None => raise RequestException
  | Some r =>
      h ← gets (fun st => length (responses st));
      modify (fun st => set_responses (responses st ++ [r])%list st) ;;
      ret h
  end.

Definition requests_head (net : network) (url : string) : M nat :=
  modify (emit (EHead url)) ;; new_response (head net url).

Definition requests_get (net : network) (url : string) : M nat :=
  modify (emit (EGet url)) ;; new_response (get net url).

(** The response object behind a handle.  Handles only come from
    [new_response]; the default is never reached. *)
Definition deref (h : nat) : M response :=
  gets (fun st =>
          default {| status_code := 0; headers := ∅; body := [];
                     body_end := None; closed_more := 0; closed_end := None;
                     closed := true |}
                  (responses st !! h)).

Definition raise_for_status (h : nat) : M unit :=
  r ← deref h;
  if ok r then ret tt else raise (HTTPError (status_code r)).

(** [Response.close()] *)
Definition close (h : nat) : M unit :=
  modify (fun st =>
    emit (EClose h)
         (set_responses (alter set_closed h (responses st)) st)).

(** [int(x)] on a [str] *)
Definition py_int (s : string) : M Z :=
  match PyStr.int s with
  | Some n => ret n
  | None => raise ValueError
  end.

Definition path_exists (p : string) : M bool :=
  gets (fun st => bool_decide (is_Some (files st !! p)) || bool_decide (p ∈ dirs st)).

Definition makedirs (p : string) : M unit :=
  modify (fun st => set_dirs ({[p]} ∪ dirs st) st).

(** [os.remove]: a directory is refused. *)
Definition remove (p : string) : M unit :=
  isfile ← gets (fun st => bool_decide (is_Some (files st !! p)));
  if isfile then modify (fun st => set_files (delete p (files st)) st)
  else raise OSError.

(** The directory a path lies in: the text before its last slash,
    which is empty when there is none. *)
Fixpoint parent (p : string) : string :=
  match p with
  | String c p' => if PyStr.mem "/" p' then String c (parent p') else EmptyString
  | EmptyString => EmptyString
  end.

(** [open(fname, 'wb')]: the file is created or truncated; the call is
    refused when the directory the path lies in is no directory
    ([FileNotFoundError], [NotADirectoryError]) or the path is one
    itself ([IsADirectoryError]). *)
Definition open_wb (p : string) : M unit :=
  can ← gets (fun st => bool_decide (parent p ∈ dirs st)
                        && negb (bool_decide (p ∈ dirs st)));
  if (can : bool) then modify (fun st => set_files (<[p := []]> (files st)) st)
  else raise OSError.

Definition f_write (p : string) (c : chunk) : M unit :=
  modify (fun st =>
    emit (EWrite p (length c))
         (set_files (<[p := (default [] (files st !! p) ++ c)%list]> (files st)) st)).

(** What [os.stat(p).st_size] is: the length of a regular file, the
    recorded size of a directory; [None] when nothing is at [p]. *)
Definition st_size (st : state) (p : string) : option Z :=
  match files st !! p with
  | Some data => Some (Z.of_nat (length data))
  | None => if bool_decide (p ∈ dirs st) then Some (dir_size st p) else None
  end.

(** [os.path.getsize] *)
Definition getsize (p : string) : M Z :=
  o ← gets (fun st => st_size st p);
  match o with
  | Some n => ret n
  | None => raise OSError
  end.

(** *** [get_url_headers] (lines 203-228) *)

Definition get_url_headers (net : network) (url : string) : M (gmap string string) :=
  '(headers, head_request_error) ←
    try_except
      (resp ← requests_head net url;
       raise_for_status resp ;;
       r ← deref resp;
       ret (Http.headers r, false))
      (fun _ => ret (∅, true));
  if (head_request_error : bool) then
    try_except
      (resp ← requests_get net url;
       try_finally
         (raise_for_status resp ;;
          r ← deref resp;
          close resp ;;
          ret (Http.headers r))
         (close resp))
      (fun _ => ret headers)
  else ret headers.

(** *** [StaticFileUpdater.can_handle_link] (lines 127-146) *)

Section Capability.

(** [lib.utils.url_is_valid] and
    [AppImageProvider.supported_mimes] live outside this module. *)
Variable url_is_valid : string -> bool.
Variable supported_mimes : list string.

Definition static_can_handle_link (net : network) (url : string) : M bool :=
  if negb (url_is_valid url) then ret false
  else
    let url :=
      if PyStr.endswith url ".zsync"
      then Re.sub_empty Assets.zsync_suffix url
      else url in
    headers ← get_url_headers net url;
    let ct := default "" (headers !! "content-type") in
    let ct_supported :=
      existsb (String.eqb ct)
        (supported_mimes ++ ["binary/octet-stream"; "application/octet-stream"])%list in
    ret ct_supported.

End Capability.

(** *** [DynamicUpdater.can_handle_link] (lines 287-336) *)

Definition common_download_domains : list string :=
  ["download."; ".releases."; "releases."; "github.com";
   "gitlab."; "sourceforge.net"; "dl."; ".io/download"].

Definition requests_head_browser (net : network) (url : string) : M nat :=
  modify (emit (EHead url)) ;; new_response (head_browser net url).

Definition dynamic_can_handle_link (net : network) (url : string) : M bool :=
  if PyStr.contains (PyStr.lower url) ".appimage"
     || PyStr.contains (PyStr.lower url) "appimage"
  then ret true
  else
    by_headers ←
      try_except
        (resp ← requests_head_browser net url;
         r ← deref resp;
         let content_type :=
           PyStr.lower (default "" (Http.headers r !! "content-type")) in
         if existsb (String.eqb content_type)
              ["application/octet-stream"; "application/x-appimage";
               "binary/octet-stream"]
         then ret true
         else
           let content_disp :=
             PyStr.lower (default "" (Http.headers r !! "content-disposition")) in
           ret (PyStr.contains content_disp "appimage"))
        (fun _ => ret false);
    if (by_headers : bool) then ret true
    else
      ret (existsb (fun domain => PyStr.contains (PyStr.lower url) domain)
             common_download_domains).

(** *** [is_update_available] (lines 190-201)

    [file_path] is [el.file_path]. *)
Definition is_update_available (net : network) (url file_path : string) : M bool :=
  headers ← get_url_headers net url;
  resp_cl ← py_int (default "0" (headers !! "content-length"));
  old_size ← getsize file_path;
  if (resp_cl =? 0)%Z then ret false
  else ret (negb (resp_cl =? old_size)%Z).

(** *** [cancel_download] (lines 181-184)

    The test of line 182 is the truth value of a response object: its
    [ok]. *)
Definition cancel_download : M unit :=
  cur ← gets currend_download;
  match cur with
  | None => ret tt
  | Some h =>
      r ← deref h;
      if ok r then
        close h ;;
        modify (set_currend_download None)
      else ret tt
  end.

(** *** [download] (lines 148-179) *)

(** What the caller's callback does with the fraction, as far as this
    object is concerned: it returns, having called [cancel_download]
    ([true]) or not. *)
Definition callback : Type := Q -> bool.

Definition status_update (cb : callback) (q : Q) : M unit :=
  modify (emit (EProgress q)) ;;
  if cb q then cancel_download else ret tt.

Definition block_size : Z := 1024.

Definition finish (e : option exn) : M unit :=
  match e with
  | None => ret tt
  | Some x => raise x
  end.

(** Lines 167-173.  [h] is the response the iterator was made from,
    [pending] the chunks it has yet to yield, and [budget] how many of
    them it still yields now that the response was closed under it
    ([None] while no step has found the response closed).  The loop
    itself never asks whether the transfer was cancelled.  The quotient
    handed to the callback is kept exact; Python rounds it to the
    nearest float, which keeps the order of two quotients and their
    side of 0 and 1. *)
Fixpoint download_loop (cb : callback) (total_size : Z) (fname : string)
    (h : nat) (pending : list chunk) (status : Z) (budget : option nat)
    : M unit :=
  r ← deref h;
  let budget :=
    if closed r then Some (default (closed_more r) budget) else None in
  match budget, pending with
  | Some O, _ => finish (closed_end r)
  | Some (S _), [] => finish (closed_end r)
  | None, [] => finish (body_end r)
  | _, c :: rest =>
      f_write fname c ;;
      let status := (status + block_size)%Z in
      (if negb (total_size =? 0)%Z
       then status_update cb (inject_Z status / inject_Z total_size)%Q
       else ret tt) ;;
      download_loop cb total_size fname h rest status (Nat.pred <$> budget)
  end.

(** Lines 175-179. *)
Definition download_end (total_size : Z) (fname etag : string) : M (string * string) :=
  sz ← getsize fname;
  if (sz <? total_size)%Z then raise DownloadInterruptedException
  else
    modify (set_currend_download None) ;;
    ret (fname, etag).

(** [download].  [url] and [download_folder] are the fields of [self];
    [random_name] is what [get_random_string()] returns. *)
Definition download (net : network) (url download_folder random_name : string)
    (status_update_cb : callback) : M (string * string) :=
  h ← requests_get net url;
  modify (set_currend_download (Some h)) ;;
  let fname := download_folder +:+ "/" +:+ random_name +:+ ".appimage" in
  there ← path_exists download_folder;
  (if negb there then makedirs download_folder else ret tt) ;;
  r ← deref h;
  let etag := default "" (headers r !! "etag") in
  total_size ←
    match headers r !! "content-length" with
    | Some v => py_int v
    | None => ret 0%Z
    end;
  there ← path_exists fname;
  (if (there : bool) then remove fname else ret tt) ;;
  open_wb fname ;;
  download_loop status_update_cb total_size fname h (body r) 0 None ;;
  download_end total_size fname etag.

(** *** Vocabulary for the transfer *)

(** The [content-length] the response advertises, as line 159 reads it:
    [0] when the header is absent, [None] when [int] refuses it. *)
Definition advertised (r : response) : option Z :=
  match headers r !! "content-length" with
  | Some v => PyStr.int v
  | None => Some 0%Z
  end.

(** [fname], line 153. *)
Definition fname_of (download_folder random_name : string) : string :=
  download_folder +:+ "/" +:+ random_name +:+ ".appimage".

(** The response object behind [h] is [r], closed since or not. *)
Definition behind (st : state) (h : nat) (r : response) : Prop :=
  responses st !! h = Some r \/ responses st !! h = Some (set_closed r).

(** [st'] has the disk of [st]: the files, the directories and their
    sizes. *)
Definition same_disk (st st' : state) : Prop :=
  files st' = files st /\ dirs st' = dirs st /\ dir_size st' = dir_size st.

(** A transfer is active on [h]: the field holds the handle of a
    response whose truth value is [True]. *)
Definition active (st : state) (h : nat) (r : response) : Prop :=
  currend_download st = Some h /\ responses st !! h = Some r /\ ok r = true.

(** The state [cancel_download] leaves behind an active transfer. *)
Definition after_cancel (st : state) (h : nat) : state :=
  set_currend_download None
    (emit (EClose h) (set_responses (alter set_closed h (responses st)) st)).

(** What lines 167-173 add to the trace when [pending] is delivered in
    full. *)
Fixpoint loop_events (total_size : Z) (fname : string) (pending : list chunk)
    (status : Z) : list event :=
  match pending with
  | [] => []
  | c :: rest =>
      let status := (status + block_size)%Z in
      (EWrite fname (length c)
       :: (if negb (total_size =? 0)%Z
           then [EProgress (inject_Z status / inject_Z total_size)%Q]
           else []))
      ++ loop_events total_size fname rest status
  end%list.

(** The arguments the callback was called with, in order. *)
Fixpoint progress_of (tr : list event) : list Q :=
  match tr with
  | EProgress q :: tr' => q :: progress_of tr'
  | _ :: tr' => progress_of tr'
  | [] => []
  end.

(** The chunk sizes written, in order. *)
Fixpoint writes_of (tr : list event) : list nat :=
  match tr with
  | EWrite _ n :: tr' => n :: writes_of tr'
  | _ :: tr' => writes_of tr'
  | [] => []
  end.

(** [n] fractions over [total_size], one block apart, after [status]. *)
Fixpoint fractions (total_size status : Z) (n : nat) : list Q :=
  match n with
  | O => []
  | S n' =>
      (inject_Z (status + block_size) / inject_Z total_size)%Q
      :: fractions total_size (status + block_size) n'
  end.

End Http.

(** ** [UpdateManagerChecker]: the dispatcher (lines 47-90) *)

Module Dispatch.

(** The three classes [get_models] lists. *)
Inductive model : Type :=
| StaticFileUpdater
| DynamicUpdater
| GithubUpdater.

Global Instance model_eq_dec : EqDecision model.
Proof. solve_decision. Defined.

Definition get_models : list model :=
  [StaticFileUpdater; DynamicUpdater; GithubUpdater].

(** The class attribute [name]. *)
Definition name (m : model) : string :=
  match m with
  | StaticFileUpdater => "StaticFileUpdater"
  | DynamicUpdater => "DynamicUpdater"
  | GithubUpdater => "GithubUpdater"
  end.

Definition get_model_by_name (manager_label : string) : option model :=
  List.find (fun m => String.eqb (name m) manager_label) get_models.

(** The part of an [AppImageListElement] the module reads. *)
Record AppImageListElement : Type := { file_path : string }.

(** What a constructor call [m(link, embedded=...)] is given.  The
    constructors' own work (normalising or resolving the link) comes
    after dispatch. *)
Record instance : Type := {
  inst_model : model;
  inst_link : string;
  inst_embedded : bool
}.

Section CheckUrl.

(** [terminal.sandbox_sh] lives in [lib/terminal.py]. *)
Variable sandbox_sh : list string -> string.

(** The capability checks of the two URL variants
    ([Http.static_can_handle_link], [Http.dynamic_can_handle_link]) ask
    the network; dispatch only sees their answer, which is what it is
    given here. *)
Variable static_can_handle_link : string -> result bool.
Variable dynamic_can_handle_link : string -> result bool.

Definition can_handle_link (m : model) (url : string) : result bool :=
  match m with
  | StaticFileUpdater => static_can_handle_link url
  | DynamicUpdater => dynamic_can_handle_link url
  | GithubUpdater => Github.can_handle_link url
  end.

Definition check_app (el : AppImageListElement) : option string :=
  Checker.check_app_out
    (sandbox_sh ["readelf"; "--string-dump=.upd_info"; "--wide"; file_path el]).

(** One of the two [for m in models] loops: the first model that
    accepts [link] is constructed and returned. *)
Fixpoint first_model (models : list model) (link : string) (embedded : bool)
    : result (option instance) :=
  match models with
  | [] => Return None
  | m :: rest =>
      match can_handle_link m link with
      | Raise e => Raise e
      | Return true =>
          Return (Some {| inst_model := m; inst_link := link;
                          inst_embedded := embedded |})
      | Return false => first_model rest link embedded
      end
  end.

(** Lines 70-73. *)
Definition candidates (forced : option model) : list model :=
  match forced with
  | Some md => List.filter (fun m => bool_decide (m = md)) get_models
  | None => get_models
  end.

(** Lines 75-82: [None] when control falls through to the URL. *)
Definition check_embedded (models : list model) (el : option AppImageListElement)
    : result (option instance) :=
  match el with
  | None => Return None
  | Some e =>
      match check_app e with
      | None => Return None
      | Some embedded_app_data =>
          if PyStr.truthy embedded_app_data
          then first_model models embedded_app_data true
          else Return None
      end
  end.

Definition check_url (url : option string) (el : option AppImageListElement)
    (forced : option model) : result (option instance) :=
  let models := candidates forced in
  match check_embedded models el with
  | Raise e => Raise e
  | Return (Some i) => Return (Some i)
  | Return None =>
      match url with
      | None => Return None
      | Some u =>
          if PyStr.truthy u then first_model models u false
          else Return None
      end
  end.

(** *** Vocabulary for dispatch *)

(** [m] is the first of [models] to accept [link]: the models before it
    answered [False]. *)
Definition first_accepting (models : list model) (link : string) (m : model) : Prop :=
  exists pre post,
    models = (pre ++ m :: post)%list
    /\ (forall m', In m' pre -> can_handle_link m' link = Return false)
    /\ can_handle_link m link = Return true.

Definition all_reject (models : list model) (link : string) : Prop :=
  forall m, In m models -> can_handle_link m link = Return false.

(** No instance comes out of the embedded descriptor: there is no
    artifact, or no descriptor in it, or no candidate accepts it. *)
Definition no_embedded_match (models : list model)
    (el : option AppImageListElement) : Prop :=
  match el with
  | None => True
  | Some e =>
      match check_app e with
      | None => True
      | Some d => all_reject models d
      end
  end.

End CheckUrl.

End Dispatch.


(** ** Concrete inputs

    The releases, responses and states the instances further down are
    run on. *)

Module Sample.

(** *** A release with one asset per architecture *)

Definition asset_named (n : string) : Assets.asset :=
  {| Assets.name := n;
     Assets.browser_download_url :=
       "https://github.com/acme/app/releases/download/v1/" +:+ n;
     Assets.id := 1;
     Assets.size := 4096;
     Assets.content_type := "application/octet-stream" |}.

Definition x86_asset : Assets.asset := asset_named "app-x86_64.AppImage".
Definition arm_asset : Assets.asset := asset_named "app-arm64.AppImage".

Definition release_two_arch : Assets.release_data :=
  {| Assets.rel_tag_name := "v1"; Assets.assets := [x86_asset; arm_asset] |}.

Definition app_descriptor : Github.url_data :=
  {| Github.username := "acme"; Github.repo := "app";
     Github.release := "latest"; Github.filename := "app-*.AppImage";
     Github.tag_name := "*" |}.

(** *** Responses and networks *)

Definition zeros (n : nat) : Http.chunk := repeat Byte.x00 n.

Definition response_200 (hdrs : gmap string string) (chunks : list Http.chunk)
    : Http.response :=
  {| Http.status_code := 200; Http.headers := hdrs; Http.body := chunks;
     Http.body_end := None; Http.closed_more := 0; Http.closed_end := None;
     Http.closed := false |}.

Definition serving (r : Http.response) : Http.network :=
  {| Http.head := fun _ => Some r; Http.get := fun _ => Some r;
     Http.head_browser := fun _ => Some r |}.

Definition empty_state : Http.state :=
  {| Http.currend_download := None; Http.responses := [];
     Http.files := ∅; Http.dirs := ∅; Http.dir_size := fun _ => 4096%Z;
     Http.trace := [] |}.

(** A file of 100 bytes, advertised as such and delivered in one chunk. *)
Definition small_file : Http.response :=
  response_200 {[ "content-length" := "100"; "etag" := "abc" ]} [zeros 100].

(** 1000 bytes advertised, 900 delivered before the stream stops. *)
Definition short_body : Http.response :=
  response_200 {[ "content-length" := "1000" ]} [zeros 900].

(** Four full blocks. *)
Definition four_blocks : Http.response :=
  response_200 {[ "content-length" := "4096" ]}
    [zeros 1024; zeros 1024; zeros 1024; zeros 1024].

(** 1000 bytes advertised; after 900 the connection breaks and the
    iterator raises. *)
Definition cut_short : Http.response :=
  {| Http.status_code := 200;
     Http.headers := {[ "content-length" := "1000" ]};
     Http.body := [zeros 900]; Http.body_end := Some StreamError;
     Http.closed_more := 0; Http.closed_end := None; Http.closed := false |}.

(** [four_blocks] from a connection that had read one chunk ahead when
    it was closed. *)
Definition read_ahead : Http.response :=
  {| Http.status_code := 200;
     Http.headers := {[ "content-length" := "4096" ]};
     Http.body := [zeros 1024; zeros 1024; zeros 1024; zeros 1024];
     Http.body_end := None; Http.closed_more := 1; Http.closed_end := None;
     Http.closed := false |}.

(** A [404 Not Found] with an error page of two blocks. *)
Definition not_found_page : Http.response :=
  {| Http.status_code := 404;
     Http.headers := {[ "content-length" := "2048" ]};
     Http.body := [zeros 1024; zeros 1024]; Http.body_end := None;
     Http.closed_more := 0; Http.closed_end := None; Http.closed := false |}.

Definition never_cancel : Http.callback := fun _ => false.

(** The user cancels at every report. *)
Definition always_cancel : Http.callback := fun _ => true.

(** The user cancels once half of the file is reported. *)
Definition cancel_at_half : Http.callback := fun q => Qle_bool (1 # 2) q.

(** A HEAD answered [304 Not Modified]; the GET would succeed. *)
Definition not_modified : Http.response :=
  {| Http.status_code := 304; Http.headers := {[ "etag" := "v1" ]};
     Http.body := []; Http.body_end := None; Http.closed_more := 0;
     Http.closed_end := None;
     Http.closed := false |}.

Definition not_modified_net : Http.network :=
  {| Http.head := fun _ => Some not_modified;
     Http.get := fun _ => Some small_file;
     Http.head_browser := fun _ => Some not_modified |}.

(** The HEAD fails with 405, the GET succeeds. *)
Definition head_refused_net : Http.network :=
  {| Http.head := fun _ =>
       Some {| Http.status_code := 405; Http.headers := ∅; Http.body := [];
               Http.body_end := None; Http.closed_more := 0;
               Http.closed_end := None;
               Http.closed := false |};
     Http.get := fun _ => Some small_file;
     Http.head_browser := fun _ => None |}.

Definition offline_net : Http.network :=
  {| Http.head := fun _ => None; Http.get := fun _ => None;
     Http.head_browser := fun _ => None |}.

(** An installed artifact of 1000 bytes whose source now reports 2048. *)
Definition installed_state : Http.state :=
  {| Http.currend_download := None; Http.responses := [];
     Http.files := {[ "/apps/widget.AppImage" := zeros 1000 ]};
     Http.dirs := ∅; Http.dir_size := fun _ => 4096%Z; Http.trace := [] |}.

Definition grown_net : Http.network :=
  serving (response_200 {[ "content-length" := "2048" ]} []).

(** A transfer of [four_blocks] after its first chunk. *)
Definition mid_transfer : Http.state :=
  {| Http.currend_download := Some 0%nat; Http.responses := [four_blocks];
     Http.files := {[ "/tmp/dl/abc.appimage" := zeros 1024 ]};
     Http.dirs := {[ "/tmp/dl" ]}; Http.dir_size := fun _ => 4096%Z;
     Http.trace := [Http.EGet "https://example.org/app.AppImage";
                    Http.EWrite "/tmp/dl/abc.appimage" 1024;
                    Http.EProgress (1024 # 4096)] |}.

(** A transfer of [not_found_page] after its first chunk. *)
Definition mid_error_transfer : Http.state :=
  {| Http.currend_download := Some 0%nat; Http.responses := [not_found_page];
     Http.files := {[ "/tmp/dl/abc.appimage" := zeros 1024 ]};
     Http.dirs := {[ "/tmp/dl" ]}; Http.dir_size := fun _ => 4096%Z;
     Http.trace := [Http.EGet "https://example.org/app.AppImage";
                    Http.EWrite "/tmp/dl/abc.appimage" 1024;
                    Http.EProgress (1024 # 2048)] |}.

(** The downloads folder path is taken by a regular file. *)
Definition folder_taken : Http.state :=
  {| Http.currend_download := None; Http.responses := [];
     Http.files := {[ "/tmp/dl" := [] ]};
     Http.dirs := ∅; Http.dir_size := fun _ => 4096%Z; Http.trace := [] |}.

(** *** Dispatch *)

(** A [readelf] dump holding a GitHub descriptor. *)
Definition readelf_github (_ : list string) : string :=
  "String dump of section '.upd_info':"
  +:+ String PyStr.newline
        "  [     0]  gh-releases-zsync|acme|widget|latest|widget-*.AppImage.zsync".

Definition readelf_nothing (_ : list string) : string :=
  "readelf: Warning: Section '.upd_info' was not dumped because it does not exist".

(** A server that answers every request with a plain binary file. *)
Definition binary_net : Http.network :=
  serving (response_200 {[ "content-type" := "application/octet-stream";
                           "content-length" := "4096" ]} []).

(** A stand-in for [url_is_valid]: the link has an http(s) scheme. *)
Definition url_is_valid (url : string) : bool :=
  PyStr.startswith url "http://" || PyStr.startswith url "https://".

(** A stand-in for [AppImageProvider.supported_mimes]. *)
Definition supported_mimes : list string :=
  ["application/vnd.appimage"; "application/x-iso9660-appimage"].

(** The capability checks of the two URL variants, asking [binary_net]. *)
Definition static_check (url : string) : result bool :=
  fst (Http.static_can_handle_link url_is_valid supported_mimes binary_net url
         empty_state).

Definition dynamic_check (url : string) : result bool :=
  fst (Http.dynamic_can_handle_link binary_net url empty_state).

(** The same two checks with the network down. *)
Definition static_check_offline (url : string) : result bool :=
  fst (Http.static_can_handle_link url_is_valid supported_mimes offline_net url
         empty_state).

Definition dynamic_check_offline (url : string) : result bool :=
  fst (Http.dynamic_can_handle_link offline_net url empty_state).

Definition widget : Dispatch.AppImageListElement :=
  {| Dispatch.file_path := "/apps/widget.AppImage" |}.

End Sample.

(** * The updaters as objects, and [check_url_for_app] *)

(** ** Globs, in words *)

Module GlobSpec.

(** [expands g t]: [t] is the glob [g] with every star replaced by some
    text that holds no newline; the other characters stand for
    themselves. *)
Inductive expands : string -> string -> Prop :=
| expands_nil : expands "" ""
| expands_char c g t :
    c <> "*"%char -> expands g t -> expands (String c g) (String c t)
| expands_star g a t :
    PyStr.mem PyStr.newline a = false -> expands g t ->
    expands (String "*" g) (a +:+ t).

(** What the anchored pattern accepts: an expansion of the glob,
    possibly followed by one final newline. *)
Definition denotes (g s : string) : Prop :=
  exists t, expands g t /\ (s = t \/ s = t +:+ String PyStr.newline "").

End GlobSpec.

(** ** [StaticFileUpdater]: the object *)

Module Static.

Import Http.
Local Open Scope py_scope.

(** The fields of a [StaticFileUpdater] the methods read, but for
    [currend_download], which is the field of [Http.state]: the state
    follows one updater object. *)
Record updater : Type := {
  url : string;
  embedded : bool;
  download_folder : string
}.

(** [UpdateManager.__init__], line 24.  [tmp_dir] is what
    [GLib.get_tmp_dir()] returns. *)
Definition downloads_of (tmp_dir : string) : string :=
  tmp_dir +:+ "/it.mijorus.gearlever/downloads".

(** [StaticFileUpdater.__init__] (lines 121-125). *)
Definition init (tmp_dir url : string) (embedded : bool) : M updater :=
  let download_folder := downloads_of tmp_dir in
  let url := Re.sub_empty Assets.zsync_suffix url in
  modify (set_currend_download None) ;;
  ret {| url := url; embedded := embedded; download_folder := download_folder |}.

(** [download] as a method: [Http.download] at the fields of [self]. *)
Definition download (net : network) (self : updater) (random_name : string)
    (status_update_cb : callback) : M (string * string) :=
  Http.download net (url self) (download_folder self) random_name status_update_cb.

(** [p] lies below the directory [folder]. *)
Definition under (folder p : string) : bool := String.prefix (folder +:+ "/") p.

(** [shutil.rmtree(p)] on the flat file system of [Http.state]: a
    directory goes with every file and directory below it; a path that
    is no directory is refused ([NotADirectoryError] and
    [FileNotFoundError] are [OSError]s). *)
Definition rmtree (p : string) : M unit :=
  isdir ← gets (fun st => bool_decide (p ∈ dirs st));
  if (isdir : bool) then
    modify (fun st =>
      set_dirs (filter (fun d => d <> p /\ under p d = false) (dirs st))
        (set_files (filter (fun kv => under p kv.1 = false) (files st)) st))
  else raise OSError.

(** [cleanup] (lines 186-188). *)
Definition cleanup (self : updater) : M unit :=
  there ← path_exists (download_folder self);
  if (there : bool) then rmtree (download_folder self) else ret tt.

End Static.

(** ** [check_url_for_app] and dispatch over the real checks *)

Module Config.

Section CheckUrlForApp.

Variable sandbox_sh : list string -> string.
Variable static_can_handle_link : string -> result bool.
Variable dynamic_can_handle_link : string -> result bool.

(** [read_config_for_app] lives in [lib/json_config.py]; it returns the
    stored settings of the app, a dict.  The two entries read here are
    strings when they are there. *)
Variable read_config_for_app :
  option Dispatch.AppImageListElement -> gmap string string.

(** [get_model_by_name] at what [app_conf.get] returned: no class is
    named [None]. *)
Definition model_of (update_url_manager : option string) : option Dispatch.model :=
  match update_url_manager with
  | Some label => Dispatch.get_model_by_name label
  | None => None
  end.

(** [check_url_for_app] (lines 60-65). *)
Definition check_url_for_app (el : option Dispatch.AppImageListElement)
    : result (option Dispatch.instance) :=
  let app_conf := read_config_for_app el in
  let update_url := app_conf !! "update_url" in
  let update_url_manager := app_conf !! "update_url_manager" in
  Dispatch.check_url sandbox_sh static_can_handle_link dynamic_can_handle_link
    update_url el (model_of update_url_manager).

End CheckUrlForApp.

(** Dispatch with the capability checks of [Http], each asked in the
    state [st] of a network [net]. *)
Definition check_url_on (sandbox_sh : list string -> string)
    (url_is_valid : string -> bool) (supported_mimes : list string)
    (net : Http.network) (st : Http.state)
    (url : option string) (el : option Dispatch.AppImageListElement)
    (forced : option Dispatch.model) : result (option Dispatch.instance) :=
  Dispatch.check_url sandbox_sh
    (fun u => fst (Http.static_can_handle_link url_is_valid supported_mimes net u st))
    (fun u => fst (Http.dynamic_can_handle_link net u st))
    url el forced.

End Config.

Module SampleConfig.

(** Settings that name a manager that does not exist. *)
Definition mistyped (_ : option Dispatch.AppImageListElement) : gmap string string :=
  {[ "update_url" := "https://example.org/widget.bin";
     "update_url_manager" := "GithubUpdate" ]}.

(** Settings that force the GitHub variant. *)
Definition forced_github (_ : option Dispatch.AppImageListElement) : gmap string string :=
  {[ "update_url" := "https://github.com/acme/widget/releases/download/v1/widget.AppImage";
     "update_url_manager" := "GithubUpdater" ]}.

End SampleConfig.

(** ** [GithubUpdater]: the object *)

Module GithubObject.

(** What leaves the constructor when it fails: an exception of
    [get_url_data], or the [TypeError] of subscripting the [False] it
    returned. *)
Inductive init_error : Type :=
| Raised (e : exn)
| TypeError.

(** The fields set once by [__init__]. *)
Record updater : Type := {
  url_data : Github.url_data;
  url : string;
  embedded : bool;
  download_folder : string
}.

(** The world of a [GithubUpdater]: the field [staticfile_manager],
    which the methods assign, and the world of that manager. *)
Record state : Type := {
  http : Http.state;
  staticfile_manager : option Static.updater
}.

(** [__init__] (lines 381-389). *)
Definition init (tmp_dir url : string) (embedded : bool) : init_error + updater :=
  match Github.get_url_data url with
  | Raise e => inl (Raised e)
  | Return None => inl TypeError
  | Return (Some d) =>
      inr {| url_data := d;
             url := "https://github.com/" +:+ Github.username d +:+ "/"
                    +:+ Github.repo d +:+ "/releases/download/"
                    +:+ Github.tag_name d +:+ "/" +:+ Github.filename d;
             embedded := embedded;
             download_folder := Static.downloads_of tmp_dir |}
  end.

Section Methods.

(** The releases endpoint: what lines 479-485 come back with for a URL,
    [None] when the request, the status check or the decoding raised.
    [system_arch] is what [terminal.sandbox_sh(['arch'])] returns. *)
Variable releases : string -> option Assets.release_data.
Variable system_arch : string.
Variable net : Http.network.
Variable tmp_dir : string.

(** [fetch_target_asset], as a method. *)
Definition fetch_target_asset (self : updater) : option Assets.asset :=
  Assets.fetch_target_asset (url_data self) (embedded self)
    (releases (Assets.rel_url (url_data self))) system_arch.

(** [download] (lines 433-444).  [None] is the bare [return]. *)
Definition download (self : updater) (random_name : string)
    (status_update_cb : Http.callback) (g : state)
    : result (option (string * Z)) * state :=
  match fetch_target_asset self with
  | None => (Return None, g)
  | Some target_asset =>
      let dwnl := Assets.browser_download_url target_asset in
      match Static.init tmp_dir dwnl false (http g) with
      | (Raise e, s) =>
          (Raise e, {| http := s; staticfile_manager := staticfile_manager g |})
      | (Return m, s) =>
          match Static.download net m random_name status_update_cb s with
          | (Raise e, s') => (Raise e, {| http := s'; staticfile_manager := Some m |})
          | (Return (fname, etag), s') =>
              (Return (Some (fname, Assets.id target_asset)),
               {| http := s'; staticfile_manager := None |})
          end
      end
  end.

(** [cancel_download] (lines 446-449). *)
Definition cancel_download (g : state) : result unit * state :=
  match staticfile_manager g with
  | None => (Return tt, g)
  | Some m =>
      match Http.cancel_download (http g) with
      | (Raise e, s) => (Raise e, {| http := s; staticfile_manager := Some m |})
      | (Return _, s) => (Return tt, {| http := s; staticfile_manager := None |})
      end
  end.

(** [cleanup] (lines 451-453). *)
Definition cleanup (g : state) : result unit * state :=
  match staticfile_manager g with
  | None => (Return tt, g)
  | Some m =>
      match Static.cleanup m (http g) with
      | (r, s) => (r, {| http := s; staticfile_manager := Some m |})
      end
  end.

(** [is_update_available] (lines 538-550). *)
Definition is_update_available (supported_mimes : list string) (self : updater)
    (el : Dispatch.AppImageListElement) : Http.M bool :=
  match fetch_target_asset self with
  | Some target_asset =>
      let ct_supported :=
        existsb (String.eqb (Assets.content_type target_asset))
          (supported_mimes
           ++ ["raw"; "binary/octet-stream"; "application/octet-stream"])%list in
      if ct_supported then
        Http.bind (Http.getsize (Dispatch.file_path el)) (fun old_size =>
        Http.ret (negb (Assets.size target_asset =? old_size)%Z))
      else Http.ret false
  | None => Http.ret false
  end.

End Methods.

End GithubObject.

Module SampleGithub.

(** The updater of [acme/app], any [app-*.AppImage] of the latest
    release. *)
Definition app_updater : GithubObject.updater :=
  {| GithubObject.url_data := Sample.app_descriptor;
     GithubObject.url := "https://github.com/acme/app/releases/download/*/app-*.AppImage";
     GithubObject.embedded := false;
     GithubObject.download_folder := "/tmp/it.mijorus.gearlever/downloads" |}.

(** A release that holds the x86 asset only. *)
Definition release_x86 : Assets.release_data :=
  {| Assets.rel_tag_name := "v1"; Assets.assets := [Sample.x86_asset] |}.

Definition releases (_ : string) : option Assets.release_data := Some release_x86.

Definition idle : GithubObject.state :=
  {| GithubObject.http := Sample.empty_state;
     GithubObject.staticfile_manager := None |}.

End SampleGithub.

(** ** [DynamicUpdater]: the object *)

Module Dynamic.

(** What the [requests.get] of [get_static_url] comes back with, the
    redirects followed: the response and its [url], the address that
    was fetched last; [None] when the call raises. *)
Definition resolver : Type := string -> option (Http.response * string).

(** Truthiness of what [headers.get] returns: [None] or a [str]. *)
Definition truthy_opt (o : option string) : bool :=
  match o with
  | Some s => PyStr.truthy s
  | None => false
  end.

(** [get_static_url] (lines 244-285).  The answer is a [str], or the
    [None] that [headers.get("location")] gives when the header is
    missing; both handlers leave [static_url] as it is, the empty
    string, since nothing raises after [raise_for_status]. *)
Definition get_static_url (resolve : resolver) (url : string) : option string :=
  match resolve url with
  | None => Some ""
  | Some (resp, resp_url) =>
      if negb (Http.ok resp) then Some ""
      else
        let static_url := Http.headers resp !! "location" in
        let static_url :=
          if negb (truthy_opt static_url) && negb (String.eqb resp_url url)
          then Some resp_url
          else static_url in
        if negb (truthy_opt static_url) then
          let content_disp :=
            default "" (Http.headers resp !! "content-disposition") in
          if PyStr.contains content_disp "filename=" then Some url
          else static_url
        else static_url
  end.

(** The fields [__init__] sets for good. *)
Record updater : Type := {
  original_url : string;
  embedded : bool;
  dynamic_url : string;
  download_folder : string
}.

(** The world of a [DynamicUpdater]: the field [url], which
    [download] and [is_update_available] assign, and the world of the
    parent class. *)
Record state : Type := {
  http : Http.state;
  url : string
}.

(** [__init__] (lines 234-242): the updater and the first value of its
    [url]. *)
Definition init (tmp_dir : string) (resolve : resolver) (url : string)
    (embedded : bool) : Http.M (updater * string) :=
  let static_url := get_static_url resolve url in
  Http.bind
    (if truthy_opt static_url
     then Static.init tmp_dir (default "" static_url) embedded
     else Static.init tmp_dir url embedded)
    (fun parent =>
       Http.ret ({| original_url := url;
                    embedded := Static.embedded parent;
                    dynamic_url := url;
                    download_folder := Static.download_folder parent |},
                 Static.url parent)).

(** [download] (lines 338-347). *)
Definition download (resolve : resolver) (net : Http.network) (self : updater)
    (random_name : string) (status_update_cb : Http.callback) (g : state)
    : result (string * string) * state :=
  let url1 :=
    if negb (PyStr.truthy (url g)) || String.eqb (url g) (original_url self) then
      let static_url := get_static_url resolve (original_url self) in
      if truthy_opt static_url then default "" static_url else url g
    else url g in
  match Http.download net url1 (download_folder self) random_name
          status_update_cb (http g) with
  | (r, s) => (r, {| http := s; url := url1 |})
  end.

(** [is_update_available] (lines 349-360). *)
Definition is_update_available (resolve : resolver) (net : Http.network)
    (self : updater) (el : Dispatch.AppImageListElement) (g : state)
    : result bool * state :=
  let fresh_static_url := get_static_url resolve (original_url self) in
  if truthy_opt fresh_static_url
     && negb (String.eqb (default "" fresh_static_url) (url g))
  then (Return true, {| http := http g; url := default "" fresh_static_url |})
  else
    match Http.is_update_available net (url g) (Dispatch.file_path el) (http g) with
    | (r, s) => (r, {| http := s; url := url g |})
    end.

End Dynamic.

Module SampleDynamic.

(** A download page that redirects to the file of the day. *)
Definition redirecting (target : string) : Dynamic.resolver :=
  fun _ => Some (Sample.response_200 ∅ [], target).

Definition page : Dynamic.updater :=
  {| Dynamic.original_url := "https://example.org/latest";
     Dynamic.embedded := false;
     Dynamic.dynamic_url := "https://example.org/latest";
     Dynamic.download_folder := "/tmp/it.mijorus.gearlever/downloads" |}.

End SampleDynamic.


(** * Properties *)

(** ** Strings *)

Section StringFacts.

Lemma app_String c s t : String c s +:+ t = String c (s +:+ t).
Proof. reflexivity. Qed.

Lemma app_Empty t : "" +:+ t = t.
Proof. reflexivity. Qed.

Lemma mem_app c a b : PyStr.mem c (a +:+ b) = PyStr.mem c a || PyStr.mem c b.
Proof.
  induction a as [|x a IH]; simpl; [reflexivity|].
  rewrite IH. apply orb_assoc.
Qed.

Lemma mem_cons_false c x a :
  PyStr.mem c (String x a) = false -> Ascii.eqb x c = false /\ PyStr.mem c a = false.
Proof. simpl. intros H. apply orb_false_iff in H. exact H. Qed.

Lemma split_nonempty sep s : PyStr.split sep s <> [].
Proof.
  induction s as [|c s IH]; simpl; [discriminate|].
  destruct (Ascii.eqb c sep); [discriminate|].
  destruct (PyStr.split sep s); discriminate.
Qed.

Lemma split_nosep sep a : PyStr.mem sep a = false -> PyStr.split sep a = [a].
Proof.
  induction a as [|c a IH]; simpl; intros H; [reflexivity|].
  apply orb_false_iff in H as [Hc Ha].
  rewrite Hc, (IH Ha). reflexivity.
Qed.

Lemma split_app sep a b :
  PyStr.mem sep a = false ->
  PyStr.split sep (a +:+ String sep b) = a :: PyStr.split sep b.
Proof.
  induction a as [|c a IH]; simpl; intros H.
  - rewrite Ascii.eqb_refl. reflexivity.
  - apply orb_false_iff in H as [Hc Ha].
    rewrite Hc, (IH Ha). reflexivity.
Qed.

Lemma length_split sep s : length (PyStr.split sep s) = S (PyStr.count sep s).
Proof.
  induction s as [|c s IH]; simpl; [reflexivity|].
  destruct (Ascii.eqb c sep); simpl.
  - rewrite IH. reflexivity.
  - destruct (PyStr.split sep s) as [|h t] eqn:E; simpl in *; [discriminate|].
    exact IH.
Qed.

Lemma remove_char_id c a : PyStr.mem c a = false -> PyStr.remove_char c a = a.
Proof.
  induction a as [|x a IH]; simpl; intros H; [reflexivity|].
  apply orb_false_iff in H as [Hc Ha].
  rewrite Hc, (IH Ha). reflexivity.
Qed.

Lemma split1_nosep c a : PyStr.mem c a = false -> PyStr.split1 c a = (a, None).
Proof.
  induction a as [|x a IH]; simpl; intros H; [reflexivity|].
  apply orb_false_iff in H as [Hc Ha].
  rewrite Hc, (IH Ha). reflexivity.
Qed.

Lemma mem_String c x a : PyStr.mem c (String x a) = Ascii.eqb x c || PyStr.mem c a.
Proof. reflexivity. Qed.

Lemma length_app_string a b :
  String.length (a +:+ b) = (String.length a + String.length b)%nat.
Proof.
  induction a as [|c a IH]; [reflexivity|].
  rewrite app_String. cbn. rewrite IH. reflexivity.
Qed.

Lemma app_assoc_string a b c : (a +:+ b) +:+ c = a +:+ (b +:+ c).
Proof. induction a as [|x a IH]; [reflexivity|]. rewrite !app_String, IH. reflexivity. Qed.

Lemma string_prefix_cons c t x s :
  String.prefix (String c t) (String x s) = Ascii.eqb x c && String.prefix t s.
Proof.
  cbn [String.prefix]. destruct (ascii_dec c x) as [->|Hne].
  - rewrite Ascii.eqb_refl. reflexivity.
  - destruct (Ascii.eqb_spec x c); [congruence|reflexivity].
Qed.

Lemma startswith_split s p :
  PyStr.startswith s p = true -> s = p +:+ PyStr.drop (String.length p) s.
Proof.
  unfold PyStr.startswith. revert s.
  induction p as [|c p IH]; intros s H.
  - destruct s; reflexivity.
  - destruct s as [|x s]; [discriminate|].
    rewrite string_prefix_cons in H. apply andb_true_iff in H as [Hc H].
    apply Ascii.eqb_eq in Hc. subst x.
    rewrite app_String. cbn [String.length PyStr.drop]. f_equal. apply IH. exact H.
Qed.

Lemma prefix_app p s : String.prefix p (p +:+ s) = true.
Proof.
  induction p as [|c p IH]; [destruct s; reflexivity|].
  rewrite app_String, string_prefix_cons, Ascii.eqb_refl. exact IH.
Qed.

Lemma drop_app p s : PyStr.drop (String.length p) (p +:+ s) = s.
Proof. induction p as [|c p IH]; [destruct s; reflexivity|]. exact IH. Qed.

Lemma take_all s : PyStr.take (String.length s) s = s.
Proof. induction s as [|c s IH]; [reflexivity|]. cbn. rewrite IH. reflexivity. Qed.

Lemma replace_char_app a b s t :
  PyStr.replace_char a b (s +:+ t)
  = PyStr.replace_char a b s +:+ PyStr.replace_char a b t.
Proof.
  induction s as [|c s IH]; [reflexivity|].
  rewrite !app_String. cbn. rewrite IH. reflexivity.
Qed.

Lemma replace_char_no_newline s :
  PyStr.mem PyStr.newline (PyStr.replace_char PyStr.newline " " s) = false.
Proof.
  induction s as [|c s IH]; [reflexivity|]. cbn [PyStr.replace_char PyStr.mem].
  rewrite IH, orb_false_r.
  destruct (Ascii.eqb_spec c PyStr.newline) as [->|Hne]; [reflexivity|].
  apply Ascii.eqb_neq. exact Hne.
Qed.

End StringFacts.

(** Push a literal prefix of an append inside. *)
Ltac norm_app := rewrite ?app_String, ?app_Empty.

(** ** [get_url_data] *)

Section GithubFacts.

Import Github.

Lemma url_segment_mem s :
  url_segment s = true ->
  PyStr.mem "/" s = false /\ PyStr.mem "?" s = false /\ PyStr.mem "#" s = false
  /\ PyStr.mem "|" s = false /\ PyStr.mem "009" s = false
  /\ PyStr.mem "010" s = false /\ PyStr.mem "013" s = false.
Proof.
  unfold url_segment, free_of. simpl.
  rewrite !andb_true_iff, !negb_true_iff. tauto.
Qed.

Lemma parse_items_pipe_form tn a o r l f :
  PyStr.mem "|" a = false -> PyStr.mem "|" o = false -> PyStr.mem "|" r = false ->
  PyStr.mem "|" l = false -> PyStr.mem "|" f = false ->
  Github.parse_items tn (pipe_form a o r l f)
  = Some {| Github.username := o; Github.repo := r; Github.release := l;
            Github.filename := f; Github.tag_name := tn |}.
Proof.
  intros Ha Ho Hr Hl Hf. unfold Github.parse_items, pipe_form.
  norm_app.
  rewrite (split_app "|" a), (split_app "|" o), (split_app "|" r),
    (split_app "|" l), (split_nosep "|" f) by assumption.
  reflexivity.
Qed.

Lemma cut_nosep c a : PyStr.mem c a = false -> UrlParse.cut c a = (a, "").
Proof. intros H. unfold UrlParse.cut. rewrite (split1_nosep _ _ H). reflexivity. Qed.

Lemma urlsplit_github (p : string) :
  PyStr.mem "009" p = false -> PyStr.mem "010" p = false ->
  PyStr.mem "013" p = false -> PyStr.mem "#" p = false ->
  PyStr.mem "?" p = false ->
  UrlParse.urlsplit ("https://github.com/" +:+ p)
  = Return {| UrlParse.scheme := "https"; UrlParse.netloc := "github.com";
              UrlParse.path := String "/" p;
              UrlParse.query := ""; UrlParse.fragment := "" |}.
Proof.
  intros H9 H10 H13 Hf Hq.
  unfold UrlParse.urlsplit.
  assert (C : UrlParse.clean ("https://github.com/" +:+ p) = "https://github.com/" +:+ p).
  { unfold UrlParse.clean.
    replace (UrlParse.lstrip_c0 ("https://github.com/" +:+ p))
      with ("https://github.com/" +:+ p) by reflexivity.
    rewrite (remove_char_id "009") by (rewrite mem_app, H9; reflexivity).
    rewrite (remove_char_id "013") by (rewrite mem_app, H13; reflexivity).
    rewrite (remove_char_id "010") by (rewrite mem_app, H10; reflexivity).
    reflexivity. }
  rewrite C.
  replace (UrlParse.split_scheme ("https://github.com/" +:+ p))
    with ("https", "//github.com/" +:+ p) by reflexivity.
  replace (UrlParse.split_netloc ("//github.com/" +:+ p))
    with ("github.com", String "/" p) by reflexivity.
  replace (UrlParse.unmatched_bracket "github.com") with false by reflexivity.
  replace (PyStr.mem "[" "github.com") with false by reflexivity.
  cbn [andb].
  assert (Hf' : PyStr.mem "#" (String "/" p) = false) by (simpl; exact Hf).
  assert (Hq' : PyStr.mem "?" (String "/" p) = false) by (simpl; exact Hq).
  rewrite (cut_nosep "#" _ Hf'), (cut_nosep "?" _ Hq').
  reflexivity.
Qed.

Ltac mem_solve :=
  repeat (rewrite ?mem_app, ?mem_String);
  repeat match goal with H : PyStr.mem _ _ = false |- _ => rewrite H; clear H end;
  reflexivity.

Lemma get_url_data_canonical O R T F :
  url_segment O = true -> url_segment R = true ->
  url_segment T = true -> url_segment F = true ->
  Github.get_url_data (canonical_url O R T F)
  = Return (Some {| Github.username := O; Github.repo := R;
                    Github.release := "latest"; Github.filename := F;
                    Github.tag_name := T |}).
Proof.
  intros HO HR HT HF.
  apply url_segment_mem in HO as (O1 & O2 & O3 & O4 & O5 & O6 & O7).
  apply url_segment_mem in HR as (R1 & R2 & R3 & R4 & R5 & R6 & R7).
  apply url_segment_mem in HT as (T1 & T2 & T3 & T4 & T5 & T6 & T7).
  apply url_segment_mem in HF as (F1 & F2 & F3 & F4 & F5 & F6 & F7).
  set (p := O +:+ String "/" (R +:+ String "/" ("releases" +:+ String "/"
              ("download" +:+ String "/" (T +:+ String "/" F))))).
  assert (E : canonical_url O R T F = "https://github.com/" +:+ p).
  { unfold canonical_url, p. norm_app. reflexivity. }
  assert (M9 : PyStr.mem "009" p = false) by (unfold p; mem_solve).
  assert (M10 : PyStr.mem "010" p = false) by (unfold p; mem_solve).
  assert (M13 : PyStr.mem "013" p = false) by (unfold p; mem_solve).
  assert (Mf : PyStr.mem "#" p = false) by (unfold p; mem_solve).
  assert (Mq : PyStr.mem "?" p = false) by (unfold p; mem_solve).
  unfold Github.get_url_data.
  replace (PyStr.startswith (canonical_url O R T F) "https://") with true
    by (rewrite E; reflexivity).
  rewrite E, urlsplit_github by assumption.
  cbn [UrlParse.netloc UrlParse.path].
  replace (String.eqb "github.com" "github.com") with true by reflexivity.
  cbn [negb].
  change (String "/" p) with ("" +:+ String "/" p). unfold p.
  rewrite (split_app "/" ""), (split_app "/" O), (split_app "/" R),
    (split_app "/" "releases"), (split_app "/" "download"), (split_app "/" T),
    (split_nosep "/" F) by (assumption || reflexivity).
  cbn [length Nat.eqb negb nth].
  replace (String.eqb "releases" "releases") with true by reflexivity.
  replace (String.eqb "download" "download") with true by reflexivity.
  cbn [negb orb].
  change ("|" +:+ O +:+ "|" +:+ R +:+ "|" +:+ "latest" +:+ "|" +:+ F)
    with (pipe_form "" O R "latest" F).
  rewrite parse_items_pipe_form by (assumption || reflexivity).
  reflexivity.
Qed.

(** C5: the two accepted grammars and the rejections.  A pipe-form
    descriptor of five fields yields its last four fields and the tag
    pattern [*]; a release-asset URL on [github.com] yields owner, repo,
    the selector [latest], the file name and the tag; an [https] URL on
    any other host, or whose path does not split in seven at the
    slashes, yields [False]; and one [urlsplit] refuses, which is one
    whose host part holds a square bracket without its partner or
    brackets around what is no IPv6 or IPvFuture address, yields none
    either: the [ValueError] leaves [get_url_data]. *)
Theorem get_url_data_grammar :
  (forall tag owner repo rel file,
      PyStr.mem "|" tag = false -> PyStr.mem "|" owner = false ->
      PyStr.mem "|" repo = false -> PyStr.mem "|" rel = false ->
      PyStr.mem "|" file = false ->
      PyStr.startswith (pipe_form tag owner repo rel file) "https://" = false ->
      Github.get_url_data (pipe_form tag owner repo rel file)
      = Return (Some {| Github.username := owner; Github.repo := repo;
                        Github.release := rel; Github.filename := file;
                        Github.tag_name := "*" |}))
  /\ (forall O R T F,
      url_segment O = true -> url_segment R = true ->
      url_segment T = true -> url_segment F = true ->
      Github.get_url_data (canonical_url O R T F)
      = Return (Some {| Github.username := O; Github.repo := R;
                        Github.release := "latest"; Github.filename := F;
                        Github.tag_name := T |}))
  /\ (forall url parts,
      PyStr.startswith url "https://" = true ->
      UrlParse.urlsplit url = Return parts ->
      UrlParse.netloc parts <> "github.com"
      \/ length (PyStr.split "/" (UrlParse.path parts)) <> 7 ->
      Github.get_url_data url = Return None
      /\ Github.can_handle_link url = Return false)
  /\ (forall url e,
      PyStr.startswith url "https://" = true ->
      UrlParse.urlsplit url = Raise e ->
      Github.get_url_data url = Raise e).
Proof.
  split; [|split; [|split]].
  - intros tag owner repo rel file Ht Ho Hr Hl Hf Hs.
    unfold Github.get_url_data. rewrite Hs.
    rewrite parse_items_pipe_form by assumption. reflexivity.
  - exact get_url_data_canonical.
  - intros url parts Hs Hu Hbad.
    assert (E : Github.get_url_data url = Return None).
    { unfold Github.get_url_data. rewrite Hs, Hu.
      destruct (String.eqb (UrlParse.netloc parts) "github.com") eqn:En;
        [|reflexivity].
      apply String.eqb_eq in En.
      destruct Hbad as [Hn|Hl]; [contradiction|].
      cbn [negb].
      destruct (Nat.eqb_spec (length (PyStr.split "/" (UrlParse.path parts))) 7);
        [contradiction|reflexivity]. }
    split; [exact E|]. unfold Github.can_handle_link. rewrite E. reflexivity.
  - intros url e Hs Hu. unfold Github.get_url_data. rewrite Hs, Hu. reflexivity.
Qed.

Lemma get_url_data_grammar_witness :
  Github.get_url_data
    "gh-releases-zsync|probono|AppImages|latest|Subsurface-*x86_64.AppImage.zsync"
  = Return (Some {| Github.username := "probono"; Github.repo := "AppImages";
                    Github.release := "latest";
                    Github.filename := "Subsurface-*x86_64.AppImage.zsync";
                    Github.tag_name := "*" |})
  /\ Github.get_url_data
       "https://github.com/probono/AppImages/releases/download/continuous/Subsurface.AppImage"
     = Return (Some {| Github.username := "probono"; Github.repo := "AppImages";
                       Github.release := "latest";
                       Github.filename := "Subsurface.AppImage";
                       Github.tag_name := "continuous" |})
  /\ Github.get_url_data "https://github.com/probono/AppImages" = Return None
  /\ Github.get_url_data "https://example.org/o/r/releases/download/t/f" = Return None
  /\ Github.get_url_data "https://[example.org/o/r/releases/download/t/f"
     = Raise ValueError
  /\ Github.get_url_data "https://[::1]/o/r/releases/download/t/f" = Return None
  /\ Github.get_url_data "https://[x]/o/r/releases/download/t/f" = Raise ValueError.
Proof.
  destruct get_url_data_grammar as (Hpipe & Hurl & Hrej & Hraise).
  split; [|split; [|split; [|split; [|split; [|split]]]]].
  - apply (Hpipe "gh-releases-zsync" "probono" "AppImages" "latest"
             "Subsurface-*x86_64.AppImage.zsync"); reflexivity.
  - apply (Hurl "probono" "AppImages" "continuous" "Subsurface.AppImage");
      reflexivity.
  - apply (Hrej "https://github.com/probono/AppImages"
             {| UrlParse.scheme := "https"; UrlParse.netloc := "github.com";
                UrlParse.path := "/probono/AppImages";
                UrlParse.query := ""; UrlParse.fragment := "" |});
      [reflexivity | reflexivity | right; vm_compute; lia].
  - apply (Hrej "https://example.org/o/r/releases/download/t/f"
             {| UrlParse.scheme := "https"; UrlParse.netloc := "example.org";
                UrlParse.path := "/o/r/releases/download/t/f";
                UrlParse.query := ""; UrlParse.fragment := "" |});
      [reflexivity | reflexivity | left; discriminate].
  - apply (Hraise "https://[example.org/o/r/releases/download/t/f" ValueError);
      reflexivity.
  - apply (Hrej "https://[::1]/o/r/releases/download/t/f"
             {| UrlParse.scheme := "https"; UrlParse.netloc := "[::1]";
                UrlParse.path := "/o/r/releases/download/t/f";
                UrlParse.query := ""; UrlParse.fragment := "" |});
      [reflexivity | reflexivity | left; discriminate].
  - apply (Hraise "https://[x]/o/r/releases/download/t/f" ValueError);
      reflexivity.
Defined.

(** C10: a string that does not start with [https://] and holds exactly
    four [|] is parsed, whatever its first field is, and
    [can_handle_link] answers [True]. *)
Theorem get_url_data_ignores_leading_field (url : string) :
  PyStr.startswith url "https://" = false ->
  PyStr.count "|" url = 4 ->
  Github.get_url_data url
  = Return (Some {| Github.username := nth 1 (PyStr.split "|" url) "";
                    Github.repo := nth 2 (PyStr.split "|" url) "";
                    Github.release := nth 3 (PyStr.split "|" url) "";
                    Github.filename := nth 4 (PyStr.split "|" url) "";
                    Github.tag_name := "*" |})
  /\ Github.can_handle_link url = Return true.
Proof.
  intros Hs Hc.
  assert (E : Github.get_url_data url
              = Return (Some {| Github.username := nth 1 (PyStr.split "|" url) "";
                    Github.repo := nth 2 (PyStr.split "|" url) "";
                    Github.release := nth 3 (PyStr.split "|" url) "";
                    Github.filename := nth 4 (PyStr.split "|" url) "";
                    Github.tag_name := "*" |})).
  { unfold Github.get_url_data. rewrite Hs.
    unfold Github.parse_items. rewrite length_split, Hc. reflexivity. }
  split; [exact E|].
  unfold Github.can_handle_link. rewrite E. reflexivity.
Qed.

Lemma get_url_data_ignores_leading_field_witness :
  PyStr.startswith "a|b|c|d|e" "https://" = false
  /\ PyStr.count "|" "a|b|c|d|e" = 4
  /\ Github.get_url_data "a|b|c|d|e"
     = Return (Some {| Github.username := "b"; Github.repo := "c";
                       Github.release := "d"; Github.filename := "e";
                       Github.tag_name := "*" |})
  /\ Github.can_handle_link "a|b|c|d|e" = Return true.
Proof.
  split; [reflexivity|]. split; [reflexivity|].
  apply (get_url_data_ignores_leading_field "a|b|c|d|e"); reflexivity.
Defined.

End GithubFacts.

(** ** The matcher and [check_app] *)

Lemma run_lit tok : forall pos s k,
  Re.run (Re.lit tok) pos s k
  = if String.prefix tok s
    then k (pos + String.length tok)%nat (PyStr.drop (String.length tok) s)
    else None.
Proof.
  induction tok as [|c tok IH]; intros pos s k.
  - cbn [Re.lit Re.run String.length PyStr.drop]. rewrite Nat.add_0_r.
    destruct s; reflexivity.
  - destruct s as [|x s]; [reflexivity|].
    rewrite string_prefix_cons. cbn [Re.lit Re.run Re.cclass_match String.length PyStr.drop].
    destruct (Ascii.eqb x c); [|reflexivity].
    rewrite IH. cbn [andb].
    replace (S pos + String.length tok)%nat with (pos + S (String.length tok))%nat by lia.
    reflexivity.
Qed.


(** The greedy star of [pattern_link] on one line: it backs off to the
    last character, which the final space of the flattened dump is. *)
Lemma many_dot_then_space s :
  PyStr.mem PyStr.newline s = false ->
  forall pos,
    Re.many Re.CDot pos (s +:+ " ")
      (fun p s' => Re.run (Re.Chr Re.CSpace) p s' Re.accept)
    = Some (pos + String.length s + 1)%nat.
Proof.
  induction s as [|c s IH]; intros Hnl pos.
  - rewrite app_Empty. cbn.
    replace (PyStr.isspace " ") with true by reflexivity.
    unfold Re.accept. f_equal. lia.
  - rewrite app_String. cbn [Re.many Re.cclass_match].
    apply mem_cons_false in Hnl as [Hc Hs].
    rewrite Hc. cbn [negb]. rewrite (IH Hs). f_equal. cbn. lia.
Qed.

Lemma search_from_hit r pos s e :
  Re.match_at r pos s = Some e -> Re.search_from r pos s = Some (pos, e).
Proof. intros H. destruct s; cbn [Re.search_from]; rewrite H; reflexivity. Qed.

Lemma sub_from_step fuel r pos s e :
  Re.match_at r pos s = Some e -> (pos < e)%nat ->
  Re.sub_from (S fuel) r pos s = Re.sub_from fuel r e (PyStr.drop (e - pos) s).
Proof.
  intros Hm Hlt. cbn [Re.sub_from]. rewrite Hm.
  apply Nat.ltb_lt in Hlt. rewrite Hlt. reflexivity.
Qed.

Lemma sub_from_anchored r : forall fuel pos s,
  (0 < pos)%nat -> Re.sub_from fuel (Re.Seq Re.Bol r) pos s = s.
Proof.
  induction fuel as [|fuel IH]; intros pos s Hpos; [reflexivity|].
  cbn [Re.sub_from]. unfold Re.match_at. cbn [Re.run].
  destruct (Nat.eqb_spec pos 0) as [->|_]; [lia|].
  destruct s as [|c s]; [reflexivity|]. rewrite IH by lia. reflexivity.
Qed.

(** What the second pattern yields in general: when the dump starts
    with [zsync|http] and the first pattern finds nothing, the match is
    the whole flattened dump, and the answer is all of it but the
    [zsync|] prefix, trimmed. *)
Lemma check_app_link_whole_dump out :
  PyStr.startswith out "zsync|http" = true ->
  Re.search Checker.pattern_gh
    (PyStr.replace_char PyStr.newline " " out +:+ " ") = None ->
  Checker.check_app_out out
  = Some (PyStr.strip
            (PyStr.drop 6 (PyStr.replace_char PyStr.newline " " out +:+ " "))).
Proof.
  intros Hs Hgh. unfold Checker.check_app_out. rewrite Hgh.
  apply startswith_split in Hs. cbn [String.length] in Hs.
  set (rest := PyStr.drop 10 out) in Hs.
  assert (Ef : PyStr.replace_char PyStr.newline " " out +:+ " "
               = "zsync|http" +:+ (PyStr.replace_char PyStr.newline " " rest +:+ " ")).
  { rewrite Hs at 1. rewrite replace_char_app, app_assoc_string. reflexivity. }
  set (flat := PyStr.replace_char PyStr.newline " " out +:+ " ") in *.
  set (tail := PyStr.replace_char PyStr.newline " " rest) in *.
  assert (Em : Re.match_at Checker.pattern_link 0 flat = Some (String.length flat)).
  { rewrite Ef. unfold Re.match_at, Checker.pattern_link. cbn [Re.run Nat.eqb].
    rewrite run_lit.
    rewrite prefix_app, drop_app.
    cbn [Re.run]. rewrite many_dot_then_space by apply replace_char_no_newline.
    f_equal. rewrite !length_app_string. cbn. lia. }
  unfold Re.search. rewrite (search_from_hit _ _ _ _ Em).
  rewrite Nat.sub_0_r. cbn [PyStr.drop].
  rewrite take_all. f_equal. f_equal.
  rewrite Ef. unfold Re.sub_empty.
  rewrite (sub_from_step _ _ _ _ 6%nat).
  - unfold Checker.pattern_zsync_prefix. rewrite sub_from_anchored by lia. reflexivity.
  - unfold Re.match_at, Checker.pattern_zsync_prefix. cbn [Re.run Nat.eqb].
    rewrite run_lit.
    change ("zsync|http" +:+ tail +:+ " ") with ("zsync|" +:+ ("http" +:+ tail +:+ " ")).
    rewrite prefix_app. reflexivity.
  - lia.
Qed.


(** C4 fails on the second pattern: in [pattern_link] the star is
    greedy and the dump is flattened to one line, so the match runs to
    the last whitespace of the dump, not the next one; what comes after
    the URL is returned with it. *)
Theorem check_app_link_runs_to_last_whitespace :
  Checker.check_app_out "zsync|https://x/y.bin next"
  = Some "https://x/y.bin next".
Proof. vm_compute. reflexivity. Qed.

(** The two dumps the extractor is meant for are taken apart as
    intended. *)
Example check_app_github_descriptor :
  Checker.check_app_out
    "zsync|gh-releases-zsync|acme|widget|latest|widget-*.AppImage.zsync "
  = Some "gh-releases-zsync|acme|widget|latest|widget-*.AppImage.zsync".
Proof. vm_compute. reflexivity. Qed.

Example check_app_static_url :
  Checker.check_app_out "zsync|https://x/y.bin " = Some "https://x/y.bin".
Proof. vm_compute. reflexivity. Qed.

(** [pattern_link] is anchored at the start of the dump: a descriptor
    further in is not found. *)
Example check_app_link_is_anchored :
  Checker.check_app_out "  [     0]  zsync|https://x/y.bin" = None.
Proof. vm_compute. reflexivity. Qed.

(** In [pattern_gh] the dot before [zsync] stands for any character, and
    the match runs to the last such place. *)
Example check_app_github_dot_is_wild :
  Checker.check_app_out "gh-releases-zsync|acme|widget|latest|widget_zsync tail-zsync end"
  = Some "gh-releases-zsync|acme|widget|latest|widget_zsync tail-zsync".
Proof. vm_compute. reflexivity. Qed.

Example check_app_nothing :
  Checker.check_app_out (Sample.readelf_nothing []) = None.
Proof. vm_compute. reflexivity. Qed.

(** ** The marker patterns and asset selection *)

Section AssetFacts.

Import Re Assets.

Lemma run_delim pos s k :
  Re.run Assets.delim pos s k
  = match s with
    | String c s' => if is_delim c then k (S pos) s' else None
    | EmptyString => None
    end.
Proof.
  destruct s as [|c s]; [reflexivity|]. unfold is_delim. simpl.
  destruct (Ascii.eqb_spec c "-") as [->|]; simpl.
  - destruct (k (S pos) s); reflexivity.
  - destruct (Ascii.eqb_spec c "_") as [->|]; simpl.
    + destruct (k (S pos) s); reflexivity.
    + destruct (Ascii.eqb c "."); reflexivity.
Qed.

Lemma is_some_or {A} (x y : option A) :
  is_some (match x with Some e => Some e | None => y end) = is_some x || is_some y.
Proof. destruct x; reflexivity. Qed.

Lemma match_at_token tok pos s :
  is_some (Re.match_at (Re.Seq Assets.delim (Re.Seq (Re.lit tok) Assets.delim)) pos s)
  = token_at tok s.
Proof.
  unfold Re.match_at. cbn [Re.run]. rewrite run_delim.
  destruct s as [|d r]; [reflexivity|]. cbn [token_at].
  destruct (is_delim d); [|reflexivity].
  rewrite run_lit. destruct (String.prefix tok r); [|reflexivity].
  rewrite run_delim. cbn [andb].
  destruct (PyStr.drop (String.length tok) r) as [|d2 r2]; [reflexivity|].
  destruct (is_delim d2); reflexivity.
Qed.

Lemma found_search_from r s :
  Assets.found r s = is_some (Re.search_from r 0 s).
Proof.
  unfold Assets.found, Re.search. destruct (Re.search_from r 0 s) as [[b e]|]; reflexivity.
Qed.

Lemma search_from_unfold r pos s :
  is_some (Re.search_from r pos s)
  = is_some (Re.match_at r pos s)
    || match s with
       | String _ s' => is_some (Re.search_from r (S pos) s')
       | EmptyString => false
       end.
Proof.
  destruct s; simpl; destruct (Re.match_at r pos _); try reflexivity.
Qed.

Lemma found_is_x86 s : Assets.found Assets.is_x86 s = contains_marker ["x86"] s.
Proof.
  rewrite found_search_from. generalize 0%nat.
  induction s as [|c s IH]; intros pos; rewrite search_from_unfold;
    unfold Assets.is_x86 at 1; rewrite match_at_token; cbn [contains_marker existsb].
  - reflexivity.
  - rewrite IH, orb_false_r. reflexivity.
Qed.

Lemma is_some_token_tail (p : bool) (rest : string) (n : nat) :
  is_some (if p
           then match rest with
                | String c s' => if is_delim c then Re.accept n s' else None
                | EmptyString => None
                end
           else None)
  = p && match rest with
         | String d2 _ => is_delim d2
         | EmptyString => false
         end.
Proof.
  destruct p; [|reflexivity]. destruct rest as [|c s']; [reflexivity|].
  destruct (is_delim c); reflexivity.
Qed.

Lemma match_at_arm pos s :
  is_some (Re.match_at Assets.is_arm pos s)
  = existsb (fun t => token_at t s) ["arm64"; "aarch64"; "armv7l"].
Proof.
  unfold Re.match_at, Assets.is_arm. cbn [Re.run existsb]. rewrite run_delim.
  destruct s as [|d r]; [reflexivity|]. cbn [token_at].
  destruct (is_delim d); [|reflexivity]. cbn [andb].
  rewrite !is_some_or, !run_lit, !run_delim, !is_some_token_tail, orb_false_r.
  reflexivity.
Qed.

Lemma found_is_arm s :
  Assets.found Assets.is_arm s = contains_marker ["arm64"; "aarch64"; "armv7l"] s.
Proof.
  rewrite found_search_from. generalize 0%nat.
  induction s as [|c s IH]; intros pos; rewrite search_from_unfold, match_at_arm;
    cbn [contains_marker].
  - reflexivity.
  - rewrite IH. reflexivity.
Qed.

Lemma arch_ok_words t : Assets.arch_ok t = x86_or_not_arm t.
Proof. unfold Assets.arch_ok, x86_or_not_arm. rewrite found_is_x86, found_is_arm. reflexivity. Qed.

Lemma find_first {A} (p : A -> bool) pre t post :
  (forall x, In x pre -> p x = false) -> p t = true ->
  List.find p (pre ++ t :: post)%list = Some t.
Proof.
  intros Hpre Ht. induction pre as [|x pre IH]; simpl.
  - rewrite Ht. reflexivity.
  - rewrite (Hpre x) by (left; reflexivity).
    apply IH. intros y Hy. apply Hpre. right. exact Hy.
Qed.

Lemma find_none {A} (p : A -> bool) l :
  (forall x, In x l -> p x = false) -> List.find p l = None.
Proof.
  induction l as [|x l IH]; intros H; simpl; [reflexivity|].
  rewrite (H x) by (left; reflexivity). apply IH. intros y Hy. apply H. right. exact Hy.
Qed.

Lemma select_target_several targets :
  length targets <> 1%nat ->
  Assets.select_target "x86_64" targets = List.find Assets.arch_ok targets.
Proof.
  intros H. destruct targets as [|a [|b l]]; try reflexivity. simpl in H. lia.
Qed.

Lemma select_target_other_arch arch targets :
  length targets <> 1%nat -> arch <> "x86_64" ->
  Assets.select_target arch targets = None.
Proof.
  intros H Ha. apply String.eqb_neq in Ha.
  destruct targets as [|a [|b l]]; simpl; rewrite ?Ha; try reflexivity.
  simpl in H. lia.
Qed.

(** C8: asset disambiguation.  A single candidate is selected; among
    several (or none), on [x86_64], the first candidate whose name holds
    an x86 marker token or holds no ARM marker token is selected, so of
    [app-x86_64.AppImage] and [app-arm64.AppImage] the x86 asset is, in
    either order; and with no candidate, or when disambiguation finds
    none, resolution yields [None]. *)
Theorem asset_disambiguation :
  (forall arch t, Assets.select_target arch [t] = Some t)
  /\ (forall glob l t arch,
        List.filter (fun a => Assets.matches (Assets.convert_glob_to_regex glob)
                                (Assets.name a)) l = [t] ->
        Assets.select_target arch
          (Assets.possible_targets false (Assets.convert_glob_to_regex glob) l)
        = Some t)
  /\ (forall pre t post,
        length (pre ++ t :: post)%list <> 1%nat ->
        (forall t', In t' pre -> x86_or_not_arm t' = false) ->
        x86_or_not_arm t = true ->
        Assets.select_target "x86_64" (pre ++ t :: post)%list = Some t)
  /\ (forall a1 a2,
        Assets.name a1 = "app-x86_64.AppImage" ->
        Assets.name a2 = "app-arm64.AppImage" ->
        Assets.select_target "x86_64" [a1; a2] = Some a1
        /\ Assets.select_target "x86_64" [a2; a1] = Some a1)
  /\ (forall arch targets,
        targets = []
        \/ (length targets <> 1%nat
            /\ (arch <> "x86_64" \/ forall t, In t targets -> x86_or_not_arm t = false)) ->
        Assets.select_target arch targets = None)
  /\ (forall url_data embedded rel_data arch,
        Assets.select_target arch
          (Assets.possible_targets embedded
             (Assets.convert_glob_to_regex (Github.filename url_data))
             (Assets.assets rel_data)) = None ->
        Assets.fetch_target_asset url_data embedded (Some rel_data) arch = None).
Proof.
  split; [|split; [|split; [|split; [|split]]]].
  - reflexivity.
  - intros glob l t arch H. unfold Assets.possible_targets. rewrite H. reflexivity.
  - intros pre t post Hlen Hpre Ht.
    rewrite select_target_several by exact Hlen.
    apply find_first.
    + intros x Hx. rewrite arch_ok_words. apply Hpre. exact Hx.
    + rewrite arch_ok_words. exact Ht.
  - intros a1 a2 H1 H2. unfold Assets.select_target.
    replace (String.eqb "x86_64" "x86_64") with true by reflexivity.
    cbn [List.find]. unfold Assets.arch_ok. rewrite H1, H2. split; reflexivity.
  - intros arch targets [->|[Hlen [Ha|Hall]]].
    + unfold Assets.select_target. destruct (String.eqb arch "x86_64"); reflexivity.
    + apply select_target_other_arch; assumption.
    + destruct (String.eqb_spec arch "x86_64") as [->|Hne];
        [|apply select_target_other_arch; assumption].
      rewrite select_target_several by exact Hlen.
      apply find_none. intros x Hx. rewrite arch_ok_words. apply Hall. exact Hx.
  - intros url_data embedded rel_data arch H.
    unfold Assets.fetch_target_asset. rewrite H.
    destruct (negb _); reflexivity.
Qed.

Lemma asset_disambiguation_witness :
  Assets.fetch_target_asset Sample.app_descriptor false
    (Some Sample.release_two_arch) "x86_64" = Some Sample.x86_asset
  /\ Assets.select_target "x86_64" [Sample.x86_asset; Sample.arm_asset]
     = Some Sample.x86_asset
  /\ Assets.select_target "x86_64" [Sample.arm_asset; Sample.x86_asset]
     = Some Sample.x86_asset
  /\ Assets.select_target "x86_64" ([Sample.arm_asset] ++ Sample.x86_asset :: [])%list
     = Some Sample.x86_asset
  /\ Assets.select_target "aarch64" [Sample.x86_asset; Sample.arm_asset] = None
  /\ Assets.fetch_target_asset Sample.app_descriptor false
       (Some Sample.release_two_arch) "aarch64" = None.
Proof.
  destruct asset_disambiguation as (_ & _ & Hfirst & Hpair & Hnone & Hfetch).
  split; [reflexivity|].
  split; [apply (Hpair Sample.x86_asset Sample.arm_asset); reflexivity|].
  split; [apply (Hpair Sample.x86_asset Sample.arm_asset); reflexivity|].
  split.
  { apply (Hfirst [Sample.arm_asset] Sample.x86_asset []).
    - simpl. lia.
    - intros t' [<-|[]]. reflexivity.
    - reflexivity. }
  assert (N : Assets.select_target "aarch64" [Sample.x86_asset; Sample.arm_asset] = None).
  { apply Hnone. right. split; [simpl; lia|]. left. discriminate. }
  split; [exact N|].
  apply Hfetch. exact N.
Defined.

End AssetFacts.

(** ** [StaticFileUpdater] *)

Section HttpFacts.

Import Http.

Lemma lookup_new (rs : list response) r : (rs ++ [r])%list !! length rs = Some r.
Proof. apply list_lookup_middle. reflexivity. Qed.

Lemma deref_lookup h st r : responses st !! h = Some r -> deref h st = (Return r, st).
Proof. intros H. unfold deref, gets. rewrite H. reflexivity. Qed.


Lemma requests_head_some net url st r :
  head net url = Some r ->
  requests_head net url st
  = (Return (length (responses st)),
     set_responses (responses st ++ [r])%list (emit (EHead url) st)).
Proof. intros H. unfold requests_head, new_response. rewrite H. reflexivity. Qed.

Lemma requests_head_none net url st :
  head net url = None ->
  requests_head net url st = (Raise RequestException, emit (EHead url) st).
Proof. intros H. unfold requests_head, new_response. rewrite H. reflexivity. Qed.

Lemma requests_get_some net url st r :
  get net url = Some r ->
  requests_get net url st
  = (Return (length (responses st)),
     set_responses (responses st ++ [r])%list (emit (EGet url) st)).
Proof. intros H. unfold requests_get, new_response. rewrite H. reflexivity. Qed.

Lemma requests_get_none net url st :
  get net url = None ->
  requests_get net url st = (Raise RequestException, emit (EGet url) st).
Proof. intros H. unfold requests_get, new_response. rewrite H. reflexivity. Qed.

Lemma raise_for_status_lookup h st r :
  responses st !! h = Some r ->
  raise_for_status h st
  = (if ok r then Return tt else Raise (HTTPError (status_code r)), st).
Proof.
  intros H. unfold raise_for_status, bind. rewrite (deref_lookup _ _ _ H).
  destruct (ok r); reflexivity.
Qed.

Lemma close_step h st :
  close h st
  = (Return tt, emit (EClose h) (set_responses (alter set_closed h (responses st)) st)).
Proof. reflexivity. Qed.

(** The second half of [get_url_headers]: the streamed GET. *)
Lemma get_fallback net url st :
  exists hdrs st',
    try_except
      (bind (requests_get net url) (fun resp =>
         try_finally
           (bind (raise_for_status resp) (fun _ =>
              bind (deref resp) (fun r =>
                bind (close resp) (fun _ => ret (headers r)))))
           (close resp)))
      (fun _ => ret ∅) st
    = (Return hdrs, st')
    /\ files st' = files st
    /\ currend_download st' = currend_download st
    /\ let h := length (responses st) in
       match get net url with
       | Some g =>
           if ok g
           then hdrs = headers g
                /\ trace st' = (trace st ++ [EGet url; EClose h; EClose h])%list
           else hdrs = ∅ /\ trace st' = (trace st ++ [EGet url; EClose h])%list
       | None => hdrs = ∅ /\ trace st' = (trace st ++ [EGet url])%list
       end.
Proof.
  unfold try_except, try_finally, bind.
  destruct (get net url) as [g|] eqn:Hg.
  - rewrite (requests_get_some _ _ _ _ Hg).
    set (st1 := set_responses _ _).
    assert (L : responses st1 !! length (responses st) = Some g) by apply lookup_new.
    rewrite (raise_for_status_lookup _ _ _ L).
    destruct (ok g).
    + rewrite (deref_lookup _ _ _ L), !close_step. cbn.
      eexists _, _. split; [reflexivity|]. cbn.
      rewrite <- !app_assoc. repeat split.
    + rewrite !close_step. cbn.
      eexists _, _. split; [reflexivity|]. cbn.
      rewrite <- !app_assoc. repeat split.
  - rewrite (requests_get_none _ _ _ Hg). cbn.
    eexists _, _. split; [reflexivity|]. repeat split.
Qed.

Lemma get_url_headers_cases net url st :
  exists hdrs st',
    get_url_headers net url st = (Return hdrs, st')
    /\ files st' = files st
    /\ currend_download st' = currend_download st
    /\ match head net url with
       | Some r =>
           if ok r
           then hdrs = headers r /\ trace st' = (trace st ++ [EHead url])%list
           else
             let h := S (length (responses st)) in
             match get net url with
             | Some g =>
                 if ok g
                 then hdrs = headers g
                      /\ trace st' = (trace st ++ [EHead url; EGet url; EClose h; EClose h])%list
                 else hdrs = ∅
                      /\ trace st' = (trace st ++ [EHead url; EGet url; EClose h])%list
             | None => hdrs = ∅ /\ trace st' = (trace st ++ [EHead url; EGet url])%list
             end
       | None =>
           let h := length (responses st) in
           match get net url with
           | Some g =>
               if ok g
               then hdrs = headers g
                    /\ trace st' = (trace st ++ [EHead url; EGet url; EClose h; EClose h])%list
               else hdrs = ∅
                    /\ trace st' = (trace st ++ [EHead url; EGet url; EClose h])%list
           | None => hdrs = ∅ /\ trace st' = (trace st ++ [EHead url; EGet url])%list
           end
       end.
Proof.
  unfold get_url_headers.
  unfold bind at 1. unfold try_except at 1. unfold bind at 1.
  destruct (head net url) as [r|] eqn:Hh.
  - rewrite (requests_head_some _ _ _ _ Hh).
    set (st1 := set_responses _ _).
    assert (L : responses st1 !! length (responses st) = Some r) by apply lookup_new.
    unfold bind at 1. rewrite (raise_for_status_lookup _ _ _ L).
    destruct (ok r).
    + unfold bind at 1. rewrite (deref_lookup _ _ _ L). cbn.
      eexists _, _. split; [reflexivity|]. repeat split.
    + cbn beta iota.
      destruct (get_fallback net url st1) as (hdrs & st' & E & Hf & Hc & Ht).
      exists hdrs, st'. split; [exact E|]. split; [exact Hf|]. split; [exact Hc|].
      replace (length (responses st1)) with (S (length (responses st))) in Ht
        by (unfold st1; cbn; rewrite length_app; cbn; lia).
      cbn in Ht. destruct (get net url) as [g|]; [destruct (ok g)|];
        destruct Ht as [-> ->]; rewrite <- !app_assoc; split; reflexivity.
  - rewrite (requests_head_none _ _ _ Hh). cbn beta iota.
    destruct (get_fallback net url (emit (EHead url) st)) as (hdrs & st' & E & Hf & Hc & Ht).
    exists hdrs, st'. split; [exact E|]. split; [exact Hf|]. split; [exact Hc|].
    cbn in Ht. destruct (get net url) as [g|]; [destruct (ok g)|];
      destruct Ht as [-> ->]; rewrite <- !app_assoc; split; reflexivity.
Qed.

(** C9, as the code has it: [get_url_headers] always returns.  A HEAD
    is tried first; when it raises or its status is one
    [raise_for_status] rejects (400 to 599), a streamed GET follows,
    whose response is closed as soon as its headers were read, and also
    when its status check raises; when both attempts fail the answer is
    the empty dict.  A HEAD answered with any other status is taken as
    it is. *)
Theorem get_url_headers_never_raises net url st :
  exists hdrs st',
    get_url_headers net url st = (Return hdrs, st')
    /\ match head net url with
       | Some r =>
           if ok r
           then hdrs = headers r /\ trace st' = (trace st ++ [EHead url])%list
           else
             let h := S (length (responses st)) in
             match get net url with
             | Some g =>
                 if ok g
                 then hdrs = headers g
                      /\ trace st' = (trace st ++ [EHead url; EGet url; EClose h; EClose h])%list
                 else hdrs = ∅
                      /\ trace st' = (trace st ++ [EHead url; EGet url; EClose h])%list
             | None => hdrs = ∅ /\ trace st' = (trace st ++ [EHead url; EGet url])%list
             end
       | None =>
           let h := length (responses st) in
           match get net url with
           | Some g =>
               if ok g
               then hdrs = headers g
                    /\ trace st' = (trace st ++ [EHead url; EGet url; EClose h; EClose h])%list
               else hdrs = ∅
                    /\ trace st' = (trace st ++ [EHead url; EGet url; EClose h])%list
           | None => hdrs = ∅ /\ trace st' = (trace st ++ [EHead url; EGet url])%list
           end
       end.
Proof.
  destruct (get_url_headers_cases net url st) as (hdrs & st' & E & _ & _ & H).
  exists hdrs, st'. split; [exact E|exact H].
Qed.

(** C9 as stated fails: a HEAD answered 304, a status outside 2xx, is
    not followed by a GET; its headers are the answer. *)
Lemma get_url_headers_accepts_non_2xx_head :
  status_code Sample.not_modified = 304%Z
  /\ get Sample.not_modified_net "https://example.org/app.AppImage"
     = Some Sample.small_file
  /\ fst (get_url_headers Sample.not_modified_net
            "https://example.org/app.AppImage" Sample.empty_state)
     = Return {[ "etag" := "v1" ]}
  /\ trace (snd (get_url_headers Sample.not_modified_net
                   "https://example.org/app.AppImage" Sample.empty_state))
     = [EHead "https://example.org/app.AppImage"].
Proof. vm_compute. repeat split. Qed.

(** The fallback at work: a HEAD refused with 405, then the GET. *)
Example get_url_headers_falls_back :
  fst (get_url_headers Sample.head_refused_net
         "https://example.org/app.AppImage" Sample.empty_state)
  = Return (headers Sample.small_file)
  /\ trace (snd (get_url_headers Sample.head_refused_net
                   "https://example.org/app.AppImage" Sample.empty_state))
     = [EHead "https://example.org/app.AppImage";
        EGet "https://example.org/app.AppImage"; EClose 1; EClose 1]
  /\ fst (get_url_headers Sample.offline_net
            "https://example.org/app.AppImage" Sample.empty_state)
     = Return ∅.
Proof. vm_compute. repeat split. Qed.

(** The capability checks of the two URL variants always answer. *)
Lemma static_can_handle_link_returns url_is_valid supported_mimes net url st :
  exists b st',
    static_can_handle_link url_is_valid supported_mimes net url st = (Return b, st').
Proof.
  unfold static_can_handle_link.
  destruct (negb (url_is_valid url)); [eexists _, _; reflexivity|].
  unfold bind.
  match goal with |- context [get_url_headers net ?u st] =>
    destruct (get_url_headers_cases net u st) as (hdrs & st' & E & _)
  end.
  rewrite E. eexists _, _. reflexivity.
Qed.

Lemma dynamic_can_handle_link_returns net url st :
  exists b st', dynamic_can_handle_link net url st = (Return b, st').
Proof.
  unfold dynamic_can_handle_link.
  destruct (_ || _); [eexists _, _; reflexivity|].
  unfold bind at 1, try_except, bind at 1, requests_head_browser, bind at 1,
    modify at 1, new_response.
  destruct (head_browser net url) as [r|]; cbn.
  - unfold deref, gets. cbn. rewrite lookup_new. cbn [default].
    repeat match goal with
           | |- context [if ?c then _ else _] => destruct c; cbn
           end;
      eexists _, _; reflexivity.
  - eexists _, _. reflexivity.
Qed.

Lemma getsize_st_size p st :
  getsize p st
  = (match st_size st p with Some n => Return n | None => Raise OSError end, st).
Proof. unfold getsize, bind, gets. destruct (st_size st p); reflexivity. Qed.

Lemma st_size_lookup p st data :
  files st !! p = Some data -> st_size st p = Some (Z.of_nat (length data)).
Proof. intros H. unfold st_size. rewrite H. reflexivity. Qed.

Lemma getsize_lookup p st data :
  files st !! p = Some data -> getsize p st = (Return (Z.of_nat (length data)), st).
Proof. intros H. rewrite getsize_st_size, (st_size_lookup _ _ _ H). reflexivity. Qed.

Lemma st_size_same_disk st st' p : same_disk st st' -> st_size st' p = st_size st p.
Proof. intros (F & D & S). unfold st_size. rewrite F, D, S. reflexivity. Qed.

(** [get_url_headers] leaves the disk alone. *)
Lemma get_url_headers_disk net url st :
  same_disk st (snd (get_url_headers net url st)).
Proof.
  unfold get_url_headers, try_except, try_finally, requests_head, requests_get,
    new_response, raise_for_status, close, deref, bind, modify, gets, ret, raise.
  destruct (head net url) as [r1|]; cbn;
    repeat match goal with
           | |- context [ok ?r] => destruct (ok r); cbn
           end;
    try (repeat split; reflexivity);
    destruct (get net url) as [r2|]; cbn;
    repeat match goal with
           | |- context [ok ?r] => destruct (ok r); cbn
           end;
    repeat split; reflexivity.
Qed.

(** C6: [is_update_available] reads the headers, then the advertised
    length, then the size on disk of the artifact.  A [content-length]
    that [int] refuses raises [ValueError].  Otherwise, when nothing is
    at the artifact's path, [OSError] leaves the call, whatever the
    headers say; when something is, the answer is [False] for headers
    without [content-length] or with one that reads as 0, and otherwise
    whether the length read differs from the size found. *)
Theorem is_update_available_size_check net url file_path st :
  exists hdrs st',
    get_url_headers net url st = (Return hdrs, st')
    /\ (forall n, PyStr.int (default "0" (hdrs !! "content-length")) = Some n ->
        st_size st file_path = None ->
        fst (is_update_available net url file_path st) = Raise OSError)
    /\ (forall old_size, st_size st file_path = Some old_size ->
        (hdrs !! "content-length" = None ->
         fst (is_update_available net url file_path st) = Return false)
        /\ (forall v, hdrs !! "content-length" = Some v -> PyStr.int v = Some 0%Z ->
            fst (is_update_available net url file_path st) = Return false)
        /\ (forall v n, hdrs !! "content-length" = Some v -> PyStr.int v = Some n ->
            n <> 0%Z ->
            fst (is_update_available net url file_path st)
            = Return (negb (n =? old_size)%Z)))
    /\ (forall v, hdrs !! "content-length" = Some v -> PyStr.int v = None ->
        fst (is_update_available net url file_path st) = Raise ValueError).
Proof.
  destruct (get_url_headers_cases net url st) as (hdrs & st' & E & _).
  exists hdrs, st'. split; [exact E|].
  assert (Hs : st_size st' file_path = st_size st file_path).
  { apply st_size_same_disk. pose proof (get_url_headers_disk net url st) as H.
    rewrite E in H. exact H. }
  assert (Step : fst (is_update_available net url file_path st)
                 = match PyStr.int (default "0" (hdrs !! "content-length")) with
                   | None => Raise ValueError
                   | Some n =>
                       match st_size st file_path with
                       | None => Raise OSError
                       | Some old_size =>
                           Return (if (n =? 0)%Z then false
                                   else negb (n =? old_size)%Z)
                       end
                   end).
  { unfold is_update_available. unfold bind at 1. rewrite E.
    unfold bind at 1, py_int.
    destruct (PyStr.int (default "0" (hdrs !! "content-length"))) as [n|];
      [|reflexivity].
    unfold ret at 1. unfold bind at 1. rewrite getsize_st_size, Hs.
    destruct (st_size st file_path) as [old_size|]; [|reflexivity].
    destruct (n =? 0)%Z; reflexivity. }
  split; [|split].
  - intros n Hn Hnone. rewrite Step, Hn, Hnone. reflexivity.
  - intros old_size Hold. split; [|split].
    + intros Hnone. rewrite Step, Hnone, Hold. reflexivity.
    + intros v Hv Hz. rewrite Step, Hv. cbn [default from_option id].
      rewrite Hz, Hold. reflexivity.
    + intros v n Hv Hn Hnz. rewrite Step, Hv. cbn [default from_option id].
      rewrite Hn, Hold. destruct (Z.eqb_spec n 0); [contradiction|reflexivity].
  - intros v Hv Hn. rewrite Step, Hv. cbn [default from_option id].
    rewrite Hn. reflexivity.
Qed.


Lemma is_update_available_size_check_witness :
  st_size Sample.installed_state "/apps/widget.AppImage" = Some 1000%Z
  /\ fst (is_update_available Sample.grown_net "https://example.org/widget.AppImage"
            "/apps/widget.AppImage" Sample.installed_state)
     = Return true.
Proof.
  split; [reflexivity|].
  destruct (is_update_available_size_check Sample.grown_net
              "https://example.org/widget.AppImage" "/apps/widget.AppImage"
              Sample.installed_state)
    as (hdrs & st' & E & _ & H & _).
  vm_compute in E. injection E as <- <-.
  exact (proj2 (proj2 (H 1000%Z eq_refl)) "2048" 2048%Z eq_refl eq_refl
           ltac:(discriminate)).
Defined.

(** C6 as stated fails: the headers carry no [content-length], and yet
    the call does not answer [False]: the artifact is not on disk, and
    [os.path.getsize], which runs before the test for 0, raises. *)
Lemma is_update_available_missing_artifact :
  fst (get_url_headers Sample.not_modified_net "https://example.org/widget.AppImage"
         Sample.empty_state)
  = Return {[ "etag" := "v1" ]}
  /\ ({[ "etag" := "v1" ]} : gmap string string) !! "content-length" = None
  /\ st_size Sample.empty_state "/apps/widget.AppImage" = None
  /\ fst (is_update_available Sample.not_modified_net
            "https://example.org/widget.AppImage" "/apps/widget.AppImage"
            Sample.empty_state)
     = Raise OSError.
Proof. vm_compute. repeat split. Qed.

(** A directory at the artifact's path has a size too. *)
Example is_update_available_on_directory :
  fst (is_update_available Sample.grown_net "https://example.org/widget.AppImage"
         "/tmp/dl" Sample.mid_transfer)
  = Return true.
Proof. vm_compute. reflexivity. Qed.

Lemma behind_inv st h r :
  behind st h r ->
  exists r0,
    responses st !! h = Some r0
    /\ body_end r0 = body_end r /\ closed_end r0 = closed_end r.
Proof. intros [H|H]; eexists; (split; [exact H|split; reflexivity]). Qed.

Lemma behind_alter st st' h h' r :
  behind st h r -> responses st' = alter set_closed h' (responses st) ->
  behind st' h r.
Proof.
  intros Hb E. unfold behind. rewrite E.
  destruct (decide (h' = h)) as [->|Hne].
  - right. destruct Hb as [Hr|Hr];
      rewrite list_lookup_alter, Hr, decide_True by reflexivity; reflexivity.
  - rewrite list_lookup_alter_ne by exact Hne. exact Hb.
Qed.

Lemma same_disk_refl st : same_disk st st.
Proof. repeat split. Qed.

Lemma same_disk_trans st1 st2 st3 :
  same_disk st1 st2 -> same_disk st2 st3 -> same_disk st1 st3.
Proof.
  intros (F1 & D1 & S1) (F2 & D2 & S2). repeat split; congruence.
Qed.

(** [cancel_download] never raises; it leaves the disk alone, and the
    response objects are the ones they were, one of them closed at
    most. *)
Lemma cancel_download_frame st :
  exists st',
    cancel_download st = (Return tt, st')
    /\ same_disk st st'
    /\ (forall h r, behind st h r -> behind st' h r).
Proof.
  unfold cancel_download, bind, gets.
  destruct (currend_download st) as [h|];
    [|exists st; split; [reflexivity|split; [apply same_disk_refl|auto]]].
  unfold deref, gets.
  destruct (ok _).
  - rewrite close_step. cbn. eexists. split; [reflexivity|].
    split; [repeat split|].
    intros h0 r0 Hb. eapply behind_alter; [exact Hb|reflexivity].
  - exists st. split; [reflexivity|split; [apply same_disk_refl|auto]].
Qed.

Lemma status_update_frame cb q st :
  exists st',
    status_update cb q st = (Return tt, st')
    /\ same_disk st st'
    /\ (forall h r, behind st h r -> behind st' h r).
Proof.
  unfold status_update, bind, modify.
  destruct (cb q).
  - destruct (cancel_download_frame (emit (EProgress q) st)) as (st' & E & Hd & Hb).
    exists st'. split; [exact E|]. split; [exact Hd|].
    intros h r H. apply Hb. exact H.
  - eexists. split; [reflexivity|]. split; [repeat split|].
    intros h r H. exact H.
Qed.

Lemma finish_stops e st :
  finish e st = (match e with None => Return tt | Some x => Raise x end, st).
Proof. destruct e; reflexivity. Qed.

(** Lines 167-173, whatever the callback and the stream do: the file
    holds what it held, followed by the first [n] chunks, for some [n];
    nothing else on disk changes; and the loop ends by returning or
    with the exception the iterator raised. *)
Lemma download_loop_spec cb total_size fname h r pending :
  forall status budget st acc,
    behind st h r ->
    files st !! fname = Some acc ->
    exists res st' n,
      download_loop cb total_size fname h pending status budget st = (res, st')
      /\ files st' !! fname = Some (acc ++ concat (take n pending))%list
      /\ (forall p, p <> fname -> files st' !! p = files st !! p)
      /\ dirs st' = dirs st
      /\ dir_size st' = dir_size st
      /\ (res = Return tt
          \/ exists e, res = Raise e
                       /\ (body_end r = Some e \/ closed_end r = Some e)).
Proof.
  assert (Stop : forall (o : option exn) st acc l,
            (o = body_end r \/ o = closed_end r) ->
            files st !! fname = Some acc ->
            exists res st' n,
              finish o st = (res, st')
              /\ files st' !! fname = Some (acc ++ concat (take n l))%list
              /\ (forall p, p <> fname -> files st' !! p = files st !! p)
              /\ dirs st' = dirs st
              /\ dir_size st' = dir_size st
              /\ (res = Return tt
                  \/ exists e, res = Raise e
                               /\ (body_end r = Some e \/ closed_end r = Some e))).
  { intros o st acc l Ho Hf. rewrite finish_stops. eexists _, st, 0%nat.
    split; [reflexivity|]. rewrite app_nil_r.
    split; [exact Hf|]. split; [auto|]. split; [reflexivity|]. split; [reflexivity|].
    destruct o as [e|]; [right|left; reflexivity].
    exists e. split; [reflexivity|]. destruct Ho as [<-|<-]; auto. }
  induction pending as [|c rest IH]; intros status budget st acc Hb Hf;
    destruct (behind_inv _ _ _ Hb) as (r0 & Hr0 & Eb & Ec);
    cbn [download_loop]; unfold bind at 1; rewrite (deref_lookup _ _ _ Hr0);
    cbv beta iota; rewrite ?Eb, ?Ec.
  - destruct (if closed r0 then Some (default (closed_more r0) budget) else None)
      as [[|k]|]; apply Stop; auto.
  - assert (Go : exists res st' n,
               bind (f_write fname c) (fun _ =>
                 bind (if negb (total_size =? 0)%Z
                       then status_update cb
                              (inject_Z (status + block_size) / inject_Z total_size)%Q
                       else ret tt)
                      (fun _ => download_loop cb total_size fname h rest
                                  (status + block_size)
                                  (Nat.pred <$>
                                     (if closed r0
                                      then Some (default (closed_more r0) budget)
                                      else None)))) st
               = (res, st')
               /\ files st' !! fname = Some (acc ++ concat (take n (c :: rest)))%list
               /\ (forall p, p <> fname -> files st' !! p = files st !! p)
               /\ dirs st' = dirs st
               /\ dir_size st' = dir_size st
               /\ (res = Return tt
                   \/ exists e, res = Raise e
                                /\ (body_end r = Some e \/ closed_end r = Some e))).
    { unfold bind at 1. unfold f_write at 1, modify at 1.
      set (st1 := emit _ _).
      assert (F1 : files st1 !! fname = Some (acc ++ c)%list).
      { unfold st1. cbn. rewrite lookup_insert_eq, Hf. reflexivity. }
      assert (O1 : forall p, p <> fname -> files st1 !! p = files st !! p).
      { intros p Hp. unfold st1. cbn. apply lookup_insert_ne. congruence. }
      assert (B1 : behind st1 h r) by exact Hb.
      unfold bind at 1.
      assert (Hs : exists st2,
                 (if negb (total_size =? 0)%Z
                  then status_update cb
                         (inject_Z (status + block_size) / inject_Z total_size)%Q
                  else ret tt) st1 = (Return tt, st2)
                 /\ same_disk st1 st2
                 /\ behind st2 h r).
      { destruct (negb (total_size =? 0)%Z).
        - destruct (status_update_frame cb
                      (inject_Z (status + block_size) / inject_Z total_size)%Q st1)
            as (st2 & E & Hd & Hk).
          exists st2. auto.
        - exists st1. split; [reflexivity|]. split; [apply same_disk_refl|exact B1]. }
      destruct Hs as (st2 & E & (F2 & D2 & S2) & B2). rewrite E.
      destruct (IH (status + block_size)%Z
                  (Nat.pred <$>
                     (if closed r0 then Some (default (closed_more r0) budget)
                      else None))
                  st2 (acc ++ c)%list B2)
        as (res & st' & n & El & Fl & Ol & Dl & Sl & Rl).
      { rewrite F2. exact F1. }
      exists res, st', (S n). split; [exact El|]. split; [|split; [|split; [|split]]].
      - rewrite Fl. cbn [take concat]. rewrite app_assoc. reflexivity.
      - intros p Hp. rewrite (Ol p Hp), F2. apply O1. exact Hp.
      - rewrite Dl, D2. reflexivity.
      - rewrite Sl, S2. reflexivity.
      - exact Rl. }
    destruct (if closed r0 then Some (default (closed_more r0) budget) else None)
      as [[|k]|]; [apply Stop; auto|exact Go|exact Go].
Qed.

(** A callback that never cancels leaves the response open: every
    chunk is written and reported, and the loop ends as the body
    does. *)
Lemma download_loop_all cb total_size fname h r pending :
  (forall q, cb q = false) -> closed r = false ->
  forall status budget st acc,
    responses st !! h = Some r ->
    files st !! fname = Some acc ->
    exists st',
      download_loop cb total_size fname h pending status budget st
      = (match body_end r with None => Return tt | Some e => Raise e end, st')
      /\ files st' !! fname = Some (acc ++ concat pending)%list
      /\ (forall p, p <> fname -> files st' !! p = files st !! p)
      /\ dirs st' = dirs st
      /\ currend_download st' = currend_download st
      /\ responses st' = responses st
      /\ trace st' = (trace st ++ loop_events total_size fname pending status)%list.
Proof.
  intros Hcb Hcl. induction pending as [|c rest IH]; intros status budget st acc Hr Hf.
  - cbn [download_loop loop_events]. unfold bind.
    rewrite (deref_lookup _ _ _ Hr), Hcl, finish_stops.
    exists st. rewrite !app_nil_r. auto 10.
  - cbn [download_loop loop_events]. unfold bind at 1.
    rewrite (deref_lookup _ _ _ Hr), Hcl. cbv beta iota.
    unfold bind at 1. unfold f_write at 1, modify at 1.
    set (st1 := emit _ _).
    unfold bind at 1.
    set (st2 := if negb (total_size =? 0)%Z
                then emit (EProgress (inject_Z (status + block_size) / inject_Z total_size)%Q) st1
                else st1).
    assert (E : (if negb (total_size =? 0)%Z
                 then status_update cb (inject_Z (status + block_size) / inject_Z total_size)%Q
                 else ret tt) st1 = (Return tt, st2)).
    { unfold st2. destruct (negb (total_size =? 0)%Z); [|reflexivity].
      unfold status_update, bind, modify. rewrite Hcb. reflexivity. }
    rewrite E.
    assert (F2 : files st2 = <[fname := (acc ++ c)%list]> (files st)).
    { unfold st2, st1. destruct (negb _); cbn; rewrite Hf; reflexivity. }
    assert (D2 : dirs st2 = dirs st) by (unfold st2, st1; destruct (negb _); reflexivity).
    assert (C2 : currend_download st2 = currend_download st)
      by (unfold st2, st1; destruct (negb _); reflexivity).
    assert (R2 : responses st2 = responses st)
      by (unfold st2, st1; destruct (negb _); reflexivity).
    assert (T2 : trace st2
                 = (trace st
                      ++ EWrite fname (length c)
                         :: (if negb (total_size =? 0)%Z
                             then [EProgress (inject_Z (status + block_size)
                                              / inject_Z total_size)%Q]
                             else []))%list).
    { unfold st2, st1. destruct (negb _); cbn; rewrite <- ?app_assoc; reflexivity. }
    destruct (IH (status + block_size)%Z (Nat.pred <$> None) st2 (acc ++ c)%list)
      as (st' & El & Fl & Ol & Dl & Cl & Rl & Tl).
    { rewrite R2. exact Hr. }
    { rewrite F2. apply lookup_insert_eq. }
    exists st'. split; [exact El|]. split; [|split; [|split; [|split; [|split]]]].
    + rewrite Fl. cbn [concat]. rewrite app_assoc. reflexivity.
    + intros p Hp. rewrite (Ol p Hp), F2. apply lookup_insert_ne. congruence.
    + congruence.
    + congruence.
    + congruence.
    + rewrite Tl, T2, <- app_assoc. reflexivity.
Qed.

Lemma fname_not_folder folder name :
  folder +:+ "/" +:+ name +:+ ".appimage" <> folder.
Proof.
  intros E. apply (f_equal String.length) in E.
  rewrite !length_app_string in E. cbn in E. lia.
Qed.

Lemma parent_app a b :
  PyStr.mem "/" b = false -> parent (a +:+ String "/" b) = a.
Proof.
  intros Hb. induction a as [|c a IH].
  - rewrite app_Empty. cbn [parent]. rewrite Hb. reflexivity.
  - rewrite app_String. cbn [parent].
    rewrite mem_app, mem_String, Ascii.eqb_refl, orb_true_r, IH. reflexivity.
Qed.

(** The file is made in the downloads folder when the random name has
    no slash, as the names [get_random_string] makes have none. *)
Lemma parent_fname folder name :
  PyStr.mem "/" name = false -> parent (fname_of folder name) = folder.
Proof.
  intros Hn. unfold fname_of. apply parent_app.
  rewrite mem_app, Hn. reflexivity.
Qed.

(** Lines 148-163: up to the [open], [download] only prepares; no file
    is at [fname] any more, and the folder is there unless a regular
    file has its path. *)
Lemma download_start net url folder name cb st r total_size :
  get net url = Some r ->
  advertised r = Some total_size ->
  fname_of folder name ∉ dirs st ->
  exists st0,
    download net url folder name cb st
    = bind (open_wb (fname_of folder name))
        (fun _ =>
           bind (download_loop cb total_size (fname_of folder name)
                   (length (responses st)) (body r) 0 None)
                (fun _ => download_end total_size (fname_of folder name)
                            (default "" (headers r !! "etag")))) st0
    /\ responses st0 !! length (responses st) = Some r
    /\ currend_download st0 = Some (length (responses st))
    /\ files st0 !! fname_of folder name = None
    /\ trace st0 = (trace st ++ [EGet url])%list
    /\ (forall p, p <> fname_of folder name -> files st0 !! p = files st !! p)
    /\ dirs st0 = (if bool_decide (is_Some (files st !! folder))
                      || bool_decide (folder ∈ dirs st)
                   then dirs st else {[folder]} ∪ dirs st)
    /\ dir_size st0 = dir_size st.
Proof.
  intros Hg Ha Hd. unfold download. fold (fname_of folder name).
  set (there := bool_decide (is_Some (files st !! folder))
                || bool_decide (folder ∈ dirs st)).
  unfold bind at 1. rewrite (requests_get_some _ _ _ _ Hg).
  unfold bind at 1, modify at 1.
  set (st1 := set_currend_download _ _).
  assert (L1 : responses st1 !! length (responses st) = Some r) by apply lookup_new.
  unfold bind at 1, path_exists at 1, gets at 1.
  change (bool_decide (is_Some (files st1 !! folder))
          || bool_decide (folder ∈ dirs st1)) with there.
  unfold bind at 1.
  set (st2 := snd ((if negb there then makedirs folder else ret tt) st1)).
  assert (E2 : (if negb there then makedirs folder else ret tt) st1 = (Return tt, st2)).
  { unfold st2. destruct there; reflexivity. }
  rewrite E2.
  assert (R2 : responses st2 = responses st1) by (unfold st2; destruct there; reflexivity).
  assert (F2 : files st2 = files st) by (unfold st2; destruct there; reflexivity).
  assert (C2 : currend_download st2 = currend_download st1)
    by (unfold st2; destruct there; reflexivity).
  assert (T2 : trace st2 = (trace st ++ [EGet url])%list)
    by (unfold st2; destruct there; reflexivity).
  assert (S2 : dir_size st2 = dir_size st) by (unfold st2; destruct there; reflexivity).
  assert (D2 : dirs st2 = if there then dirs st else {[folder]} ∪ dirs st)
    by (unfold st2; destruct there; reflexivity).
  assert (N2 : fname_of folder name ∉ dirs st2).
  { rewrite D2. destruct there; [exact Hd|].
    rewrite elem_of_union, elem_of_singleton. intros [E|E]; [|exact (Hd E)].
    exact (fname_not_folder _ _ E). }
  unfold bind at 1. rewrite (deref_lookup _ _ r) by (rewrite R2; exact L1).
  unfold bind at 1.
  assert (Ei : match headers r !! "content-length" with
               | Some v => py_int v
               | None => ret 0%Z
               end st2 = (Return total_size, st2)).
  { unfold advertised in Ha. destruct (headers r !! "content-length") as [v|].
    - unfold py_int. rewrite Ha. reflexivity.
    - injection Ha as <-. reflexivity. }
  rewrite Ei.
  unfold bind at 1, path_exists at 1, gets at 1.
  rewrite (bool_decide_eq_false_2 _ N2), orb_false_r.
  unfold bind at 1.
  destruct (files st2 !! fname_of folder name) as [old|] eqn:Eold.
  - rewrite bool_decide_eq_true_2 by eauto.
    unfold remove, bind at 1, gets at 1. rewrite Eold, bool_decide_eq_true_2 by eauto.
    unfold modify at 1.
    eexists. split; [reflexivity|]. cbn.
    rewrite lookup_delete_eq, R2, C2. split; [exact L1|]. split; [reflexivity|].
    split; [reflexivity|]. split; [exact T2|]. split; [|split; [exact D2|exact S2]].
    intros p Hp. rewrite lookup_delete_ne by congruence. rewrite F2. reflexivity.
  - rewrite bool_decide_eq_false_2 by (intros [? ?]; discriminate).
    unfold ret at 1.
    exists st2. split; [reflexivity|].
    rewrite R2, C2. split; [exact L1|]. split; [reflexivity|].
    split; [exact Eold|]. split; [exact T2|]. split; [|split; [exact D2|exact S2]].
    intros p Hp. rewrite F2. reflexivity.
Qed.

(** With the path of the folder free or a directory, the [open]
    succeeds, and the loop starts on the new response and an empty
    file. *)
Lemma download_prelude net url folder name cb st r total_size :
  get net url = Some r ->
  advertised r = Some total_size ->
  files st !! folder = None ->
  PyStr.mem "/" name = false ->
  fname_of folder name ∉ dirs st ->
  exists st0,
    download net url folder name cb st
    = bind (download_loop cb total_size (fname_of folder name)
              (length (responses st)) (body r) 0 None)
           (fun _ => download_end total_size (fname_of folder name)
                       (default "" (headers r !! "etag"))) st0
    /\ responses st0 !! length (responses st) = Some r
    /\ currend_download st0 = Some (length (responses st))
    /\ files st0 !! fname_of folder name = Some []
    /\ trace st0 = (trace st ++ [EGet url])%list
    /\ (forall p, p <> fname_of folder name -> files st0 !! p = files st !! p)
    /\ dirs st0 = {[folder]} ∪ dirs st
    /\ dir_size st0 = dir_size st.
Proof.
  intros Hg Ha Hf Hn Hd.
  destruct (download_start net url folder name cb st r total_size Hg Ha Hd)
    as (st0 & E & L0 & C0 & F0 & T0 & O0 & D0 & S0).
  assert (D0' : dirs st0 = {[folder]} ∪ dirs st).
  { rewrite D0. rewrite (bool_decide_eq_false_2 (is_Some _))
      by (rewrite Hf; intros [x Hx]; discriminate).
    cbn [orb]. destruct (bool_decide (folder ∈ dirs st)) eqn:B; [|reflexivity].
    apply bool_decide_eq_true_1 in B. apply set_eq. intros x.
    rewrite elem_of_union, elem_of_singleton. split; [auto|]. intros [->|H]; assumption. }
  assert (Hin : folder ∈ dirs st0).
  { rewrite D0'. apply elem_of_union_l, elem_of_singleton. reflexivity. }
  assert (Hout : fname_of folder name ∉ dirs st0).
  { rewrite D0'. rewrite elem_of_union, elem_of_singleton. intros [X|X]; [|exact (Hd X)].
    exact (fname_not_folder _ _ X). }
  rewrite E. unfold bind at 1, open_wb at 1, bind at 1, gets at 1.
  rewrite (parent_fname _ _ Hn).
  rewrite (bool_decide_eq_true_2 _ Hin), (bool_decide_eq_false_2 _ Hout).
  cbn [andb negb]. unfold modify at 1.
  eexists. split; [reflexivity|]. cbn.
  rewrite lookup_insert_eq. split; [exact L0|]. split; [exact C0|].
  split; [reflexivity|]. split; [exact T0|]. split; [|split; [exact D0'|exact S0]].
  intros p Hp. rewrite lookup_insert_ne by congruence. apply O0. exact Hp.
Qed.

(** When the folder's path is taken by a regular file, or the name has
    a slash, the [open] may fail; the files other than [fname] stay as
    they were all the same. *)
Lemma download_frame net url folder name cb st r total_size :
  get net url = Some r ->
  advertised r = Some total_size ->
  fname_of folder name ∉ dirs st ->
  exists res st',
    download net url folder name cb st = (res, st')
    /\ (forall p, p <> fname_of folder name -> files st' !! p = files st !! p)
    /\ dirs st' = (if bool_decide (is_Some (files st !! folder))
                      || bool_decide (folder ∈ dirs st)
                   then dirs st else {[folder]} ∪ dirs st).
Proof.
  intros Hg Ha Hd.
  destruct (download_start net url folder name cb st r total_size Hg Ha Hd)
    as (st0 & E & L0 & C0 & F0 & T0 & O0 & D0 & S0).
  rewrite E. unfold bind at 1, open_wb at 1, bind at 1, gets at 1.
  destruct (bool_decide (parent (fname_of folder name) ∈ dirs st0)
            && negb (bool_decide (fname_of folder name ∈ dirs st0))).
  - unfold modify at 1. set (st1 := set_files _ _).
    assert (F1 : files st1 !! fname_of folder name = Some [])
      by (unfold st1; cbn; apply lookup_insert_eq).
    assert (O1 : forall p, p <> fname_of folder name -> files st1 !! p = files st !! p).
    { intros p Hp. unfold st1. cbn. rewrite lookup_insert_ne by congruence.
      apply O0. exact Hp. }
    unfold bind at 1.
    destruct (download_loop_spec cb total_size (fname_of folder name)
                (length (responses st)) r (body r) 0%Z None st1 []
                (or_introl L0) F1)
      as (res & st2 & n & El & Fl & Ol & Dl & Sl & _).
    rewrite El.
    assert (O2 : forall p, p <> fname_of folder name -> files st2 !! p = files st !! p).
    { intros p Hp. rewrite (Ol p Hp). apply O1. exact Hp. }
    assert (D2 : dirs st2 = (if bool_decide (is_Some (files st !! folder))
                                || bool_decide (folder ∈ dirs st)
                             then dirs st else {[folder]} ∪ dirs st))
      by (rewrite Dl; exact D0).
    destruct res as [[]|e].
    + unfold download_end, bind at 1. rewrite (getsize_lookup _ _ _ Fl).
      destruct (_ <? _)%Z.
      * exists (Raise DownloadInterruptedException), st2. auto.
      * eexists _, _. split; [reflexivity|]. cbn. auto.
    + exists (Raise e), st2. auto.
  - exists (Raise OSError), st0. split; [reflexivity|]. split; [exact O0|exact D0].
Qed.

(** A transfer that is not cancelled: every chunk is written; the
    call ends as the stream does and, when that is quietly, as the size
    check says. *)
Lemma download_complete net url folder name cb st r total_size :
  get net url = Some r ->
  closed r = false ->
  advertised r = Some total_size ->
  files st !! folder = None ->
  PyStr.mem "/" name = false ->
  fname_of folder name ∉ dirs st ->
  (forall q, cb q = false) ->
  exists st',
    download net url folder name cb st
    = (match body_end r with
       | Some e => Raise e
       | None =>
           if (Z.of_nat (length (concat (body r))) <? total_size)%Z
           then Raise DownloadInterruptedException
           else Return (fname_of folder name, default "" (headers r !! "etag"))
       end, st')
    /\ files st' !! fname_of folder name = Some (concat (body r))
    /\ (forall p, p <> fname_of folder name -> files st' !! p = files st !! p)
    /\ currend_download st'
       = (match body_end r with
          | Some _ => Some (length (responses st))
          | None =>
              if (Z.of_nat (length (concat (body r))) <? total_size)%Z
              then Some (length (responses st)) else None
          end)
    /\ dirs st' = {[folder]} ∪ dirs st.
Proof.
  intros Hg Hcl Ha Hf Hn Hd Hcb.
  destruct (download_prelude net url folder name cb st r total_size Hg Ha Hf Hn Hd)
    as (st0 & E & L0 & C0 & F0 & _ & O0 & D0 & _).
  rewrite E. unfold bind at 1.
  destruct (download_loop_all cb total_size (fname_of folder name)
              (length (responses st)) r (body r) Hcb Hcl 0%Z None st0 [] L0 F0)
    as (st1 & El & Fl & Ol & Dl & Cl & _).
  rewrite El. cbn [app] in Fl. rewrite D0 in Dl.
  assert (O1 : forall p, p <> fname_of folder name -> files st1 !! p = files st !! p).
  { intros p Hp. rewrite (Ol p Hp). apply O0. exact Hp. }
  destruct (body_end r) as [e|].
  - exists st1. split; [reflexivity|]. split; [exact Fl|]. split; [exact O1|].
    split; [rewrite Cl; exact C0|exact Dl].
  - unfold download_end, bind at 1. rewrite (getsize_lookup _ _ _ Fl).
    destruct (Z.of_nat (length (concat (body r))) <? total_size)%Z.
    + exists st1. split; [reflexivity|]. split; [exact Fl|]. split; [exact O1|].
      split; [rewrite Cl; exact C0|exact Dl].
    + eexists. split; [reflexivity|]. cbn. split; [exact Fl|]. split; [exact O1|].
      split; [reflexivity|exact Dl].
Qed.





(** The run itself: 900 bytes of 1000, then [DownloadInterruptedException]
    when the stream just stops; and when a regular file has the path of
    the downloads folder, the [open] fails before anything is
    written. *)
Example download_short_body_raises :
  fst (download (Sample.serving Sample.short_body)
         "https://example.org/app.AppImage" "/tmp/dl" "abc"
         Sample.never_cancel Sample.empty_state)
  = Raise DownloadInterruptedException.
Proof. vm_compute. reflexivity. Qed.

Example download_folder_taken_raises :
  fst (download (Sample.serving Sample.small_file)
         "https://example.org/app.AppImage" "/tmp/dl" "abc"
         Sample.never_cancel Sample.folder_taken)
  = Raise OSError
  /\ files (snd (download (Sample.serving Sample.small_file)
                   "https://example.org/app.AppImage" "/tmp/dl" "abc"
                   Sample.never_cancel Sample.folder_taken))
       !! "/tmp/dl/abc.appimage"
     = None.
Proof. vm_compute. split; reflexivity. Qed.

Lemma cancel_download_active st h r :
  active st h r -> cancel_download st = (Return tt, after_cancel st h).
Proof.
  intros (Hc & Hr & Hok). unfold cancel_download, bind, gets. rewrite Hc.
  rewrite (deref_lookup _ _ _ Hr), Hok. reflexivity.
Qed.

Lemma cancel_download_idle st :
  currend_download st = None -> cancel_download st = (Return tt, st).
Proof. intros H. unfold cancel_download, bind, gets. rewrite H. reflexivity. Qed.

Lemma cancel_download_returns st :
  fst (cancel_download st) = Return tt.
Proof.
  unfold cancel_download, bind, gets.
  destruct (currend_download st) as [h|]; [|reflexivity].
  unfold deref, gets. destruct (ok _); reflexivity.
Qed.

Lemma cancel_download_twice st :
  cancel_download (snd (cancel_download st)) = (Return tt, snd (cancel_download st)).
Proof.
  unfold cancel_download at 2 3, bind, gets.
  destruct (currend_download st) as [h|] eqn:Hc.
  - unfold deref, gets. destruct (ok _) eqn:Hok.
    + apply cancel_download_idle. reflexivity.
    + cbn. unfold cancel_download, bind, gets. rewrite Hc.
      unfold deref, gets. rewrite Hok. reflexivity.
  - cbn. apply cancel_download_idle. exact Hc.
Qed.

(** Line 182 asks for the truth value of the response, which is its
    [ok]: behind a response with a status of 400 or more,
    [cancel_download] does nothing. *)
Lemma cancel_download_error_response st h r :
  currend_download st = Some h -> responses st !! h = Some r -> ok r = false ->
  cancel_download st = (Return tt, st).
Proof.
  intros Hc Hr Hok. unfold cancel_download, bind, gets. rewrite Hc.
  rewrite (deref_lookup _ _ _ Hr), Hok. reflexivity.
Qed.

(** On an active transfer it closes the response and clears the
    handle, and touches nothing else. *)
Lemma cancel_download_closes st h r :
  active st h r ->
  let st1 := snd (cancel_download st) in
  currend_download st1 = None
  /\ responses st1 !! h = Some (set_closed r)
  /\ same_disk st st1
  /\ trace st1 = (trace st ++ [EClose h])%list.
Proof.
  intros Hact st1.
  assert (E1 : st1 = after_cancel st h).
  { unfold st1. rewrite (cancel_download_active _ _ _ Hact). reflexivity. }
  destruct Hact as (Hc & Hr & Hok). rewrite E1.
  split; [reflexivity|]. split; [|split; [repeat split|reflexivity]].
  cbn. rewrite list_lookup_alter, Hr, decide_True by reflexivity. reflexivity.
Qed.

(** C2 fails: the server answers 404 with an error page of two blocks,
    which [download] transfers like any body, and the user cancels at
    every progress report.  [cancel_download], called in the middle of
    that transfer, changes nothing: the response is not closed and the
    updater keeps it.  So the transfer runs to its end, the second
    chunk is written, the callback is called again, and the error page
    is returned as the downloaded file. *)
Theorem cancel_download_skips_error_response :
  currend_download Sample.mid_error_transfer = Some 0%nat
  /\ responses Sample.mid_error_transfer !! 0%nat = Some Sample.not_found_page
  /\ ok Sample.not_found_page = false
  /\ cancel_download Sample.mid_error_transfer
     = (Return tt, Sample.mid_error_transfer)
  /\ fst (download (Sample.serving Sample.not_found_page)
            "https://example.org/app.AppImage" "/tmp/dl" "abc"
            Sample.always_cancel Sample.empty_state)
     = Return ("/tmp/dl/abc.appimage", "")
  /\ trace (snd (download (Sample.serving Sample.not_found_page)
                   "https://example.org/app.AppImage" "/tmp/dl" "abc"
                   Sample.always_cancel Sample.empty_state))
     = [EGet "https://example.org/app.AppImage";
        EWrite "/tmp/dl/abc.appimage" 1024; EProgress (1024 # 2048);
        EWrite "/tmp/dl/abc.appimage" 1024; EProgress (2048 # 2048)].
Proof.
  split; [reflexivity|]. split; [reflexivity|]. split; [reflexivity|].
  split; [apply (cancel_download_error_response _ 0%nat Sample.not_found_page);
          reflexivity|].
  split; vm_compute; reflexivity.
Qed.

(** A successful response that is cancelled.  The callback cancels
    when half of the file is reported; the response is closed, and the
    loop, which never asks, goes on with whatever the iterator still
    yields.  When that is nothing, [download] comes to its size check
    and raises [DownloadInterruptedException]; when the connection had
    read a chunk ahead, that chunk is written and reported first. *)
Example cancelled_download_raises_interrupted :
  fst (download (Sample.serving Sample.four_blocks)
         "https://example.org/app.AppImage" "/tmp/dl" "abc"
         Sample.cancel_at_half Sample.empty_state)
  = Raise DownloadInterruptedException
  /\ trace (snd (download (Sample.serving Sample.four_blocks)
                   "https://example.org/app.AppImage" "/tmp/dl" "abc"
                   Sample.cancel_at_half Sample.empty_state))
     = [EGet "https://example.org/app.AppImage";
        EWrite "/tmp/dl/abc.appimage" 1024; EProgress (1024 # 4096);
        EWrite "/tmp/dl/abc.appimage" 1024; EProgress (2048 # 4096);
        EClose 0].
Proof. vm_compute. repeat split. Qed.

Example cancelled_download_reads_on :
  fst (download (Sample.serving Sample.read_ahead)
         "https://example.org/app.AppImage" "/tmp/dl" "abc"
         Sample.cancel_at_half Sample.empty_state)
  = Raise DownloadInterruptedException
  /\ trace (snd (download (Sample.serving Sample.read_ahead)
                   "https://example.org/app.AppImage" "/tmp/dl" "abc"
                   Sample.cancel_at_half Sample.empty_state))
     = [EGet "https://example.org/app.AppImage";
        EWrite "/tmp/dl/abc.appimage" 1024; EProgress (1024 # 4096);
        EWrite "/tmp/dl/abc.appimage" 1024; EProgress (2048 # 4096);
        EClose 0;
        EWrite "/tmp/dl/abc.appimage" 1024; EProgress (3072 # 4096)].
Proof. vm_compute. repeat split. Qed.

(** With a length advertised, the loop's events come in pairs: each
    write is followed by the one callback made for it. *)
Lemma loop_events_pairs total_size fname pending :
  (total_size =? 0)%Z = false ->
  forall status,
    loop_events total_size fname pending status
    = flat_map (fun '(c, q) => [EWrite fname (length c); EProgress q])
        (zip pending (fractions total_size status (length pending))).
Proof.
  intros Ht. induction pending as [|c rest IH]; intros status; [reflexivity|].
  cbn [loop_events length fractions zip zip_with flat_map].
  rewrite Ht, IH. reflexivity.
Qed.

(** The writes are the chunks, in order and in full. *)
Lemma loop_events_writes total_size fname pending :
  forall status,
    writes_of (loop_events total_size fname pending status) = map length pending.
Proof.
  induction pending as [|c rest IH]; intros status; [reflexivity|].
  cbn [loop_events map]. destruct (negb (total_size =? 0)%Z); cbn; rewrite IH; reflexivity.
Qed.

Lemma progress_of_app a b : progress_of (a ++ b)%list = (progress_of a ++ progress_of b)%list.
Proof.
  induction a as [|e a IH]; [reflexivity|].
  destruct e; cbn; rewrite IH; reflexivity.
Qed.

Lemma progress_of_loop_events total_size fname pending :
  forall status,
    progress_of (loop_events total_size fname pending status)
    = if (total_size =? 0)%Z then []
      else fractions total_size status (length pending).
Proof.
  induction pending as [|c rest IH]; intros status; cbn [loop_events length fractions].
  - destruct (total_size =? 0)%Z; reflexivity.
  - rewrite progress_of_app, IH. destruct (total_size =? 0)%Z; reflexivity.
Qed.

Lemma Qdiv_le_mono (a b t : Z) :
  (a <= b)%Z -> (0 < t)%Z ->
  (inject_Z a / inject_Z t <= inject_Z b / inject_Z t)%Q.
Proof.
  intros Hab Ht. unfold Qdiv. apply Qmult_le_compat_r.
  - rewrite <- Zle_Qle. exact Hab.
  - apply Qinv_le_0_compat. change 0%Q with (inject_Z 0). rewrite <- Zle_Qle. lia.
Qed.

Lemma fractions_sorted total_size :
  (0 < total_size)%Z ->
  forall n status, Sorted Qle (fractions total_size status n).
Proof.
  intros Ht. induction n as [|n IH]; intros status; cbn [fractions]; constructor.
  - apply IH.
  - destruct n; cbn [fractions]; constructor.
    apply Qdiv_le_mono; [unfold block_size; lia|exact Ht].
Qed.

Lemma fractions_nonneg total_size :
  (0 < total_size)%Z ->
  forall n status, (0 <= status)%Z ->
    Forall (fun q => (0 <= q)%Q) (fractions total_size status n).
Proof.
  intros Ht. induction n as [|n IH]; intros status Hs; cbn [fractions]; constructor.
  - unfold Qdiv. apply Qmult_le_0_compat.
    + change 0%Q with (inject_Z 0). rewrite <- Zle_Qle. unfold block_size. lia.
    + apply Qinv_le_0_compat. change 0%Q with (inject_Z 0). rewrite <- Zle_Qle. lia.
  - apply IH. unfold block_size. lia.
Qed.

Lemma download_end_trace total_size fname etag st :
  trace (snd (download_end total_size fname etag st)) = trace st.
Proof.
  unfold download_end, bind at 1. rewrite getsize_st_size.
  destruct (st_size st fname) as [n|]; [|reflexivity].
  destruct (_ <? _)%Z; reflexivity.
Qed.

(** With a callback that does not cancel and a response that is not
    closed, [download] adds to the trace its GET and then, chunk by
    chunk, the write followed by the one callback it makes. *)
Lemma download_trace net url folder name cb st r total_size :
  get net url = Some r ->
  advertised r = Some total_size ->
  closed r = false ->
  (forall q, cb q = false) ->
  files st !! folder = None ->
  PyStr.mem "/" name = false ->
  fname_of folder name ∉ dirs st ->
  trace (snd (download net url folder name cb st))
  = (trace st ++ EGet url
       :: loop_events total_size (fname_of folder name) (body r) 0)%list.
Proof.
  intros Hg Ha Hc Hcb Hf Hn Hd.
  destruct (download_prelude net url folder name cb st r total_size Hg Ha Hf Hn Hd)
    as (st0 & E & L0 & _ & F0 & T0 & _).
  rewrite E. unfold bind at 1.
  destruct (download_loop_all cb total_size (fname_of folder name)
              (length (responses st)) r (body r) Hcb Hc 0%Z None st0 [] L0 F0)
    as (st1 & El & _ & _ & _ & _ & _ & T).
  rewrite El. destruct (body_end r).
  - cbn. rewrite T, T0, <- app_assoc. reflexivity.
  - rewrite download_end_trace, T, T0, <- app_assoc. reflexivity.
Qed.

(** The callbacks of such a run: none when no length is advertised;
    otherwise one per chunk, the k-th with k blocks over the advertised
    length, which never decreases and is never negative when that length
    is positive. *)
Lemma download_progress net url folder name cb st r total_size :
  get net url = Some r ->
  advertised r = Some total_size ->
  closed r = false ->
  (forall q, cb q = false) ->
  files st !! folder = None ->
  PyStr.mem "/" name = false ->
  fname_of folder name ∉ dirs st ->
  progress_of (trace (snd (download net url folder name cb st)))
  = (progress_of (trace st)
       ++ if (total_size =? 0)%Z then []
          else fractions total_size 0 (length (body r)))%list
  /\ ((0 < total_size)%Z ->
      Sorted Qle (fractions total_size 0 (length (body r)))
      /\ Forall (fun q => (0 <= q)%Q) (fractions total_size 0 (length (body r)))).
Proof.
  intros Hg Ha Hc Hcb Hf Hn Hd. split.
  - rewrite (download_trace _ _ _ _ _ _ _ _ Hg Ha Hc Hcb Hf Hn Hd).
    rewrite progress_of_app. cbn [progress_of].
    rewrite progress_of_loop_events. reflexivity.
  - intros Ht. split; [apply fractions_sorted; exact Ht|].
    apply fractions_nonneg; [exact Ht|lia].
Qed.

(** C1 fails on the upper bound: a file of 100 bytes, advertised as
    such and delivered in one chunk, is reported with the fraction
    1024/100.  The loop adds the block size to [status], not the length
    of the chunk it wrote. *)
Theorem download_progress_overshoots :
  fst (download (Sample.serving Sample.small_file)
         "https://example.org/app.AppImage" "/tmp/dl" "abc"
         Sample.never_cancel Sample.empty_state)
  = Return ("/tmp/dl/abc.appimage", "abc")
  /\ trace (snd (download (Sample.serving Sample.small_file)
                   "https://example.org/app.AppImage" "/tmp/dl" "abc"
                   Sample.never_cancel Sample.empty_state))
     = [EGet "https://example.org/app.AppImage";
        EWrite "/tmp/dl/abc.appimage" 100; EProgress (1024 # 100)]
  /\ ~ (1024 # 100 <= 1)%Q.
Proof.
  split; [vm_compute; reflexivity|]. split; [vm_compute; reflexivity|].
  intros H. vm_compute in H. apply H. reflexivity.
Qed.

End HttpFacts.

(** ** [check_url] *)

Section DispatchFacts.

Variable sandbox_sh : list string -> string.
Variable static_can_handle_link : string -> result bool.
Variable dynamic_can_handle_link : string -> result bool.

Local Abbreviation can_handle_link :=
  (Dispatch.can_handle_link static_can_handle_link dynamic_can_handle_link).
Local Abbreviation first_model :=
  (Dispatch.first_model static_can_handle_link dynamic_can_handle_link).
Local Abbreviation check_app := (Dispatch.check_app sandbox_sh).
Local Abbreviation check_embedded :=
  (Dispatch.check_embedded sandbox_sh static_can_handle_link dynamic_can_handle_link).
Local Abbreviation check_url :=
  (Dispatch.check_url sandbox_sh static_can_handle_link dynamic_can_handle_link).
Local Abbreviation first_accepting :=
  (Dispatch.first_accepting static_can_handle_link dynamic_can_handle_link).
Local Abbreviation all_reject :=
  (Dispatch.all_reject static_can_handle_link dynamic_can_handle_link).
Local Abbreviation no_embedded_match :=
  (Dispatch.no_embedded_match sandbox_sh static_can_handle_link dynamic_can_handle_link).

Lemma get_model_by_name_name m :
  Dispatch.get_model_by_name (Dispatch.name m) = Some m.
Proof. destruct m; reflexivity. Qed.

Lemma candidates_forced md : Dispatch.candidates (Some md) = [md].
Proof. destruct md; reflexivity. Qed.

Lemma first_model_accepting models link emb m :
  first_accepting models link m ->
  first_model models link emb
  = Return (Some {| Dispatch.inst_model := m; Dispatch.inst_link := link;
                    Dispatch.inst_embedded := emb |}).
Proof.
  intros (pre & post & -> & Hpre & Hm).
  induction pre as [|x pre IH]; simpl.
  - rewrite Hm. reflexivity.
  - rewrite (Hpre x) by (left; reflexivity).
    apply IH. intros m' Hin. apply Hpre. right. exact Hin.
Qed.

Lemma first_model_all_reject models link emb :
  all_reject models link -> first_model models link emb = Return None.
Proof.
  induction models as [|x models IH]; intros H; simpl; [reflexivity|].
  rewrite (H x) by (left; reflexivity).
  apply IH. intros m Hin. apply H. right. exact Hin.
Qed.

Lemma check_embedded_no_match models el :
  no_embedded_match models el -> check_embedded models el = Return None.
Proof.
  unfold no_embedded_match, Dispatch.check_embedded.
  destruct el as [e|]; [|reflexivity].
  destruct (check_app e) as [d|]; [|reflexivity].
  intros H. destruct (PyStr.truthy d); [|reflexivity].
  apply first_model_all_reject. exact H.
Qed.


End DispatchFacts.


(** * Properties of the objects and of the remaining functions *)

(** ** Globs *)

Section GlobFacts.
Import Re.

Lemma is_some_true {A} (o : option A) : is_some o = true <-> exists x, o = Some x.
Proof.
  destruct o; cbn; split; eauto; try discriminate.
  intros [x H]. discriminate.
Qed.

Lemma many_spec k : forall s pos (K : cont),
  is_some (many k pos s K) = true
  <-> exists a rest,
        s = a +:+ rest
        /\ UrlParse.all_chars (cclass_match k) a = true
        /\ is_some (K (pos + String.length a)%nat rest) = true.
Proof.
  induction s as [|c s IH]; intros pos K.
  - cbn [many]. split.
    + intros H. exists "", "". cbn. rewrite Nat.add_0_r. auto.
    + intros (a & rest & E & _ & H).
      destruct a; [|discriminate]. rewrite app_Empty in E. subst rest.
      cbn in H. rewrite Nat.add_0_r in H. exact H.
  - cbn [many]. destruct (cclass_match k c) eqn:Ec.
    + rewrite is_some_or, orb_true_iff, IH. split.
      * intros [(a & rest & E & Ha & H)|H].
        -- exists (String c a), rest. rewrite app_String, E. cbn [UrlParse.all_chars String.length].
           rewrite Ec, Ha. replace (pos + S (String.length a))%nat with (S pos + String.length a)%nat by lia.
           auto.
        -- exists "", (String c s). cbn. rewrite Nat.add_0_r. auto.
      * intros (a & rest & E & Ha & H). destruct a as [|x a].
        -- right. rewrite app_Empty in E. subst rest. cbn in H. rewrite Nat.add_0_r in H. exact H.
        -- left. rewrite app_String in E. injection E as -> ->.
           cbn in Ha. apply andb_true_iff in Ha as [_ Ha].
           exists a, rest. split; [reflexivity|]. split; [exact Ha|].
           cbn [String.length] in H.
           replace (S pos + String.length a)%nat with (pos + S (String.length a))%nat by lia.
           exact H.
    + split.
      * intros H. exists "", (String c s). cbn. rewrite Nat.add_0_r. auto.
      * intros (a & rest & E & Ha & H). destruct a as [|x a].
        -- rewrite app_Empty in E. subst rest. cbn in H. rewrite Nat.add_0_r in H. exact H.
        -- rewrite app_String in E. injection E as -> ->.
           cbn in Ha. rewrite Ec in Ha. discriminate.
Qed.

Lemma all_dot_no_newline a :
  UrlParse.all_chars (cclass_match CDot) a = true <-> PyStr.mem PyStr.newline a = false.
Proof.
  induction a as [|c a IH]; [cbn; tauto|].
  cbn [UrlParse.all_chars PyStr.mem cclass_match].
  rewrite andb_true_iff, orb_false_iff, IH, negb_true_iff. tauto.
Qed.

Lemma glob_body_spec g : forall s pos (K : cont),
  is_some (run (Assets.glob_body g) pos s K) = true
  <-> exists t rest,
        s = t +:+ rest /\ GlobSpec.expands g t
        /\ is_some (K (pos + String.length t)%nat rest) = true.
Proof.
  induction g as [|c g IH]; intros s pos K.
  - cbn [Assets.glob_body run]. split.
    + intros H. exists "", s. cbn. rewrite Nat.add_0_r. split; [reflexivity|].
      split; [constructor|exact H].
    + intros (t & rest & E & Hx & H). inversion Hx; subst.
      cbn in H. rewrite Nat.add_0_r in H. exact H.
  - cbn [Assets.glob_body run]. destruct (Ascii.eqb_spec c "*") as [->|Hne].
    + cbn [run]. rewrite many_spec. split.
      * intros (a & rest & E & Ha & H). apply IH in H as (t & rest' & E' & Hx & H).
        exists (a +:+ t), rest'. rewrite app_assoc_string, <- E', <- E.
        split; [reflexivity|]. split.
        -- constructor; [apply all_dot_no_newline; exact Ha|exact Hx].
        -- rewrite length_app_string, Nat.add_assoc. exact H.
      * intros (t & rest & E & Hx & H). inversion Hx; subst; [congruence|].
        exists a, (t0 +:+ rest). rewrite <- app_assoc_string.
        split; [reflexivity|]. split; [apply all_dot_no_newline; assumption|].
        apply IH. exists t0, rest. split; [reflexivity|]. split; [assumption|].
        rewrite length_app_string, Nat.add_assoc in H. exact H.
    + cbn [run cclass_match]. split.
      * destruct s as [|x s]; [discriminate|].
        destruct (Ascii.eqb_spec x c) as [->|]; [|discriminate].
        intros H. apply IH in H as (t & rest & E & Hx & H).
        exists (String c t), rest. rewrite app_String, E.
        split; [reflexivity|]. split; [constructor; assumption|].
        cbn [String.length].
        replace (pos + S (String.length t))%nat with (S pos + String.length t)%nat by lia.
        exact H.
      * intros (t & rest & E & Hx & H). inversion Hx; subst; [|congruence].
        rewrite app_String, Ascii.eqb_refl. apply IH.
        exists t0, rest. split; [reflexivity|]. split; [assumption|].
        cbn [String.length] in H.
        replace (S pos + String.length t0)%nat with (pos + S (String.length t0))%nat by lia.
        exact H.
Qed.

Lemma eol_spec pos rest :
  is_some (run Eol pos rest accept) = true
  <-> rest = "" \/ rest = String PyStr.newline "".
Proof.
  cbn [run]. destruct rest as [|c [|d r]]; cbn.
  - tauto.
  - destruct (Ascii.eqb_spec c PyStr.newline) as [->|Hne]; cbn.
    + tauto.
    + split; [discriminate|]. intros [H|H]; [discriminate|].
      injection H as H. contradiction.
  - split; [discriminate|]. intros [H|H]; discriminate.
Qed.

Lemma matches_is_some r s : Assets.matches r s = is_some (match_at r 0 s).
Proof. unfold Assets.matches, rmatch. destruct (match_at r 0 s); reflexivity. Qed.

Lemma app_Empty_r s : s +:+ "" = s.
Proof. induction s as [|c s IH]; [reflexivity|]. rewrite app_String, IH. reflexivity. Qed.

Lemma matches_glob g s :
  Assets.matches (Assets.convert_glob_to_regex g) s = true <-> GlobSpec.denotes g s.
Proof.
  rewrite matches_is_some. unfold match_at, Assets.convert_glob_to_regex.
  change (run (Seq Bol (Seq (Assets.glob_body g) Eol)) 0 s accept)
    with (run (Assets.glob_body g) 0 s (fun p s' => run Eol p s' accept)).
  rewrite glob_body_spec. unfold GlobSpec.denotes. split.
  - intros (t & rest & E & Hx & H). apply eol_spec in H as [->| ->].
    + exists t. rewrite app_Empty_r in E. auto.
    + exists t. auto.
  - intros (t & Hx & [->| ->]).
    + exists t, "". rewrite app_Empty_r. split; [reflexivity|]. split; [exact Hx|].
      apply (proj2 (eol_spec _ _)). auto.
    + exists t, (String PyStr.newline ""). split; [reflexivity|]. split; [exact Hx|].
      apply (proj2 (eol_spec _ _)). auto.
Qed.

(** X1: what a converted glob accepts.  [re.match] with the pattern
    [convert_glob_to_regex] builds succeeds on [s] exactly when [s] is
    the glob with each star replaced by some text without a newline,
    optionally followed by one final newline (which [$] lets pass). *)
Theorem glob_matches_expansions g s :
  Assets.matches (Assets.convert_glob_to_regex g) s = true <-> GlobSpec.denotes g s.
Proof. apply matches_glob. Qed.

Lemma expands_star_free g t :
  PyStr.mem "*" g = false -> GlobSpec.expands g t -> t = g.
Proof.
  intros Hg Hx. induction Hx.
  - reflexivity.
  - apply mem_cons_false in Hg as [_ Hg]. rewrite (IHHx Hg). reflexivity.
  - cbn in Hg. discriminate.
Qed.

Lemma expands_self g : PyStr.mem "*" g = false -> GlobSpec.expands g g.
Proof.
  induction g as [|c g IH]; intros Hg; [constructor|].
  apply mem_cons_false in Hg as [Hc Hg]. constructor; [|apply IH; exact Hg].
  intros ->. discriminate.
Qed.

Lemma glob_without_star_exact g s :
  PyStr.mem "*" g = false ->
  (Assets.matches (Assets.convert_glob_to_regex g) s = true
   <-> s = g \/ s = g +:+ String PyStr.newline "").
Proof.
  intros Hg. rewrite matches_glob. unfold GlobSpec.denotes. split.
  - intros (t & Hx & H). rewrite (expands_star_free _ _ Hg Hx) in H. exact H.
  - intros H. exists g. split; [apply expands_self; exact Hg|exact H].
Qed.

(** X2: a glob without a star is a literal.  Every other character,
    the regex operators included, stands for itself: the pattern
    accepts the glob's own text and that text followed by one newline,
    and nothing else. *)
Theorem glob_without_star_is_exact g s :
  PyStr.mem "*" g = false ->
  (Assets.matches (Assets.convert_glob_to_regex g) s = true
   <-> s = g \/ s = g +:+ String PyStr.newline "").
Proof. apply glob_without_star_exact. Qed.

Lemma star_accepts_single_line s :
  PyStr.mem PyStr.newline s = false ->
  Assets.matches (Assets.convert_glob_to_regex "*") s = true.
Proof.
  intros Hs. apply matches_glob. exists s. split; [|auto].
  rewrite <- (app_Empty_r s). constructor; [exact Hs|constructor].
Qed.

End GlobFacts.

Lemma glob_without_star_is_exact_witness :
  PyStr.mem "*" "app.AppImage" = false
  /\ (Assets.matches (Assets.convert_glob_to_regex "app.AppImage") "appxAppImage" = true
      <-> "appxAppImage" = "app.AppImage"
          \/ "appxAppImage" = "app.AppImage" +:+ String PyStr.newline "").
Proof.
  split; [reflexivity|].
  apply (glob_without_star_is_exact "app.AppImage" "appxAppImage"). reflexivity.
Defined.

(** ** What [check_app] can return *)

Section CheckAppFacts.
Import Re.

Lemma many_split k : forall s pos (K : cont) e,
  many k pos s K = Some e ->
  exists a s', s = a +:+ s' /\ K (pos + String.length a)%nat s' = Some e.
Proof.
  induction s as [|c s IH]; intros pos K e H.
  - exists "", "". cbn in *. rewrite Nat.add_0_r. auto.
  - cbn [many] in H. destruct (cclass_match k c).
    + destruct (many k (S pos) s K) as [e'|] eqn:E.
      * injection H as <-. apply IH in E as (a & s' & -> & E).
        exists (String c a), s'. split; [reflexivity|].
        cbn [String.length].
        replace (pos + S (String.length a))%nat with (S pos + String.length a)%nat by lia.
        exact E.
      * exists "", (String c s). cbn. rewrite Nat.add_0_r. auto.
    + exists "", (String c s). cbn. rewrite Nat.add_0_r. auto.
Qed.

(** A successful run consumes a prefix of the subject and hands the
    rest to its continuation. *)
Lemma run_split r : forall pos s (K : cont) e,
  run r pos s K = Some e ->
  exists a s', s = a +:+ s' /\ K (pos + String.length a)%nat s' = Some e.
Proof.
  induction r as [|k|k|r1 IH1 r2 IH2|r1 IH1 r2 IH2| |]; intros pos s K e H; cbn [run] in H.
  - exists "", s. cbn. rewrite Nat.add_0_r. auto.
  - destruct s as [|c s]; [discriminate|].
    destruct (cclass_match k c); [|discriminate].
    exists (String c ""), s. cbn. rewrite Nat.add_1_r. auto.
  - apply (many_split k). exact H.
  - apply IH1 in H as (a & s1 & -> & H). apply IH2 in H as (b & s2 & -> & H).
    exists (a +:+ b), s2. rewrite app_assoc_string, length_app_string, Nat.add_assoc. auto.
  - destruct (run r1 pos s K) as [e'|] eqn:E.
    + injection H as <-. apply IH1. exact E.
    + apply IH2. exact H.
  - destruct (pos =? 0)%nat; [|discriminate].
    exists "", s. cbn. rewrite Nat.add_0_r. auto.
  - exists "", s. rewrite app_Empty. cbn [String.length]. rewrite Nat.add_0_r.
    split; [reflexivity|].
    destruct s as [|c [|d s]]; [exact H| |discriminate].
    destruct (Ascii.eqb c PyStr.newline); [exact H|discriminate].
Qed.

Lemma take_app_length a s : PyStr.take (String.length a) (a +:+ s) = a.
Proof. induction a as [|c a IH]; [destruct s; reflexivity|]. rewrite app_String. cbn. rewrite IH. reflexivity. Qed.

(** The text of a match that starts with a literal starts with that
    literal. *)
Lemma match_lit_text tok r pos s e :
  match_at (Seq (lit tok) r) pos s = Some e ->
  exists a, PyStr.take (e - pos) s = tok +:+ a /\ String.prefix tok s = true.
Proof.
  unfold match_at. cbn [run]. rewrite run_lit.
  destruct (String.prefix tok s) eqn:Ep; [|discriminate].
  intros H. apply run_split in H as (a & s' & Es & H).
  unfold accept in H. injection H as <-.
  exists a. split; [|reflexivity].
  rewrite (startswith_split s tok Ep), Es, <- app_assoc_string.
  replace (pos + String.length tok + String.length a - pos)%nat
    with (String.length (tok +:+ a)) by (rewrite length_app_string; lia).
  apply take_app_length.
Qed.

Lemma search_from_sound r : forall s pos b e,
  search_from r pos s = Some (b, e) ->
  exists k, b = (pos + k)%nat /\ match_at r b (PyStr.drop k s) = Some e.
Proof.
  induction s as [|c s IH]; intros pos b e H; cbn [search_from] in H.
  - destruct (match_at r pos "") as [e'|] eqn:E; [|discriminate].
    injection H as <- <-. exists 0%nat. rewrite Nat.add_0_r. auto.
  - destruct (match_at r pos (String c s)) as [e'|] eqn:E.
    + injection H as <- <-. exists 0%nat. rewrite Nat.add_0_r. auto.
    + apply IH in H as (k & -> & H). exists (S k). split; [lia|exact H].
Qed.

Lemma search_from_bol_later r : forall s pos,
  (0 < pos)%nat -> search_from (Seq Bol r) pos s = None.
Proof.
  induction s as [|c s IH]; intros pos Hpos; cbn [search_from];
    unfold match_at; cbn [run];
    destruct (Nat.eqb_spec pos 0) as [->|_]; try lia; [reflexivity|].
  apply IH. lia.
Qed.

Lemma search_from_bol r s b e :
  search_from (Seq Bol r) 0 s = Some (b, e) ->
  b = 0%nat /\ match_at r 0 s = Some e.
Proof.
  intros H.
  destruct (match_at r 0 s) as [e'|] eqn:E.
  - rewrite (search_from_hit (Seq Bol r) 0 s e') in H by exact E.
    injection H as <- <-. auto.
  - destruct s as [|c s]; cbn [search_from] in H; unfold match_at in H, E;
      cbn [run Nat.eqb] in H; rewrite E in H; [discriminate|].
    rewrite search_from_bol_later in H by lia. discriminate.
Qed.

(** [String.rev] and [strip]. *)
Lemma rev_app_acc s : forall acc,
  String.rev_app s acc = String.rev_app s "" +:+ acc.
Proof.
  induction s as [|c s IH]; intros acc; [reflexivity|].
  cbn [String.rev_app]. rewrite (IH (String c acc)), (IH (String c "")).
  rewrite app_assoc_string. reflexivity.
Qed.

Lemma rev_String c s : String.rev (String c s) = String.rev s +:+ String c "".
Proof. unfold String.rev. cbn [String.rev_app]. apply rev_app_acc. Qed.

Lemma rev_app a b : String.rev (a +:+ b) = String.rev b +:+ String.rev a.
Proof.
  induction a as [|c a IH].
  - rewrite app_Empty. cbn [String.rev]. rewrite app_Empty_r. reflexivity.
  - rewrite app_String, !rev_String, IH, app_assoc_string. reflexivity.
Qed.

Lemma rev_rev s : String.rev (String.rev s) = s.
Proof.
  induction s as [|c s IH]; [reflexivity|].
  rewrite rev_String, rev_app, IH. reflexivity.
Qed.

Lemma lstrip_by_app p x c y :
  p c = false ->
  PyStr.lstrip_by p (x +:+ String c y) = PyStr.lstrip_by p x +:+ String c y.
Proof.
  intros Hc. induction x as [|d x IH].
  - rewrite !app_Empty. cbn. rewrite Hc. reflexivity.
  - rewrite app_String. cbn [PyStr.lstrip_by]. destruct (p d); [exact IH|].
    rewrite app_String. reflexivity.
Qed.

(** [strip] leaves alone a leading text that starts and ends with a
    character that is no whitespace. *)
Lemma strip_keeps_prefix T c tok d a :
  T = String c tok +:+ String d "" ->
  PyStr.isspace c = false -> PyStr.isspace d = false ->
  exists a', PyStr.strip (T +:+ a) = T +:+ a'.
Proof.
  intros -> Hc Hd. unfold PyStr.strip, PyStr.strip_by.
  set (T := String c tok).
  assert (E1 : PyStr.lstrip_by PyStr.isspace ((T +:+ String d "") +:+ a)
               = (T +:+ String d "") +:+ a).
  { unfold T. rewrite !app_String. cbn [PyStr.lstrip_by]. rewrite Hc. reflexivity. }
  rewrite E1.
  assert (E2 : String.rev ((T +:+ String d "") +:+ a)
               = String.rev a +:+ String d (String.rev T)).
  { rewrite !rev_app. f_equal. }
  rewrite E2, (lstrip_by_app _ _ _ _ Hd), rev_app, rev_String, rev_rev.
  eexists. reflexivity.
Qed.

Lemma prefix_flat tok : forall out,
  PyStr.mem " " tok = false ->
  String.prefix tok (PyStr.replace_char PyStr.newline " " out +:+ " ") = true ->
  String.prefix tok out = true.
Proof.
  induction tok as [|c tok IH]; intros out Hsp H; [destruct out; reflexivity|].
  apply mem_cons_false in Hsp as [Hc Hsp].
  destruct out as [|x out].
  - rewrite app_Empty, string_prefix_cons in H.
    apply andb_true_iff in H as [H _]. rewrite Ascii.eqb_sym, Hc in H. discriminate.
  - cbn [PyStr.replace_char] in H. rewrite app_String, string_prefix_cons in H.
    apply andb_true_iff in H as [H1 H2].
    rewrite string_prefix_cons. rewrite (IH out Hsp H2), andb_true_r.
    destruct (Ascii.eqb x PyStr.newline); [|exact H1].
    rewrite Ascii.eqb_sym, Hc in H1. discriminate.
Qed.

Lemma check_app_shape out d :
  Checker.check_app_out out = Some d ->
  PyStr.startswith d "gh-releases-zsync|" = true
  \/ (PyStr.startswith out "zsync|http" = true /\ PyStr.startswith d "http" = true).
Proof.
  unfold Checker.check_app_out.
  set (flat := PyStr.replace_char PyStr.newline " " out +:+ " ").
  unfold search.
  destruct (search_from Checker.pattern_gh 0 flat) as [[b e]|] eqn:Egh.
  - intros H. injection H as <-. left.
    apply search_from_sound in Egh as (k & -> & Hm). cbn [Nat.add] in Hm |- *.
    apply match_lit_text in Hm as (a & -> & _).
    destruct (strip_keeps_prefix "gh-releases-zsync|" "g" "h-releases-zsync" "|" a
                eq_refl eq_refl eq_refl) as (a' & E).
    unfold PyStr.startswith. rewrite E. apply prefix_app.
  - destruct (search_from Checker.pattern_link 0 flat) as [[b e]|] eqn:Elk; [|discriminate].
    intros H. injection H as <-. right.
    apply search_from_bol in Elk as (-> & Hm).
    apply match_lit_text in Hm as (a & Ht & Hp).
    split.
    + apply (prefix_flat "zsync|http" out); [reflexivity|exact Hp].
    + rewrite Nat.sub_0_r in *. cbn [PyStr.drop]. rewrite Ht.
      assert (Es : sub_empty Checker.pattern_zsync_prefix ("zsync|http" +:+ a)
                   = "http" +:+ a).
      { unfold sub_empty. rewrite (sub_from_step _ _ _ _ 6%nat).
        - unfold Checker.pattern_zsync_prefix. rewrite sub_from_anchored by lia. reflexivity.
        - unfold match_at, Checker.pattern_zsync_prefix. cbn [run Nat.eqb].
          rewrite run_lit.
          change ("zsync|http" +:+ a) with ("zsync|" +:+ ("http" +:+ a)).
          rewrite prefix_app. reflexivity.
        - lia. }
      rewrite Es.
      destruct (strip_keeps_prefix "http" "h" "tt" "p" a eq_refl eq_refl eq_refl)
        as (a' & E).
      unfold PyStr.startswith. rewrite E. apply prefix_app.
Qed.

(** X3: the shape of a descriptor.  Whatever [check_app] returns starts
    with [gh-releases-zsync|] or with [http]; the second only when the
    dump itself starts with [zsync|http], because the link pattern is
    anchored at the start of the dump. *)
Theorem check_app_descriptor_shape out d :
  Checker.check_app_out out = Some d ->
  PyStr.startswith d "gh-releases-zsync|" = true
  \/ (PyStr.startswith out "zsync|http" = true /\ PyStr.startswith d "http" = true).
Proof. apply check_app_shape. Qed.

End CheckAppFacts.

Lemma check_app_descriptor_shape_witness :
  Checker.check_app_out "zsync|https://x/y.bin next" = Some "https://x/y.bin next"
  /\ (PyStr.startswith "https://x/y.bin next" "gh-releases-zsync|" = true
      \/ (PyStr.startswith "zsync|https://x/y.bin next" "zsync|http" = true
          /\ PyStr.startswith "https://x/y.bin next" "http" = true)).
Proof.
  assert (E : Checker.check_app_out "zsync|https://x/y.bin next"
              = Some "https://x/y.bin next") by (vm_compute; reflexivity).
  split; [exact E|].
  exact (check_app_descriptor_shape "zsync|https://x/y.bin next"
           "https://x/y.bin next" E).
Defined.

(** ** The [.zsync] suffix *)

Section ZsyncFacts.
Import Re.

Lemma eol_accept pos rest e :
  run Eol pos rest accept = Some e ->
  (rest = "" \/ rest = String PyStr.newline "") /\ e = pos.
Proof.
  cbn [run]. destruct rest as [|c [|d r]]; unfold accept.
  - intros H. injection H as <-. auto.
  - destruct (Ascii.eqb_spec c PyStr.newline) as [->|]; [|discriminate].
    intros H. injection H as <-. auto.
  - discriminate.
Qed.

Lemma match_zsync pos s e :
  match_at Assets.zsync_suffix pos s = Some e ->
  (s = ".zsync" \/ s = ".zsync" +:+ String PyStr.newline "") /\ e = (pos + 6)%nat.
Proof.
  unfold match_at, Assets.zsync_suffix. cbn [run]. rewrite run_lit.
  destruct (String.prefix ".zsync" s) eqn:Ep; [|discriminate].
  intros H. apply eol_accept in H as [Hr ->].
  split; [|reflexivity].
  rewrite (startswith_split s ".zsync" Ep).
  destruct Hr as [-> | ->]; [left; apply app_Empty_r|right; reflexivity].
Qed.

Lemma match_zsync_here pos :
  match_at Assets.zsync_suffix pos ".zsync" = Some (pos + 6)%nat.
Proof.
  unfold match_at, Assets.zsync_suffix. cbn [run]. rewrite run_lit. reflexivity.
Qed.

Lemma match_zsync_newline pos :
  match_at Assets.zsync_suffix pos (".zsync" +:+ String PyStr.newline "")
  = Some (pos + 6)%nat.
Proof.
  unfold match_at, Assets.zsync_suffix. cbn [run]. rewrite run_lit. reflexivity.
Qed.

Lemma sub_from_miss fuel r pos c s :
  match_at r pos (String c s) = None ->
  sub_from (S fuel) r pos (String c s) = String c (sub_from fuel r (S pos) s).
Proof. intros H. cbn [sub_from]. rewrite H. reflexivity. Qed.

Lemma sub_from_empty_zsync fuel pos : sub_from fuel Assets.zsync_suffix pos "" = "".
Proof. destruct fuel; reflexivity. Qed.

Lemma sub_from_newline_zsync fuel pos :
  sub_from fuel Assets.zsync_suffix pos (String PyStr.newline "")
  = String PyStr.newline "".
Proof. destruct fuel as [|[|fuel]]; reflexivity. Qed.

(** The pattern matches nowhere in [s]: nothing is removed. *)
Lemma sub_from_zsync_id : forall s fuel pos,
  (forall v, s <> v +:+ ".zsync") ->
  (forall v, s <> v +:+ (".zsync" +:+ String PyStr.newline "")) ->
  sub_from fuel Assets.zsync_suffix pos s = s.
Proof.
  induction s as [|c s IH]; intros fuel pos H1 H2; [apply sub_from_empty_zsync|].
  destruct fuel as [|fuel]; [reflexivity|].
  rewrite sub_from_miss.
  - rewrite IH; [reflexivity| |].
    + intros v E. apply (H1 (String c v)). rewrite app_String, E. reflexivity.
    + intros v E. apply (H2 (String c v)). rewrite app_String, E. reflexivity.
  - destruct (match_at Assets.zsync_suffix pos (String c s)) as [e|] eqn:E; [|reflexivity].
    apply match_zsync in E as [[E|E] _].
    + destruct (H1 ""). rewrite app_Empty. exact E.
    + destruct (H2 ""). rewrite app_Empty. exact E.
Qed.

Lemma length_eq_string (a b : string) : a = b -> String.length a = String.length b.
Proof. intros ->. reflexivity. Qed.

Lemma sub_from_zsync_end : forall u fuel pos,
  (String.length u + 1 < fuel)%nat ->
  sub_from fuel Assets.zsync_suffix pos (u +:+ ".zsync") = u.
Proof.
  induction u as [|c u IH]; intros fuel pos Hf.
  - destruct fuel as [|fuel]; [cbn in Hf; lia|].
    rewrite app_Empty, (sub_from_step _ _ _ _ _ (match_zsync_here pos)) by lia.
    replace (pos + 6 - pos)%nat with 6%nat by lia. apply sub_from_empty_zsync.
  - destruct fuel as [|fuel]; [cbn in Hf; lia|].
    rewrite app_String, sub_from_miss.
    + rewrite IH; [reflexivity|cbn in Hf; lia].
    + destruct (match_at Assets.zsync_suffix pos (String c (u +:+ ".zsync")))
        as [e|] eqn:E; [|reflexivity].
      apply match_zsync in E as [[E|E] _]; pose proof (length_eq_string _ _ E) as L;
        cbn [String.length] in L; rewrite !length_app_string in L.
      * cbn in L. lia.
      * destruct u as [|d u]; [|cbn in L; lia].
        rewrite app_Empty in E. discriminate E.
Qed.

Lemma sub_from_zsync_newline : forall u fuel pos,
  (String.length u + 2 < fuel)%nat ->
  sub_from fuel Assets.zsync_suffix pos (u +:+ (".zsync" +:+ String PyStr.newline ""))
  = u +:+ String PyStr.newline "".
Proof.
  induction u as [|c u IH]; intros fuel pos Hf.
  - destruct fuel as [|fuel]; [cbn in Hf; lia|].
    rewrite !app_Empty, (sub_from_step _ _ _ _ _ (match_zsync_newline pos)) by lia.
    replace (pos + 6 - pos)%nat with 6%nat by lia. apply sub_from_newline_zsync.
  - destruct fuel as [|fuel]; [cbn in Hf; lia|].
    rewrite !(app_String c u), sub_from_miss.
    + rewrite IH; [reflexivity|cbn in Hf; lia].
    + destruct (match_at Assets.zsync_suffix pos
                  (String c (u +:+ (".zsync" +:+ String PyStr.newline ""))))
        as [e|] eqn:E; [|reflexivity].
      apply match_zsync in E as [[E|E] _]; pose proof (length_eq_string _ _ E) as L;
        cbn [String.length] in L; rewrite !length_app_string in L; cbn in L; lia.
Qed.

Lemma endswith_app u p : PyStr.endswith (u +:+ p) p = true.
Proof. unfold PyStr.endswith. rewrite rev_app. apply prefix_app. Qed.

Lemma endswith_false s p :
  PyStr.endswith s p = false -> forall v, s <> v +:+ p.
Proof. intros H v ->. rewrite endswith_app in H. discriminate. Qed.

Lemma sub_zsync_app u : sub_empty Assets.zsync_suffix (u +:+ ".zsync") = u.
Proof.
  unfold sub_empty. apply sub_from_zsync_end.
  rewrite length_app_string. cbn. lia.
Qed.

Lemma sub_zsync_other s :
  PyStr.endswith s ".zsync" = false ->
  PyStr.endswith s (".zsync" +:+ String PyStr.newline "") = false ->
  sub_empty Assets.zsync_suffix s = s.
Proof.
  intros H1 H2. unfold sub_empty.
  apply sub_from_zsync_id; apply endswith_false; assumption.
Qed.

(** X4: what the constructor makes of a link.  A final [.zsync] is cut
    off, once; when the link ends in [.zsync] and a newline, which [$]
    lets pass, the suffix goes and the newline stays; any other link is
    kept as it is. *)
Theorem static_init_url tmp_dir u emb st :
  Static.init tmp_dir (u +:+ ".zsync") emb st
  = (Return {| Static.url := u; Static.embedded := emb;
               Static.download_folder := Static.downloads_of tmp_dir |},
     Http.set_currend_download None st)
  /\ Static.init tmp_dir (u +:+ (".zsync" +:+ String PyStr.newline "")) emb st
     = (Return {| Static.url := u +:+ String PyStr.newline "";
                  Static.embedded := emb;
                  Static.download_folder := Static.downloads_of tmp_dir |},
        Http.set_currend_download None st)
  /\ (PyStr.endswith u ".zsync" = false ->
      PyStr.endswith u (".zsync" +:+ String PyStr.newline "") = false ->
      Static.init tmp_dir u emb st
      = (Return {| Static.url := u; Static.embedded := emb;
                   Static.download_folder := Static.downloads_of tmp_dir |},
         Http.set_currend_download None st)).
Proof.
  unfold Static.init, Http.bind, Http.modify, Http.ret.
  split; [|split].
  - rewrite sub_zsync_app. reflexivity.
  - unfold sub_empty. rewrite sub_from_zsync_newline; [reflexivity|].
    rewrite !length_app_string. cbn. lia.
  - intros H1 H2. rewrite (sub_zsync_other u H1 H2). reflexivity.
Qed.

(** X5: the capability check of a [.zsync] link asks about the file
    itself: when the validity test does not tell the two apart, a link
    with the suffix is probed exactly as the link without it is. *)
Theorem static_can_handle_link_zsync url_is_valid supported_mimes net u st :
  url_is_valid (u +:+ ".zsync") = url_is_valid u ->
  PyStr.endswith u ".zsync" = false ->
  Http.static_can_handle_link url_is_valid supported_mimes net (u +:+ ".zsync") st
  = Http.static_can_handle_link url_is_valid supported_mimes net u st.
Proof.
  intros Hv He. unfold Http.static_can_handle_link.
  rewrite Hv, endswith_app, He, sub_zsync_app. reflexivity.
Qed.

End ZsyncFacts.

Lemma static_init_url_witness :
  PyStr.endswith "https://x/y.bin" ".zsync" = false
  /\ PyStr.endswith "https://x/y.bin" (".zsync" +:+ String PyStr.newline "") = false
  /\ Static.init "/tmp" "https://x/y.bin" false Sample.empty_state
     = (Return {| Static.url := "https://x/y.bin"; Static.embedded := false;
                  Static.download_folder := Static.downloads_of "/tmp" |},
        Http.set_currend_download None Sample.empty_state).
Proof.
  split; [reflexivity|]. split; [reflexivity|].
  apply (static_init_url "/tmp" "https://x/y.bin" false Sample.empty_state);
    reflexivity.
Defined.

Lemma static_can_handle_link_zsync_witness :
  Sample.url_is_valid ("https://x/y.bin" +:+ ".zsync") = Sample.url_is_valid "https://x/y.bin"
  /\ PyStr.endswith "https://x/y.bin" ".zsync" = false
  /\ Http.static_can_handle_link Sample.url_is_valid Sample.supported_mimes
       Sample.binary_net ("https://x/y.bin" +:+ ".zsync") Sample.empty_state
     = Http.static_can_handle_link Sample.url_is_valid Sample.supported_mimes
         Sample.binary_net "https://x/y.bin" Sample.empty_state.
Proof.
  split; [reflexivity|]. split; [reflexivity|].
  apply (static_can_handle_link_zsync Sample.url_is_valid Sample.supported_mimes
           Sample.binary_net "https://x/y.bin" Sample.empty_state); reflexivity.
Defined.

(** ** What [download] leaves on disk *)

Section DownloadFacts.
Import Http.


Lemma download_disk net url folder name cb st r total_size :
  get net url = Some r ->
  advertised r = Some total_size ->
  files st !! folder = None ->
  PyStr.mem "/" name = false ->
  fname_of folder name ∉ dirs st ->
  exists res st' n,
    download net url folder name cb st = (res, st')
    /\ files st' !! fname_of folder name = Some (concat (take n (body r)))
    /\ (forall p, p <> fname_of folder name -> files st' !! p = files st !! p)
    /\ dirs st' = {[folder]} ∪ dirs st.
Proof.
  intros Hg Ha Hf Hn Hd.
  destruct (download_prelude net url folder name cb st r total_size Hg Ha Hf Hn Hd)
    as (st0 & E & L0 & _ & F0 & _ & O0 & D0 & _).
  rewrite E. unfold bind at 1.
  destruct (download_loop_spec cb total_size (fname_of folder name)
              (length (responses st)) r (body r) 0%Z None st0 []
              (or_introl L0) F0)
    as (res & st1 & n & El & Fl & Ol & Dl & _).
  rewrite El. cbn [app] in Fl.
  assert (O1 : forall p, p <> fname_of folder name -> files st1 !! p = files st !! p).
  { intros p Hp. rewrite (Ol p Hp). apply O0. exact Hp. }
  rewrite D0 in Dl.
  destruct res as [[]|e].
  - unfold download_end, bind at 1. rewrite (getsize_lookup _ _ _ Fl).
    destruct (_ <? _)%Z.
    + exists (Raise DownloadInterruptedException), st1, n. auto.
    + eexists _, _, n. split; [reflexivity|]. cbn. auto.
  - exists (Raise e), st1, n. auto.
Qed.



End DownloadFacts.




(** ** [cleanup] *)

Section CleanupFacts.
Import Http.

Lemma under_fname folder name : Static.under folder (fname_of folder name) = true.
Proof.
  unfold Static.under, fname_of.
  rewrite <- (app_assoc_string folder "/" (name +:+ ".appimage")).
  apply prefix_app.
Qed.

Lemma rmtree_dir p st :
  p ∈ dirs st ->
  exists st',
    Static.rmtree p st = (Return tt, st')
    /\ (forall q, Static.under p q = true -> files st' !! q = None)
    /\ (forall q, Static.under p q = false -> files st' !! q = files st !! q)
    /\ (forall d, d ∈ dirs st' <-> d ∈ dirs st /\ d <> p /\ Static.under p d = false)
    /\ currend_download st' = currend_download st
    /\ responses st' = responses st
    /\ trace st' = trace st.
Proof.
  intros Hp. unfold Static.rmtree, bind, gets. rewrite bool_decide_eq_true_2 by exact Hp.
  unfold modify. eexists. split; [reflexivity|]. cbn.
  split; [|split; [|split; [|auto]]].
  - intros q Hq. apply map_lookup_filter_None. right. intros x _ H.
    change (Static.under p q = false) in H. rewrite Hq in H. discriminate.
  - intros q Hq. destruct (files st !! q) as [x|] eqn:E.
    + apply map_lookup_filter_Some. split; [exact E|exact Hq].
    + apply map_lookup_filter_None. left. exact E.
  - intros d. rewrite elem_of_filter. tauto.
Qed.

Lemma cleanup_cases self st :
  (Static.download_folder self ∈ dirs st ->
   exists st',
     Static.cleanup self st = (Return tt, st')
     /\ (forall q, Static.under (Static.download_folder self) q = true ->
         files st' !! q = None)
     /\ (forall q, Static.under (Static.download_folder self) q = false ->
         files st' !! q = files st !! q)
     /\ (Static.download_folder self ∉ dirs st')
     /\ currend_download st' = currend_download st
     /\ responses st' = responses st)
  /\ (Static.download_folder self ∉ dirs st ->
      files st !! Static.download_folder self = None ->
      Static.cleanup self st = (Return tt, st))
  /\ (Static.download_folder self ∉ dirs st ->
      is_Some (files st !! Static.download_folder self) ->
      Static.cleanup self st = (Raise OSError, st)).
Proof.
  set (folder := Static.download_folder self).
  unfold Static.cleanup, path_exists. fold folder.
  split; [|split].
  - intros Hd. unfold bind at 1, gets at 1.
    rewrite (bool_decide_eq_true_2 (folder ∈ dirs st)), orb_true_r by exact Hd.
    destruct (rmtree_dir folder st Hd) as (st' & E & F1 & F2 & D & C & R & _).
    exists st'. split; [exact E|]. split; [exact F1|]. split; [exact F2|].
    split; [|auto]. intros H. apply D in H. tauto.
  - intros Hd Hf. unfold bind, gets.
    rewrite (bool_decide_eq_false_2 (folder ∈ dirs st)) by exact Hd.
    rewrite bool_decide_eq_false_2; [reflexivity|].
    rewrite Hf. intros [x Hx]. discriminate.
  - intros Hd Hf. unfold bind at 1, gets at 1.
    rewrite (bool_decide_eq_true_2 (is_Some _)) by exact Hf. cbn [orb].
    unfold Static.rmtree, bind, gets.
    rewrite (bool_decide_eq_false_2 (folder ∈ dirs st)) by exact Hd. reflexivity.
Qed.

(** X9: [cleanup] empties the downloads folder.  When the folder is
    there, every file below it is gone afterwards, whoever wrote it,
    the folder itself is gone, no file elsewhere changes, and a
    transfer in progress is neither closed nor forgotten.  When nothing
    has that path, nothing happens; when a regular file has it,
    [OSError] leaves the call. *)
Theorem cleanup_empties_downloads self st :
  (Static.download_folder self ∈ dirs st ->
   exists st',
     Static.cleanup self st = (Return tt, st')
     /\ (forall q, Static.under (Static.download_folder self) q = true ->
         files st' !! q = None)
     /\ (forall q, Static.under (Static.download_folder self) q = false ->
         files st' !! q = files st !! q)
     /\ (Static.download_folder self ∉ dirs st')
     /\ currend_download st' = currend_download st
     /\ responses st' = responses st)
  /\ (Static.download_folder self ∉ dirs st ->
      files st !! Static.download_folder self = None ->
      Static.cleanup self st = (Return tt, st))
  /\ (Static.download_folder self ∉ dirs st ->
      is_Some (files st !! Static.download_folder self) ->
      Static.cleanup self st = (Raise OSError, st)).
Proof. apply cleanup_cases. Qed.

(** X10: a download followed by [cleanup] leaves no downloaded file.
    Whether the download returned or raised, [cleanup] then returns,
    the file the download wrote is gone, and the files outside the
    downloads folder are as they were before the download. *)
Theorem download_then_cleanup net self name cb st r total_size :
  get net (Static.url self) = Some r ->
  advertised r = Some total_size ->
  files st !! Static.download_folder self = None ->
  fname_of (Static.download_folder self) name ∉ dirs st ->
  exists res st1 st2,
    Static.download net self name cb st = (res, st1)
    /\ Static.cleanup self st1 = (Return tt, st2)
    /\ files st2 !! fname_of (Static.download_folder self) name = None
    /\ (forall q, Static.under (Static.download_folder self) q = false ->
        files st2 !! q = files st !! q).
Proof.
  intros Hg Ha Hf Hd. unfold Static.download.
  set (folder := Static.download_folder self) in *.
  destruct (download_frame net (Static.url self) folder name cb st r total_size Hg Ha Hd)
    as (res & st1 & E & O & D).
  assert (Hin : folder ∈ dirs st1).
  { rewrite D. rewrite (bool_decide_eq_false_2 (is_Some _)) by (rewrite Hf; intros [x Hx]; discriminate).
    cbn [orb]. destruct (bool_decide (folder ∈ dirs st)) eqn:B.
    - apply bool_decide_eq_true_1 in B. exact B.
    - apply elem_of_union_l, elem_of_singleton. reflexivity. }
  destruct (proj1 (cleanup_cases self st1) Hin) as (st2 & Ec & F1 & F2 & _).
  exists res, st1, st2. split; [exact E|]. split; [exact Ec|]. split.
  - apply F1. apply under_fname.
  - intros q Hq. rewrite (F2 q Hq). apply O. intros ->.
    unfold folder in Hq. rewrite under_fname in Hq. discriminate.
Qed.

End CleanupFacts.

Lemma cleanup_empties_downloads_witness :
  (Static.download_folder
     {| Static.url := "https://x/y.bin"; Static.embedded := false;
        Static.download_folder := "/tmp/dl" |} ∈ Http.dirs Sample.mid_transfer)
  /\ exists st',
       Static.cleanup
         {| Static.url := "https://x/y.bin"; Static.embedded := false;
            Static.download_folder := "/tmp/dl" |} Sample.mid_transfer
       = (Return tt, st')
       /\ Http.files st' !! "/tmp/dl/abc.appimage" = None
       /\ Http.currend_download st' = Some 0%nat.
Proof.
  assert (D : Static.download_folder
                {| Static.url := "https://x/y.bin"; Static.embedded := false;
                   Static.download_folder := "/tmp/dl" |} ∈ Http.dirs Sample.mid_transfer).
  { apply (bool_decide_unpack _). vm_compute. exact I. }
  split; [exact D|].
  destruct (proj1 (cleanup_empties_downloads
                     {| Static.url := "https://x/y.bin"; Static.embedded := false;
                        Static.download_folder := "/tmp/dl" |} Sample.mid_transfer) D)
    as (st' & E & F1 & _ & _ & C & _).
  exists st'. split; [exact E|]. split; [apply F1; reflexivity|exact C].
Defined.

Lemma download_then_cleanup_witness :
  Http.get (Sample.serving Sample.short_body) "https://x/y.bin" = Some Sample.short_body
  /\ Http.advertised Sample.short_body = Some 1000%Z
  /\ Http.files Sample.installed_state !! "/tmp/dl" = None
  /\ (Http.fname_of "/tmp/dl" "abc" ∉ Http.dirs Sample.installed_state)
  /\ exists res st1 st2,
       Static.download (Sample.serving Sample.short_body)
         {| Static.url := "https://x/y.bin"; Static.embedded := false;
            Static.download_folder := "/tmp/dl" |} "abc" Sample.never_cancel
         Sample.installed_state = (res, st1)
       /\ Static.cleanup
            {| Static.url := "https://x/y.bin"; Static.embedded := false;
               Static.download_folder := "/tmp/dl" |} st1 = (Return tt, st2)
       /\ Http.files st2 !! Http.fname_of "/tmp/dl" "abc" = None
       /\ (forall q, Static.under "/tmp/dl" q = false ->
           Http.files st2 !! q = Http.files Sample.installed_state !! q).
Proof.
  assert (D : Http.fname_of "/tmp/dl" "abc" ∉ Http.dirs Sample.installed_state)
    by apply not_elem_of_empty.
  split; [reflexivity|]. split; [reflexivity|]. split; [reflexivity|].
  split; [exact D|].
  exact (download_then_cleanup (Sample.serving Sample.short_body)
           {| Static.url := "https://x/y.bin"; Static.embedded := false;
              Static.download_folder := "/tmp/dl" |} "abc" Sample.never_cancel
           Sample.installed_state Sample.short_body 1000%Z
           eq_refl eq_refl eq_refl D).
Defined.

(** ** Dispatch, further *)

Section DispatchMore.

Variable sandbox_sh : list string -> string.
Variable static_can_handle_link : string -> result bool.
Variable dynamic_can_handle_link : string -> result bool.

Local Abbreviation can_handle_link :=
  (Dispatch.can_handle_link static_can_handle_link dynamic_can_handle_link).
Local Abbreviation first_model :=
  (Dispatch.first_model static_can_handle_link dynamic_can_handle_link).
Local Abbreviation check_app := (Dispatch.check_app sandbox_sh).
Local Abbreviation check_embedded :=
  (Dispatch.check_embedded sandbox_sh static_can_handle_link dynamic_can_handle_link).
Local Abbreviation check_url :=
  (Dispatch.check_url sandbox_sh static_can_handle_link dynamic_can_handle_link).

Lemma get_model_by_name_inv label m :
  Dispatch.get_model_by_name label = Some m -> label = Dispatch.name m.
Proof.
  unfold Dispatch.get_model_by_name, Dispatch.get_models. cbn [find].
  repeat match goal with
         | |- context [String.eqb ?a label] =>
             destruct (String.eqb_spec a label) as [<-|_]
         end; intros H; try discriminate; injection H as <-; reflexivity.
Qed.

(** X11: [get_model_by_name] inverts the class attribute [name]: a
    label yields a class exactly when it is that class's name, and any
    other label yields [None]. *)
Theorem get_model_by_name_iff label m :
  Dispatch.get_model_by_name label = Some m <-> label = Dispatch.name m.
Proof.
  split; [apply get_model_by_name_inv|].
  intros ->. destruct m; reflexivity.
Qed.

Lemma first_model_sound models link emb i :
  first_model models link emb = Return (Some i) ->
  In (Dispatch.inst_model i) models
  /\ can_handle_link (Dispatch.inst_model i) link = Return true
  /\ Dispatch.inst_link i = link /\ Dispatch.inst_embedded i = emb.
Proof.
  induction models as [|m models IH]; cbn [Dispatch.first_model]; [discriminate|].
  destruct (can_handle_link m link) as [[|]|e] eqn:E; [| |discriminate].
  - intros H. injection H as <-. cbn. rewrite E. auto.
  - intros H. apply IH in H as (Hin & H). split; [right; exact Hin|exact H].
Qed.

Lemma first_model_raises models link emb e :
  first_model models link emb = Raise e ->
  exists m, In m models /\ can_handle_link m link = Raise e.
Proof.
  induction models as [|m models IH]; cbn [Dispatch.first_model]; [discriminate|].
  destruct (can_handle_link m link) as [[|]|e'] eqn:E; [discriminate| |].
  - intros H. apply IH in H as (m' & Hin & H). exists m'. split; [right; exact Hin|exact H].
  - intros H. injection H as <-. exists m. split; [left; reflexivity|exact E].
Qed.

Lemma check_url_inv url el forced i :
  check_url url el forced = Return (Some i) ->
  In (Dispatch.inst_model i) (Dispatch.candidates forced)
  /\ can_handle_link (Dispatch.inst_model i) (Dispatch.inst_link i) = Return true
  /\ ((Dispatch.inst_embedded i = true
       /\ exists e, el = Some e /\ check_app e = Some (Dispatch.inst_link i))
      \/ (Dispatch.inst_embedded i = false /\ url = Some (Dispatch.inst_link i))).
Proof.
  unfold Dispatch.check_url, Dispatch.check_embedded.
  destruct el as [e|].
  - destruct (check_app e) as [d|] eqn:Ed.
    + destruct (PyStr.truthy d).
      * destruct (first_model (Dispatch.candidates forced) d true) as [[j|]|x] eqn:E;
          [| |discriminate].
        -- intros H. injection H as <-.
           apply first_model_sound in E as (Hin & Hc & <- & He).
           split; [exact Hin|]. split; [exact Hc|]. left. split; [exact He|].
           exists e. auto.
        -- destruct url as [u|]; [|discriminate].
           destruct (PyStr.truthy u); [|discriminate].
           intros H. apply first_model_sound in H as (Hin & Hc & <- & He). auto 10.
      * destruct url as [u|]; [|discriminate].
        destruct (PyStr.truthy u); [|discriminate].
        intros H. apply first_model_sound in H as (Hin & Hc & <- & He). auto 10.
    + destruct url as [u|]; [|discriminate].
      destruct (PyStr.truthy u); [|discriminate].
      intros H. apply first_model_sound in H as (Hin & Hc & <- & He). auto 10.
  - destruct url as [u|]; [|discriminate].
    destruct (PyStr.truthy u); [|discriminate].
    intros H. apply first_model_sound in H as (Hin & Hc & <- & He). auto 10.
Qed.

(** X12: dispatch only returns what was accepted.  An instance that
    [check_url] returns is of a candidate class, that class's
    [can_handle_link] answered [True] on the very link the instance is
    built from, and that link is the descriptor [check_app] found when
    the instance is marked embedded, the raw URL otherwise.  A forced
    class is the class of the instance. *)
Theorem check_url_returns_accepted url el forced i :
  check_url url el forced = Return (Some i) ->
  In (Dispatch.inst_model i) (Dispatch.candidates forced)
  /\ (forall md, forced = Some md -> Dispatch.inst_model i = md)
  /\ can_handle_link (Dispatch.inst_model i) (Dispatch.inst_link i) = Return true
  /\ ((Dispatch.inst_embedded i = true
       /\ exists e, el = Some e /\ check_app e = Some (Dispatch.inst_link i))
      \/ (Dispatch.inst_embedded i = false /\ url = Some (Dispatch.inst_link i))).
Proof.
  intros H. apply check_url_inv in H as (Hin & Hc & Hl).
  split; [exact Hin|]. split; [|auto].
  intros md ->. rewrite candidates_forced in Hin.
  destruct Hin as [<-|[]]. reflexivity.
Qed.

Variable read_config_for_app :
  option Dispatch.AppImageListElement -> gmap string string.

Local Abbreviation check_url_for_app :=
  (Config.check_url_for_app sandbox_sh static_can_handle_link
     dynamic_can_handle_link read_config_for_app).

(** X13: the stored manager name.  When the settings name one of the
    three classes, [check_url_for_app] dispatches the stored URL with
    that class forced; any other name, like no name at all, forces
    nothing, and every class is tried. *)
Theorem check_url_for_app_manager el :
  (forall m,
     read_config_for_app el !! "update_url_manager" = Some (Dispatch.name m) ->
     check_url_for_app el
     = check_url (read_config_for_app el !! "update_url") el (Some m))
  /\ ((forall m, read_config_for_app el !! "update_url_manager"
                 <> Some (Dispatch.name m)) ->
      check_url_for_app el
      = check_url (read_config_for_app el !! "update_url") el None).
Proof.
  unfold Config.check_url_for_app, Config.model_of. split.
  - intros m ->. rewrite get_model_by_name_name. reflexivity.
  - intros H. destruct (read_config_for_app el !! "update_url_manager") as [l|]; [|reflexivity].
    destruct (Dispatch.get_model_by_name l) as [m|] eqn:E; [|reflexivity].
    apply get_model_by_name_inv in E. subst l. destruct (H m). reflexivity.
Qed.

End DispatchMore.

Lemma check_url_returns_accepted_witness :
  Dispatch.check_url Sample.readelf_github Sample.static_check Sample.dynamic_check
    (Some "https://example.org/widget.bin") (Some Sample.widget)
    (Some Dispatch.GithubUpdater)
  = Return (Some {| Dispatch.inst_model := Dispatch.GithubUpdater;
                    Dispatch.inst_link :=
                      "gh-releases-zsync|acme|widget|latest|widget-*.AppImage.zsync";
                    Dispatch.inst_embedded := true |})
  /\ Dispatch.can_handle_link Sample.static_check Sample.dynamic_check
       Dispatch.GithubUpdater
       "gh-releases-zsync|acme|widget|latest|widget-*.AppImage.zsync"
     = Return true.
Proof.
  assert (E : Dispatch.check_url Sample.readelf_github Sample.static_check
                Sample.dynamic_check
                (Some "https://example.org/widget.bin") (Some Sample.widget)
                (Some Dispatch.GithubUpdater)
              = Return (Some {| Dispatch.inst_model := Dispatch.GithubUpdater;
                                Dispatch.inst_link :=
                                  "gh-releases-zsync|acme|widget|latest|widget-*.AppImage.zsync";
                                Dispatch.inst_embedded := true |}))
    by (vm_compute; reflexivity).
  split; [exact E|].
  exact (proj1 (proj2 (proj2 (check_url_returns_accepted _ _ _ _ _ _ _ E)))).
Defined.

Lemma check_url_for_app_manager_witness :
  (forall m, SampleConfig.mistyped (Some Sample.widget) !! "update_url_manager"
             <> Some (Dispatch.name m))
  /\ Config.check_url_for_app Sample.readelf_nothing Sample.static_check
       Sample.dynamic_check SampleConfig.mistyped (Some Sample.widget)
     = Dispatch.check_url Sample.readelf_nothing Sample.static_check
         Sample.dynamic_check
         (SampleConfig.mistyped (Some Sample.widget) !! "update_url")
         (Some Sample.widget) None.
Proof.
  assert (H : forall m, SampleConfig.mistyped (Some Sample.widget) !! "update_url_manager"
                        <> Some (Dispatch.name m)).
  { intros m. destruct m; vm_compute; discriminate. }
  split; [exact H|].
  exact (proj2 (check_url_for_app_manager Sample.readelf_nothing Sample.static_check
                  Sample.dynamic_check SampleConfig.mistyped (Some Sample.widget)) H).
Defined.

(** ** Dispatch over the real capability checks *)

Section DispatchOn.

Variable sandbox_sh : list string -> string.
Variable url_is_valid : string -> bool.
Variable supported_mimes : list string.
Variable net : Http.network.
Variable st : Http.state.

Local Abbreviation static_check :=
  (fun u => fst (Http.static_can_handle_link url_is_valid supported_mimes net u st)).
Local Abbreviation dynamic_check :=
  (fun u => fst (Http.dynamic_can_handle_link net u st)).
Local Abbreviation check_url_on :=
  (Config.check_url_on sandbox_sh url_is_valid supported_mimes net st).

Lemma static_check_returns u : exists b, static_check u = Return b.
Proof.
  destruct (static_can_handle_link_returns url_is_valid supported_mimes net u st)
    as (b & st' & E).
  exists b. cbn beta. rewrite E. reflexivity.
Qed.

Lemma dynamic_check_returns u : exists b, dynamic_check u = Return b.
Proof.
  destruct (dynamic_can_handle_link_returns net u st) as (b & st' & E).
  exists b. cbn beta. rewrite E. reflexivity.
Qed.

Lemma urlsplit_raises url e : UrlParse.urlsplit url = Raise e -> e = ValueError.
Proof.
  unfold UrlParse.urlsplit.
  destruct (UrlParse.split_scheme _) as [sch u1].
  destruct (UrlParse.split_netloc _) as [nl u2].
  destruct (UrlParse.unmatched_bracket nl).
  - intros H. injection H as <-. reflexivity.
  - destruct (PyStr.mem "[" nl && PyStr.mem "]" nl
              && negb (UrlParse.check_bracketed_netloc nl)).
    + intros H. injection H as <-. reflexivity.
    + destruct (UrlParse.cut "#" u2) as [u3 frag].
      destruct (UrlParse.cut "?" u3) as [u4 qry]. discriminate.
Qed.

Lemma github_can_handle_link_raises u e :
  Github.can_handle_link u = Raise e -> e = ValueError.
Proof.
  unfold Github.can_handle_link, Github.get_url_data.
  destruct (PyStr.startswith u "https://").
  - destruct (UrlParse.urlsplit u) as [d|x] eqn:E.
    + repeat match goal with
             | |- context [if ?c then _ else _] => destruct c
             end;
        try discriminate;
        destruct (Github.parse_items _ _); discriminate.
    + intros H. injection H as <-. exact (urlsplit_raises _ _ E).
  - destruct (Github.parse_items _ _); discriminate.
Qed.

Lemma can_handle_link_on_raises m u e :
  Dispatch.can_handle_link static_check dynamic_check m u = Raise e -> e = ValueError.
Proof.
  destruct m; cbn [Dispatch.can_handle_link].
  - destruct (static_check_returns u) as (b & ->). discriminate.
  - destruct (dynamic_check_returns u) as (b & ->). discriminate.
  - apply github_can_handle_link_raises.
Qed.

(** X14: what dispatch can raise.  With the capability checks of this
    module, which absorb every failure of their requests, the only
    exception that leaves [check_url] is the [ValueError] of
    [urlsplit], raised inside [GithubUpdater.can_handle_link]. *)
Theorem check_url_raises_only_value_error url el forced e :
  check_url_on url el forced = Raise e -> e = ValueError.
Proof.
  unfold Config.check_url_on, Dispatch.check_url, Dispatch.check_embedded.
  assert (F : forall models link emb,
            Dispatch.first_model static_check dynamic_check models link emb = Raise e ->
            e = ValueError).
  { intros models link emb H.
    apply first_model_raises in H as (m & _ & H).
    exact (can_handle_link_on_raises _ _ _ H). }
  assert (U : match url with
              | Some u =>
                  if PyStr.truthy u
                  then Dispatch.first_model static_check dynamic_check
                         (Dispatch.candidates forced) u false
                  else Return None
              | None => Return None
              end = Raise e -> e = ValueError).
  { destruct url as [u|]; [|discriminate].
    destruct (PyStr.truthy u); [apply F|discriminate]. }
  destruct el as [x|]; [|exact U].
  destruct (Dispatch.check_app sandbox_sh x) as [d|]; [|exact U].
  destruct (PyStr.truthy d); [|exact U].
  destruct (Dispatch.first_model static_check dynamic_check
              (Dispatch.candidates forced) d true) as [[j|]|x'] eqn:E.
  - discriminate.
  - exact U.
  - intros H. injection H as <-. exact (F _ _ _ E).
Qed.

(** A link the dynamic check accepts is taken by one of the two URL
    variants, which come first in the list. *)
Lemma first_model_dynamic link emb :
  dynamic_check link = Return true ->
  exists m,
    Dispatch.first_model static_check dynamic_check Dispatch.get_models link emb
    = Return (Some {| Dispatch.inst_model := m; Dispatch.inst_link := link;
                      Dispatch.inst_embedded := emb |})
    /\ m <> Dispatch.GithubUpdater.
Proof.
  intros Hd. unfold Dispatch.get_models.
  cbn [Dispatch.first_model Dispatch.can_handle_link].
  destruct (static_check_returns link) as (b & ->). destruct b.
  - exists Dispatch.StaticFileUpdater. split; [reflexivity|discriminate].
  - rewrite Hd. exists Dispatch.DynamicUpdater. split; [reflexivity|discriminate].
Qed.

Lemma contains_unfold s p :
  PyStr.contains s p
  = String.prefix p s || match s with String _ s' => PyStr.contains s' p | EmptyString => false end.
Proof. destruct s; reflexivity. Qed.

Lemma contains_app a p b : PyStr.contains (a +:+ (p +:+ b)) p = true.
Proof.
  induction a as [|c a IH].
  - rewrite app_Empty, contains_unfold, prefix_app. reflexivity.
  - rewrite app_String, contains_unfold, IH. apply orb_true_r.
Qed.

Lemma contains_truthy s p : PyStr.contains s p = true -> p <> "" -> PyStr.truthy s = true.
Proof. destruct s; [|reflexivity]. destruct p; [congruence|discriminate]. Qed.

Lemma lower_app a b : PyStr.lower (a +:+ b) = PyStr.lower a +:+ PyStr.lower b.
Proof. induction a as [|c a IH]; [reflexivity|]. rewrite !app_String. cbn. rewrite IH. reflexivity. Qed.

Lemma try_except_ret {A} (m : Http.M A) (a : A) s0 :
  exists b s1, Http.try_except m (fun _ => Http.ret a) s0 = (Return b, s1).
Proof.
  unfold Http.try_except. destruct (m s0) as [[b|e] s1]; eexists _, _; reflexivity.
Qed.

Lemma dynamic_by_domain u :
  existsb (fun domain => PyStr.contains (PyStr.lower u) domain)
    Http.common_download_domains = true ->
  dynamic_check u = Return true.
Proof.
  intros H. cbn beta. unfold Http.dynamic_can_handle_link.
  destruct (_ || _); [reflexivity|].
  unfold Http.bind at 1.
  match goal with
  | |- context [Http.try_except ?m _ st] =>
      destruct (try_except_ret m false st) as (b & s1 & ->)
  end.
  destruct b; [reflexivity|]. unfold Http.ret. cbn [fst]. rewrite H. reflexivity.
Qed.

Lemma dynamic_by_name u :
  PyStr.contains (PyStr.lower u) "appimage" = true ->
  dynamic_check u = Return true.
Proof.
  intros H. cbn beta. unfold Http.dynamic_can_handle_link.
  rewrite H, orb_true_r. reflexivity.
Qed.

Lemma lower_truthy u : PyStr.truthy (PyStr.lower u) = PyStr.truthy u.
Proof. destruct u; reflexivity. Qed.

(** X15: a GitHub release URL never reaches [GithubUpdater] unless it
    is forced.  [DynamicUpdater] accepts every link that holds
    [github.com], whatever the network answers, and comes before
    [GithubUpdater] in the list: unforced dispatch of the URL of a
    release asset yields a [StaticFileUpdater] or a [DynamicUpdater]. *)
Theorem github_url_goes_to_url_variant O R T F :
  exists m,
    check_url_on (Some (Github.canonical_url O R T F)) None None
    = Return (Some {| Dispatch.inst_model := m;
                      Dispatch.inst_link := Github.canonical_url O R T F;
                      Dispatch.inst_embedded := false |})
    /\ m <> Dispatch.GithubUpdater.
Proof.
  unfold Config.check_url_on, Dispatch.check_url, Dispatch.check_embedded,
    Dispatch.candidates.
  replace (PyStr.truthy (Github.canonical_url O R T F)) with true by reflexivity.
  apply first_model_dynamic. apply dynamic_by_domain.
  unfold Http.common_download_domains. cbn [existsb].
  assert (E : Github.canonical_url O R T F
              = "https://" +:+ ("github.com"
                  +:+ ("/" +:+ O +:+ "/" +:+ R +:+ "/releases/download/" +:+ T +:+ "/" +:+ F)))
    by reflexivity.
  rewrite E, !lower_app.
  change (PyStr.lower "github.com") with "github.com".
  rewrite contains_app, !orb_true_r. reflexivity.
Qed.

(** X16: a descriptor that names an AppImage never reaches
    [GithubUpdater] unless it is forced.  [DynamicUpdater] accepts,
    without any request, every link in which [appimage] occurs in any
    case: the embedded descriptor of an artifact that holds it is
    given, marked embedded, to one of the two URL variants. *)
Theorem appimage_descriptor_goes_to_url_variant url e d :
  Dispatch.check_app sandbox_sh e = Some d ->
  PyStr.contains (PyStr.lower d) "appimage" = true ->
  exists m,
    check_url_on url (Some e) None
    = Return (Some {| Dispatch.inst_model := m; Dispatch.inst_link := d;
                      Dispatch.inst_embedded := true |})
    /\ m <> Dispatch.GithubUpdater.
Proof.
  intros Hd Hc.
  unfold Config.check_url_on, Dispatch.check_url, Dispatch.check_embedded,
    Dispatch.candidates.
  rewrite Hd.
  assert (Ht : PyStr.truthy d = true).
  { rewrite <- lower_truthy. apply (contains_truthy _ "appimage" Hc). discriminate. }
  rewrite Ht.
  destruct (first_model_dynamic d true (dynamic_by_name d Hc)) as (m & E & Hm).
  exists m. rewrite E. auto.
Qed.

End DispatchOn.

Lemma check_url_raises_only_value_error_witness :
  Config.check_url_on Sample.readelf_nothing Sample.url_is_valid Sample.supported_mimes
    Sample.offline_net Sample.empty_state (Some "https://[") None None
  = Raise ValueError
  /\ ValueError = ValueError.
Proof.
  assert (E : Config.check_url_on Sample.readelf_nothing Sample.url_is_valid
                Sample.supported_mimes Sample.offline_net Sample.empty_state
                (Some "https://[") None None = Raise ValueError)
    by (vm_compute; reflexivity).
  split; [exact E|].
  exact (check_url_raises_only_value_error _ _ _ _ _ _ _ _ _ E).
Defined.

Lemma appimage_descriptor_goes_to_url_variant_witness :
  Dispatch.check_app Sample.readelf_github Sample.widget
  = Some "gh-releases-zsync|acme|widget|latest|widget-*.AppImage.zsync"
  /\ PyStr.contains
       (PyStr.lower "gh-releases-zsync|acme|widget|latest|widget-*.AppImage.zsync")
       "appimage" = true
  /\ exists m,
       Config.check_url_on Sample.readelf_github Sample.url_is_valid
         Sample.supported_mimes Sample.offline_net Sample.empty_state
         None (Some Sample.widget) None
       = Return (Some {| Dispatch.inst_model := m;
                         Dispatch.inst_link :=
                           "gh-releases-zsync|acme|widget|latest|widget-*.AppImage.zsync";
                         Dispatch.inst_embedded := true |})
       /\ m <> Dispatch.GithubUpdater.
Proof.
  assert (E : Dispatch.check_app Sample.readelf_github Sample.widget
              = Some "gh-releases-zsync|acme|widget|latest|widget-*.AppImage.zsync")
    by (vm_compute; reflexivity).
  split; [exact E|]. split; [reflexivity|].
  exact (appimage_descriptor_goes_to_url_variant Sample.readelf_github
           Sample.url_is_valid Sample.supported_mimes Sample.offline_net
           Sample.empty_state None Sample.widget _ E eq_refl).
Defined.

(** ** The static capability check without an answer *)

Section CapabilityFacts.
Import Http.

Lemma existsb_app_false {A} (f : A -> bool) l1 l2 :
  existsb f l2 = false -> existsb f (l1 ++ l2)%list = existsb f l1.
Proof. intros H. rewrite existsb_app, H. apply orb_false_r. Qed.

(** X17: the static check when no request is answered.  An invalid
    URL is rejected before any request.  For a valid one, when neither
    the HEAD nor the GET is answered, the content type reads as the
    empty string, and the answer is [False] unless the list of
    supported types has an empty entry. *)
Theorem static_can_handle_link_unanswered url_is_valid supported_mimes net url st :
  (url_is_valid url = false ->
   static_can_handle_link url_is_valid supported_mimes net url st = (Return false, st))
  /\ (url_is_valid url = true ->
      (forall v, head net v = None) -> (forall v, get net v = None) ->
      fst (static_can_handle_link url_is_valid supported_mimes net url st)
      = Return (existsb (String.eqb "") supported_mimes)).
Proof.
  unfold static_can_handle_link. split.
  - intros ->. reflexivity.
  - intros -> Hh Hg. cbn [negb]. unfold bind.
    match goal with |- context [get_url_headers net ?u st] =>
      destruct (get_url_headers_cases net u st) as (hdrs & st' & E & _ & _ & H);
      rewrite (Hh u), (Hg u) in H
    end.
    rewrite E. destruct H as [-> _]. rewrite lookup_empty. cbn [default fst ret].
    rewrite existsb_app_false; reflexivity.
Qed.

End CapabilityFacts.

Lemma static_can_handle_link_unanswered_witness :
  Sample.url_is_valid "https://x/y.bin" = true
  /\ (forall v, Http.head Sample.offline_net v = None)
  /\ (forall v, Http.get Sample.offline_net v = None)
  /\ fst (Http.static_can_handle_link Sample.url_is_valid [""] Sample.offline_net
            "https://x/y.bin" Sample.empty_state)
     = Return true.
Proof.
  split; [reflexivity|]. split; [reflexivity|]. split; [reflexivity|].
  exact (proj2 (static_can_handle_link_unanswered Sample.url_is_valid [""]
                  Sample.offline_net "https://x/y.bin" Sample.empty_state)
           eq_refl (fun _ => eq_refl) (fun _ => eq_refl)).
Defined.

(** ** [GithubUpdater]: constructor, transfer and clean-up *)

Section GithubObjectFacts.

Variable releases : string -> option Assets.release_data.
Variable system_arch : string.
Variable net : Http.network.
Variable tmp_dir : string.

Local Abbreviation fetch_target_asset :=
  (GithubObject.fetch_target_asset releases system_arch).
Local Abbreviation download :=
  (GithubObject.download releases system_arch net tmp_dir).

(** X18: the constructor after dispatch, and its [url].  A link that
    [can_handle_link] accepts never makes the constructor fail.  The
    [url] it builds is the release URL of the parsed owner, repository,
    tag pattern and file name; when these hold none of the characters
    a URL is cut at, that URL parses back to the same four, with the
    release selector [latest]. *)
Theorem github_init_url url emb :
  Github.can_handle_link url = Return true ->
  exists d,
    Github.get_url_data url = Return (Some d)
    /\ GithubObject.init tmp_dir url emb
       = inr {| GithubObject.url_data := d;
                GithubObject.url :=
                  Github.canonical_url (Github.username d) (Github.repo d)
                    (Github.tag_name d) (Github.filename d);
                GithubObject.embedded := emb;
                GithubObject.download_folder := Static.downloads_of tmp_dir |}
    /\ (Github.url_segment (Github.username d) = true ->
        Github.url_segment (Github.repo d) = true ->
        Github.url_segment (Github.tag_name d) = true ->
        Github.url_segment (Github.filename d) = true ->
        Github.get_url_data
          (Github.canonical_url (Github.username d) (Github.repo d)
             (Github.tag_name d) (Github.filename d))
        = Return (Some {| Github.username := Github.username d;
                          Github.repo := Github.repo d;
                          Github.release := "latest";
                          Github.filename := Github.filename d;
                          Github.tag_name := Github.tag_name d |})).
Proof.
  unfold Github.can_handle_link, GithubObject.init.
  destruct (Github.get_url_data url) as [[d|]|e]; try discriminate.
  intros _. exists d. split; [reflexivity|]. split.
  - reflexivity.
  - apply get_url_data_canonical.
Qed.

Lemma static_init_step dwnl s :
  Static.init tmp_dir dwnl false s
  = (Return {| Static.url := Re.sub_empty Assets.zsync_suffix dwnl;
               Static.embedded := false;
               Static.download_folder := Static.downloads_of tmp_dir |},
     Http.set_currend_download None s).
Proof. reflexivity. Qed.

Lemma github_download_complete self name cb g a r total_size :
  fetch_target_asset self = Some a ->
  Http.get net (Re.sub_empty Assets.zsync_suffix (Assets.browser_download_url a))
  = Some r ->
  Http.closed r = false ->
  Http.advertised r = Some total_size ->
  Http.files (GithubObject.http g) !! Static.downloads_of tmp_dir = None ->
  PyStr.mem "/" name = false ->
  Http.fname_of (Static.downloads_of tmp_dir) name ∉ Http.dirs (GithubObject.http g) ->
  (forall q, cb q = false) ->
  exists s',
    download self name cb g
    = (match Http.body_end r with
       | Some e => Raise e
       | None =>
           if (Z.of_nat (length (concat (Http.body r))) <? total_size)%Z
           then Raise DownloadInterruptedException
           else Return (Some (Http.fname_of (Static.downloads_of tmp_dir) name,
                              Assets.id a))
       end,
       {| GithubObject.http := s';
          GithubObject.staticfile_manager :=
            match Http.body_end r with
            | Some _ =>
                Some {| Static.url :=
                          Re.sub_empty Assets.zsync_suffix
                            (Assets.browser_download_url a);
                        Static.embedded := false;
                        Static.download_folder := Static.downloads_of tmp_dir |}
            | None =>
                if (Z.of_nat (length (concat (Http.body r))) <? total_size)%Z
                then Some {| Static.url :=
                               Re.sub_empty Assets.zsync_suffix
                                 (Assets.browser_download_url a);
                             Static.embedded := false;
                             Static.download_folder := Static.downloads_of tmp_dir |}
                else None
            end |})
    /\ Http.files s' !! Http.fname_of (Static.downloads_of tmp_dir) name
       = Some (concat (Http.body r)).
Proof.
  intros Hf Hg Hcl Ha Hfo Hn Hd Hcb.
  unfold GithubObject.download. rewrite Hf, static_init_step.
  unfold Static.download. cbn [Static.url Static.download_folder].
  destruct (download_complete net _ (Static.downloads_of tmp_dir) name cb
              (Http.set_currend_download None (GithubObject.http g)) r total_size
              Hg Hcl Ha Hfo Hn Hd Hcb) as (s' & E & F & _).
  exists s'. rewrite E. split; [|exact F].
  destruct (Http.body_end r); [reflexivity|].
  destruct (_ <? _)%Z; reflexivity.
Qed.

(** Whatever the callback and the stream do. *)
Lemma github_download_disk self name cb g a r total_size :
  fetch_target_asset self = Some a ->
  Http.get net (Re.sub_empty Assets.zsync_suffix (Assets.browser_download_url a))
  = Some r ->
  Http.advertised r = Some total_size ->
  Http.files (GithubObject.http g) !! Static.downloads_of tmp_dir = None ->
  PyStr.mem "/" name = false ->
  Http.fname_of (Static.downloads_of tmp_dir) name ∉ Http.dirs (GithubObject.http g) ->
  exists res s' n,
    download self name cb g
    = (res,
       {| GithubObject.http := s';
          GithubObject.staticfile_manager :=
            match res with
            | Raise _ =>
                Some {| Static.url :=
                          Re.sub_empty Assets.zsync_suffix
                            (Assets.browser_download_url a);
                        Static.embedded := false;
                        Static.download_folder := Static.downloads_of tmp_dir |}
            | Return _ => None
            end |})
    /\ Http.files s' !! Http.fname_of (Static.downloads_of tmp_dir) name
       = Some (concat (take n (Http.body r)))
    /\ Static.downloads_of tmp_dir ∈ Http.dirs s'.
Proof.
  intros Hf Hg Ha Hfo Hn Hd.
  unfold GithubObject.download. rewrite Hf, static_init_step.
  unfold Static.download. cbn [Static.url Static.download_folder].
  destruct (download_disk net _ (Static.downloads_of tmp_dir) name cb
              (Http.set_currend_download None (GithubObject.http g)) r total_size
              Hg Ha Hfo Hn Hd) as (res & s' & n & E & F & _ & D).
  rewrite E.
  assert (Hin : Static.downloads_of tmp_dir ∈ Http.dirs s').
  { rewrite D. apply elem_of_union_l, elem_of_singleton. reflexivity. }
  destruct res as [[fname etag]|e].
  - eexists (Return _), s', n. split; [reflexivity|]. split; [exact F|exact Hin].
  - exists (Raise e), s', n. split; [reflexivity|]. split; [exact F|exact Hin].
Qed.



End GithubObjectFacts.

Lemma github_init_url_witness :
  Github.can_handle_link "gh-releases-zsync|acme|widget|latest|widget-*.AppImage.zsync"
  = Return true
  /\ exists d,
       Github.get_url_data "gh-releases-zsync|acme|widget|latest|widget-*.AppImage.zsync"
       = Return (Some d)
       /\ GithubObject.init "/tmp"
            "gh-releases-zsync|acme|widget|latest|widget-*.AppImage.zsync" true
          = inr {| GithubObject.url_data := d;
                   GithubObject.url :=
                     Github.canonical_url (Github.username d) (Github.repo d)
                       (Github.tag_name d) (Github.filename d);
                   GithubObject.embedded := true;
                   GithubObject.download_folder := Static.downloads_of "/tmp" |}.
Proof.
  assert (H : Github.can_handle_link
                "gh-releases-zsync|acme|widget|latest|widget-*.AppImage.zsync"
              = Return true) by (vm_compute; reflexivity).
  split; [exact H|].
  destruct (github_init_url "/tmp"
              "gh-releases-zsync|acme|widget|latest|widget-*.AppImage.zsync" true H)
    as (d & E1 & E2 & _).
  exists d. split; [exact E1|exact E2].
Defined.



(** ** What [fetch_target_asset] can return *)

Section FetchFacts.
Import Assets.

Lemma select_target_in arch targets z :
  select_target arch targets = Some z -> In z targets.
Proof.
  unfold select_target.
  assert (G : (if String.eqb arch "x86_64" then List.find arch_ok targets else None)
              = Some z -> In z targets).
  { destruct (String.eqb arch "x86_64"); [|discriminate].
    intros H. apply find_some in H as [H _]. exact H. }
  destruct targets as [|t [|t' l]]; [exact G| |exact G].
  intros H. injection H as <-. left. reflexivity.
Qed.

Lemma possible_targets_in emb re l z :
  In z (possible_targets emb re l) ->
  In z l /\ matches re (name z) = true
  /\ (emb = true -> PyStr.endswith (name z) ".zsync" = true).
Proof.
  unfold possible_targets. destruct emb.
  - destruct (List.find _ l) as [a|] eqn:E; [|intros []].
    intros [<-|[]]. apply find_some in E as [Hin H].
    apply andb_true_iff in H as [H1 H2]. auto.
  - intros H. apply filter_In in H as [Hin H]. split; [exact Hin|].
    split; [exact H|discriminate].
Qed.

Lemma fetch_target_asset_inv ud emb rel arch a :
  fetch_target_asset ud emb (Some rel) arch = Some a ->
  In a (assets rel)
  /\ matches (convert_glob_to_regex (Github.tag_name ud)) (rel_tag_name rel) = true
  /\ exists z,
       In z (assets rel)
       /\ matches (convert_glob_to_regex (Github.filename ud)) (name z) = true
       /\ name a = Re.sub_empty zsync_suffix (name z)
       /\ (emb = true -> PyStr.endswith (name z) ".zsync" = true).
Proof.
  unfold fetch_target_asset.
  destruct (matches (convert_glob_to_regex (Github.tag_name ud)) (rel_tag_name rel));
    [|discriminate].
  cbn [negb].
  destruct (select_target arch _) as [z|] eqn:Es; [|discriminate].
  intros H. apply find_some in H as [Hin Hn].
  apply String.eqb_eq in Hn.
  apply select_target_in, possible_targets_in in Es as (Hz & Hm & He).
  split; [exact Hin|]. split; [reflexivity|].
  exists z. auto.
Qed.

(** X21: the asset [fetch_target_asset] answers with.  It is one of the
    assets of the release, the tag of the release matches the tag
    pattern, and its name is the name of a listed asset that matches
    the file glob, less a final [.zsync]; in embedded mode that listed
    asset is a [.zsync] file. *)
Theorem fetch_target_asset_is_listed ud emb rel arch a :
  fetch_target_asset ud emb (Some rel) arch = Some a ->
  In a (assets rel)
  /\ matches (convert_glob_to_regex (Github.tag_name ud)) (rel_tag_name rel) = true
  /\ exists z,
       In z (assets rel)
       /\ matches (convert_glob_to_regex (Github.filename ud)) (name z) = true
       /\ name a = Re.sub_empty zsync_suffix (name z)
       /\ (emb = true -> PyStr.endswith (name z) ".zsync" = true).
Proof. apply fetch_target_asset_inv. Qed.

Lemma possible_targets_embedded re l :
  possible_targets true re l = [] \/ exists a, possible_targets true re l = [a].
Proof.
  unfold possible_targets. destruct (List.find _ l) as [a|]; [right; exists a|left]; reflexivity.
Qed.

(** X22: in embedded mode the architecture plays no part.  The scan
    stops at the first [.zsync] asset the glob matches, so there is
    never more than one candidate, and the answer is the same on every
    system. *)
Theorem fetch_embedded_ignores_arch ud rel arch1 arch2 :
  fetch_target_asset ud true rel arch1 = fetch_target_asset ud true rel arch2.
Proof.
  unfold fetch_target_asset. destruct rel as [rel_data|]; [|reflexivity].
  destruct (negb _); [reflexivity|].
  destruct (possible_targets_embedded
              (convert_glob_to_regex (Github.filename ud)) (assets rel_data))
    as [->|[a ->]]; [|reflexivity].
  unfold select_target. cbn [List.find].
  destruct (String.eqb arch1 "x86_64"), (String.eqb arch2 "x86_64"); reflexivity.
Qed.

(** X23: the tag check.  A tag pattern without a star, which is what a
    release URL gives, admits only the release whose tag is that text
    (or that text and a final newline): on any other release the
    answer is [None].  The pattern [*], which is what a pipe-form
    descriptor gives, admits every tag of one line: releases that
    differ in such a tag only get the same answer. *)
Theorem fetch_tag_check ud emb arch :
  (forall rel,
     PyStr.mem "*" (Github.tag_name ud) = false ->
     rel_tag_name rel <> Github.tag_name ud ->
     rel_tag_name rel <> Github.tag_name ud +:+ String PyStr.newline "" ->
     fetch_target_asset ud emb (Some rel) arch = None)
  /\ (forall t1 t2 l,
        Github.tag_name ud = "*" ->
        PyStr.mem PyStr.newline t1 = false ->
        PyStr.mem PyStr.newline t2 = false ->
        fetch_target_asset ud emb (Some {| rel_tag_name := t1; assets := l |}) arch
        = fetch_target_asset ud emb (Some {| rel_tag_name := t2; assets := l |}) arch).
Proof.
  split.
  - intros rel Hs H1 H2. unfold fetch_target_asset.
    destruct (matches (convert_glob_to_regex (Github.tag_name ud)) (rel_tag_name rel))
      eqn:E; [|reflexivity].
    apply (glob_without_star_exact _ _ Hs) in E. destruct E; contradiction.
  - intros t1 t2 l Ht H1 H2. unfold fetch_target_asset. rewrite Ht.
    cbn [rel_tag_name assets].
    rewrite (star_accepts_single_line t1 H1), (star_accepts_single_line t2 H2).
    reflexivity.
Qed.

End FetchFacts.

Section GithubUpdateFacts.

Variable releases : string -> option Assets.release_data.
Variable system_arch : string.


End GithubUpdateFacts.

Lemma fetch_target_asset_is_listed_witness :
  Assets.fetch_target_asset Sample.app_descriptor false (Some Sample.release_two_arch)
    "x86_64" = Some Sample.x86_asset
  /\ In Sample.x86_asset (Assets.assets Sample.release_two_arch).
Proof.
  assert (E : Assets.fetch_target_asset Sample.app_descriptor false
                (Some Sample.release_two_arch) "x86_64" = Some Sample.x86_asset)
    by (vm_compute; reflexivity).
  split; [exact E|].
  exact (proj1 (fetch_target_asset_is_listed _ _ _ _ _ E)).
Defined.

Lemma fetch_tag_check_witness :
  PyStr.mem "*" (Github.tag_name
                   {| Github.username := "acme"; Github.repo := "app";
                      Github.release := "latest"; Github.filename := "app-*.AppImage";
                      Github.tag_name := "v2" |}) = false
  /\ Assets.rel_tag_name Sample.release_two_arch <> "v2"
  /\ Assets.rel_tag_name Sample.release_two_arch <> "v2" +:+ String PyStr.newline ""
  /\ Assets.fetch_target_asset
       {| Github.username := "acme"; Github.repo := "app";
          Github.release := "latest"; Github.filename := "app-*.AppImage";
          Github.tag_name := "v2" |} false (Some Sample.release_two_arch) "x86_64"
     = None.
Proof.
  assert (H1 : Assets.rel_tag_name Sample.release_two_arch <> "v2")
    by (vm_compute; discriminate).
  assert (H2 : Assets.rel_tag_name Sample.release_two_arch
               <> "v2" +:+ String PyStr.newline "")
    by (vm_compute; discriminate).
  split; [reflexivity|]. split; [exact H1|]. split; [exact H2|].
  exact (proj1 (fetch_tag_check
                  {| Github.username := "acme"; Github.repo := "app";
                     Github.release := "latest"; Github.filename := "app-*.AppImage";
                     Github.tag_name := "v2" |} false "x86_64")
           Sample.release_two_arch eq_refl H1 H2).
Defined.


(** ** [DynamicUpdater] *)

Section DynamicFacts.

Variable net : Http.network.

Lemma truthy_opt_some o :
  Dynamic.truthy_opt o = true -> exists s, o = Some s /\ PyStr.truthy s = true.
Proof. destruct o as [s|]; [|discriminate]. intros H. exists s. auto. Qed.

(** X25: what [get_static_url] can answer.  A failed request and an
    error status both give the empty string.  An answer that is not
    empty is the [Location] header of a response that is no error, or
    the address the redirects led to when it differs from the link, or
    the link itself when the response names a file to save. *)
Theorem get_static_url_answers resolve url :
  (resolve url = None -> Dynamic.get_static_url resolve url = Some "")
  /\ (forall resp u, resolve url = Some (resp, u) -> Http.ok resp = false ->
      Dynamic.get_static_url resolve url = Some "")
  /\ (forall s,
        Dynamic.get_static_url resolve url = Some s -> PyStr.truthy s = true ->
        exists resp u,
          resolve url = Some (resp, u) /\ Http.ok resp = true
          /\ (Http.headers resp !! "location" = Some s
              \/ (s = u /\ u <> url)
              \/ (s = url
                  /\ PyStr.contains
                       (default "" (Http.headers resp !! "content-disposition"))
                       "filename=" = true))).
Proof.
  unfold Dynamic.get_static_url. split; [|split].
  - intros ->. reflexivity.
  - intros resp u -> ->. reflexivity.
  - intros s. destruct (resolve url) as [[resp u]|]; [|intros H; injection H as <-; discriminate].
    destruct (Http.ok resp) eqn:Hok; [|intros H; injection H as <-; discriminate].
    cbn [negb]. intros H Hs. exists resp, u. split; [reflexivity|]. split; [exact Hok|].
    set (loc := Http.headers resp !! "location") in *.
    destruct (Dynamic.truthy_opt loc) eqn:Hl; cbn [negb andb] in H.
    + rewrite Hl in H. cbn [negb] in H. auto.
    + destruct (String.eqb_spec u url) as [->|Hne]; cbn [negb] in H.
      * rewrite Hl in H. cbn [negb] in H.
        destruct (PyStr.contains _ "filename=") eqn:Hc.
        -- injection H as <-. auto.
        -- rewrite H in Hl. cbn in Hl. congruence.
      * cbn [Dynamic.truthy_opt] in H.
        destruct (PyStr.truthy u) eqn:Hu; cbn [negb] in H.
        -- injection H as <-. auto.
        -- destruct (PyStr.contains _ "filename=") eqn:Hc.
           ++ injection H as <-. auto.
           ++ injection H as <-. congruence.
Qed.

Lemma dynamic_download_kept resolve self name cb g :
  PyStr.truthy (Dynamic.url g) = true ->
  Dynamic.url g <> Dynamic.original_url self ->
  Dynamic.download resolve net self name cb g
  = (fst (Http.download net (Dynamic.url g) (Dynamic.download_folder self) name cb
            (Dynamic.http g)),
     {| Dynamic.http :=
          snd (Http.download net (Dynamic.url g) (Dynamic.download_folder self)
                 name cb (Dynamic.http g));
        Dynamic.url := Dynamic.url g |}).
Proof.
  intros Ht Hne. unfold Dynamic.download.
  rewrite Ht. apply String.eqb_neq in Hne. rewrite Hne.
  cbn [negb orb]. destruct (Http.download _ _ _ _ _ _). reflexivity.
Qed.

(** X26: a rotated address.  When the link resolves to an address that
    is not the one the updater holds, [is_update_available] answers
    [True] at once: it adopts the address, asks the network nothing
    more and does not look at the installed file.  Asked again while
    the link resolves the same way, it compares sizes as the parent
    class does, at the adopted address.  And [download] then fetches
    the adopted address, when it is not the link itself, without
    resolving the link again. *)
Theorem dynamic_update_on_rotation resolve self el g f :
  Dynamic.get_static_url resolve (Dynamic.original_url self) = Some f ->
  PyStr.truthy f = true ->
  f <> Dynamic.url g ->
  Dynamic.is_update_available resolve net self el g
  = (Return true, {| Dynamic.http := Dynamic.http g; Dynamic.url := f |})
  /\ Dynamic.is_update_available resolve net self el
       {| Dynamic.http := Dynamic.http g; Dynamic.url := f |}
     = (fst (Http.is_update_available net f (Dispatch.file_path el) (Dynamic.http g)),
        {| Dynamic.http :=
             snd (Http.is_update_available net f (Dispatch.file_path el)
                    (Dynamic.http g));
           Dynamic.url := f |})
  /\ (f <> Dynamic.original_url self ->
      forall resolve' name cb,
        Dynamic.download resolve' net self name cb
          {| Dynamic.http := Dynamic.http g; Dynamic.url := f |}
        = (fst (Http.download net f (Dynamic.download_folder self) name cb
                  (Dynamic.http g)),
           {| Dynamic.http :=
                snd (Http.download net f (Dynamic.download_folder self) name cb
                       (Dynamic.http g));
              Dynamic.url := f |})).
Proof.
  intros Hf Ht Hne. split; [|split].
  - unfold Dynamic.is_update_available. rewrite Hf.
    cbn [Dynamic.truthy_opt default from_option id Dynamic.url Dynamic.http]. rewrite Ht.
    apply String.eqb_neq in Hne. rewrite Hne. reflexivity.
  - unfold Dynamic.is_update_available. rewrite Hf.
    cbn [Dynamic.truthy_opt default from_option id Dynamic.url Dynamic.http]. rewrite Ht.
    rewrite String.eqb_refl. cbn [negb andb].
    destruct (Http.is_update_available net f _ _). reflexivity.
  - intros Ho resolve' name cb.
    apply (dynamic_download_kept resolve' self name cb
             {| Dynamic.http := Dynamic.http g; Dynamic.url := f |} Ht Ho).
Qed.

Lemma truthy_app_zsync u : PyStr.truthy (u +:+ ".zsync") = true.
Proof. destruct u; reflexivity. Qed.

Lemma app_zsync_neq u : u +:+ ".zsync" <> u.
Proof.
  intros E. apply (f_equal String.length) in E.
  rewrite length_app_string in E. cbn in E. lia.
Qed.

(** X27: a link that resolves to a [.zsync] address.  The constructor
    cuts the suffix off the address it keeps, the check compares the
    kept address with the resolved one: the first
    [is_update_available] after construction answers [True], whatever
    the sizes. *)
Theorem dynamic_zsync_always_updates tmp_dir resolve url emb el st u :
  Dynamic.get_static_url resolve url = Some (u +:+ ".zsync") ->
  exists self,
    Dynamic.init tmp_dir resolve url emb st
    = (Return (self, u), Http.set_currend_download None st)
    /\ Dynamic.original_url self = url
    /\ Dynamic.is_update_available resolve net self el
         {| Dynamic.http := Http.set_currend_download None st; Dynamic.url := u |}
       = (Return true,
          {| Dynamic.http := Http.set_currend_download None st;
             Dynamic.url := u +:+ ".zsync" |}).
Proof.
  intros Hf. unfold Dynamic.init. rewrite Hf.
  cbn [Dynamic.truthy_opt default from_option id]. rewrite truthy_app_zsync.
  unfold Http.bind, Static.init, Http.modify, Http.ret. rewrite sub_zsync_app.
  eexists. split; [reflexivity|]. split; [reflexivity|].
  unfold Dynamic.is_update_available. cbn [Dynamic.original_url]. rewrite Hf.
  cbn [Dynamic.truthy_opt default from_option id Dynamic.url Dynamic.http].
  rewrite truthy_app_zsync.
  rewrite (proj2 (String.eqb_neq _ _) (app_zsync_neq u)). reflexivity.
Qed.

End DynamicFacts.

Lemma get_static_url_answers_witness :
  Dynamic.get_static_url (SampleDynamic.redirecting "https://cdn.example.org/app-2.AppImage")
    "https://example.org/latest" = Some "https://cdn.example.org/app-2.AppImage"
  /\ PyStr.truthy "https://cdn.example.org/app-2.AppImage" = true
  /\ exists resp u,
       SampleDynamic.redirecting "https://cdn.example.org/app-2.AppImage"
         "https://example.org/latest" = Some (resp, u)
       /\ Http.ok resp = true.
Proof.
  split; [reflexivity|]. split; [reflexivity|].
  destruct (proj2 (proj2 (get_static_url_answers
                            (SampleDynamic.redirecting
                               "https://cdn.example.org/app-2.AppImage")
                            "https://example.org/latest"))
              "https://cdn.example.org/app-2.AppImage" eq_refl eq_refl)
    as (resp & u & E & Hok & _).
  exists resp, u. split; [exact E|exact Hok].
Defined.

Lemma dynamic_update_on_rotation_witness :
  Dynamic.get_static_url (SampleDynamic.redirecting "https://cdn.example.org/app-2.AppImage")
    (Dynamic.original_url SampleDynamic.page)
  = Some "https://cdn.example.org/app-2.AppImage"
  /\ PyStr.truthy "https://cdn.example.org/app-2.AppImage" = true
  /\ "https://cdn.example.org/app-2.AppImage"
     <> Dynamic.url {| Dynamic.http := Sample.empty_state;
                       Dynamic.url := "https://cdn.example.org/app-1.AppImage" |}
  /\ Dynamic.is_update_available
       (SampleDynamic.redirecting "https://cdn.example.org/app-2.AppImage")
       Sample.offline_net SampleDynamic.page Sample.widget
       {| Dynamic.http := Sample.empty_state;
          Dynamic.url := "https://cdn.example.org/app-1.AppImage" |}
     = (Return true,
        {| Dynamic.http := Sample.empty_state;
           Dynamic.url := "https://cdn.example.org/app-2.AppImage" |}).
Proof.
  assert (N : "https://cdn.example.org/app-2.AppImage"
              <> Dynamic.url {| Dynamic.http := Sample.empty_state;
                                Dynamic.url := "https://cdn.example.org/app-1.AppImage" |})
    by (vm_compute; discriminate).
  split; [reflexivity|]. split; [reflexivity|]. split; [exact N|].
  exact (proj1 (dynamic_update_on_rotation Sample.offline_net
                  (SampleDynamic.redirecting "https://cdn.example.org/app-2.AppImage")
                  SampleDynamic.page Sample.widget
                  {| Dynamic.http := Sample.empty_state;
                     Dynamic.url := "https://cdn.example.org/app-1.AppImage" |}
                  "https://cdn.example.org/app-2.AppImage" eq_refl eq_refl N)).
Defined.

Lemma dynamic_zsync_always_updates_witness :
  Dynamic.get_static_url (SampleDynamic.redirecting ("https://cdn.example.org/app" +:+ ".zsync"))
    "https://example.org/latest" = Some ("https://cdn.example.org/app" +:+ ".zsync")
  /\ exists self,
       Dynamic.init "/tmp"
         (SampleDynamic.redirecting ("https://cdn.example.org/app" +:+ ".zsync"))
         "https://example.org/latest" false Sample.empty_state
       = (Return (self, "https://cdn.example.org/app"),
          Http.set_currend_download None Sample.empty_state)
       /\ Dynamic.is_update_available
            (SampleDynamic.redirecting ("https://cdn.example.org/app" +:+ ".zsync"))
            Sample.offline_net self Sample.widget
            {| Dynamic.http := Http.set_currend_download None Sample.empty_state;
               Dynamic.url := "https://cdn.example.org/app" |}
          = (Return true,
             {| Dynamic.http := Http.set_currend_download None Sample.empty_state;
                Dynamic.url := "https://cdn.example.org/app" +:+ ".zsync" |}).
Proof.
  split; [reflexivity|].
  destruct (dynamic_zsync_always_updates Sample.offline_net "/tmp"
              (SampleDynamic.redirecting ("https://cdn.example.org/app" +:+ ".zsync"))
              "https://example.org/latest" false Sample.widget Sample.empty_state
              "https://cdn.example.org/app" eq_refl)
    as (self & E1 & _ & E2).
  exists self. split; [exact E1|exact E2].
Defined.

(** ** The fields [get_url_data] returns *)

Section UrlDataFacts.

Lemma split_no_sep sep : forall s x,
  In x (PyStr.split sep s) -> PyStr.mem sep x = false.
Proof.
  induction s as [|c s IH]; intros x; cbn [PyStr.split].
  - intros [<-|[]]. reflexivity.
  - destruct (Ascii.eqb c sep) eqn:Ec.
    + intros [<-|H]; [reflexivity|apply IH; exact H].
    + destruct (PyStr.split sep s) as [|h t] eqn:E.
      * intros [<-|[]]. cbn. rewrite Ec. reflexivity.
      * intros [<-|H].
        -- cbn [PyStr.mem]. rewrite Ec. apply IH. left. reflexivity.
        -- apply IH. right. exact H.
Qed.

Lemma nth_split_no_sep sep s i : PyStr.mem sep (nth i (PyStr.split sep s) "") = false.
Proof.
  destruct (nth_in_or_default i (PyStr.split sep s) "") as [H|H].
  - exact (split_no_sep sep s _ H).
  - rewrite H. reflexivity.
Qed.

Lemma count_app c a b : PyStr.count c (a +:+ b) = (PyStr.count c a + PyStr.count c b)%nat.
Proof.
  induction a as [|x a IH]; [reflexivity|].
  rewrite app_String. cbn [PyStr.count]. rewrite IH. lia.
Qed.

Lemma count_zero_mem c a : PyStr.count c a = 0%nat -> PyStr.mem c a = false.
Proof.
  induction a as [|x a IH]; [reflexivity|]. cbn [PyStr.count PyStr.mem].
  destruct (Ascii.eqb x c); [discriminate|]. exact IH.
Qed.

Lemma parse_items_fields tn url d :
  Github.parse_items tn url = Some d ->
  PyStr.mem "|" (Github.username d) = false
  /\ PyStr.mem "|" (Github.repo d) = false
  /\ PyStr.mem "|" (Github.release d) = false
  /\ PyStr.mem "|" (Github.filename d) = false
  /\ Github.tag_name d = tn.
Proof.
  unfold Github.parse_items. destruct (negb _); [discriminate|].
  intros H. injection H as <-. cbn.
  repeat split; apply nth_split_no_sep.
Qed.

Lemma parse_items_rebuilt tn p1 p2 p6 d :
  Github.parse_items tn ("|" +:+ p1 +:+ "|" +:+ p2 +:+ "|" +:+ "latest" +:+ "|" +:+ p6)
  = Some d ->
  d = {| Github.username := p1; Github.repo := p2; Github.release := "latest";
         Github.filename := p6; Github.tag_name := tn |}.
Proof.
  intros H.
  assert (C : PyStr.count "|" p1 = 0%nat /\ PyStr.count "|" p2 = 0%nat
              /\ PyStr.count "|" p6 = 0%nat).
  { unfold Github.parse_items in H.
    destruct (Nat.eqb_spec
                (length (PyStr.split "|"
                   ("|" +:+ p1 +:+ "|" +:+ p2 +:+ "|" +:+ "latest" +:+ "|" +:+ p6))) 5)
      as [E|]; [|discriminate].
    rewrite length_split, !count_app in E. cbn in E. lia. }
  destruct C as (C1 & C2 & C6).
  apply count_zero_mem in C1, C2, C6.
  change ("|" +:+ p1 +:+ "|" +:+ p2 +:+ "|" +:+ "latest" +:+ "|" +:+ p6)
    with (Github.pipe_form "" p1 p2 "latest" p6) in H.
  rewrite (parse_items_pipe_form tn "" p1 p2 "latest" p6) in H by (assumption || reflexivity).
  injection H as <-. reflexivity.
Qed.

(** X28: the fields of a parsed link.  Owner, repository, release
    selector and file name never hold a [|].  From a pipe-form
    descriptor the tag pattern is [*]; from an [https] link the release
    selector is [latest], and owner, repository, tag and file name are
    single path segments: none holds a [/]. *)
Theorem get_url_data_fields url d :
  Github.get_url_data url = Return (Some d) ->
  PyStr.mem "|" (Github.username d) = false
  /\ PyStr.mem "|" (Github.repo d) = false
  /\ PyStr.mem "|" (Github.release d) = false
  /\ PyStr.mem "|" (Github.filename d) = false
  /\ (PyStr.startswith url "https://" = false -> Github.tag_name d = "*")
  /\ (PyStr.startswith url "https://" = true ->
      Github.release d = "latest"
      /\ PyStr.mem "/" (Github.username d) = false
      /\ PyStr.mem "/" (Github.repo d) = false
      /\ PyStr.mem "/" (Github.tag_name d) = false
      /\ PyStr.mem "/" (Github.filename d) = false).
Proof.
  unfold Github.get_url_data. destruct (PyStr.startswith url "https://").
  - destruct (UrlParse.urlsplit url) as [sp|e]; [|discriminate].
    destruct (negb (String.eqb _ "github.com")); [discriminate|].
    destruct (negb (_ =? 7)%nat); [discriminate|].
    destruct (_ || _); [discriminate|].
    intros H. injection H as H.
    pose proof (parse_items_fields _ _ _ H) as (F1 & F2 & F3 & F4 & _).
    apply parse_items_rebuilt in H. subst d. cbn in *.
    split; [exact F1|]. split; [exact F2|]. split; [reflexivity|]. split; [exact F4|].
    split; [discriminate|]. intros _.
    split; [reflexivity|]. repeat split; apply nth_split_no_sep.
  - intros H. injection H as H.
    apply parse_items_fields in H as (F1 & F2 & F3 & F4 & F5).
    split; [exact F1|]. split; [exact F2|]. split; [exact F3|]. split; [exact F4|].
    split; [intros _; exact F5|discriminate].
Qed.

End UrlDataFacts.

(** ** [is_update_available]: the two exceptions *)

Section UpdateErrors.
Import Http.

(** X29: what [StaticFileUpdater.is_update_available] raises.  A
    [content-length] that [int] refuses (no integer, or one of more
    than 4300 digits) is a [ValueError].  When nothing is at the
    installed path, neither a file nor a directory, the call raises
    [OSError], also when the length is absent or zero and the answer
    would be [False]: the size of the file is taken before the length
    is looked at. *)
Theorem is_update_available_raises net url file_path st :
  exists hdrs st',
    get_url_headers net url st = (Return hdrs, st')
    /\ (PyStr.int (default "0" (hdrs !! "content-length")) = None ->
        is_update_available net url file_path st = (Raise ValueError, st'))
    /\ (PyStr.int (default "0" (hdrs !! "content-length")) <> None ->
        st_size st file_path = None ->
        is_update_available net url file_path st = (Raise OSError, st')).
Proof.
  destruct (get_url_headers_cases net url st) as (hdrs & st' & E & _).
  exists hdrs, st'. split; [exact E|]. unfold is_update_available. split.
  - intros Hi. unfold bind at 1. rewrite E. unfold bind at 1, py_int. rewrite Hi.
    reflexivity.
  - intros Hi Hn. unfold bind at 1. rewrite E. unfold bind at 1, py_int.
    destruct (PyStr.int _) as [n|]; [|congruence].
    unfold ret at 1. unfold bind at 1. rewrite getsize_st_size.
    assert (Hs : st_size st' file_path = st_size st file_path).
    { apply st_size_same_disk. pose proof (get_url_headers_disk net url st) as H.
      rewrite E in H. exact H. }
    rewrite Hs, Hn. reflexivity.
Qed.

End UpdateErrors.

Lemma get_url_data_fields_witness :
  Github.get_url_data "https://github.com/acme/widget/releases/download/v1/widget.AppImage"
  = Return (Some {| Github.username := "acme"; Github.repo := "widget";
                    Github.release := "latest"; Github.filename := "widget.AppImage";
                    Github.tag_name := "v1" |})
  /\ PyStr.mem "|" "acme" = false.
Proof.
  assert (E : Github.get_url_data
                "https://github.com/acme/widget/releases/download/v1/widget.AppImage"
              = Return (Some {| Github.username := "acme"; Github.repo := "widget";
                                Github.release := "latest";
                                Github.filename := "widget.AppImage";
                                Github.tag_name := "v1" |}))
    by (vm_compute; reflexivity).
  split; [exact E|].
  exact (proj1 (get_url_data_fields _ _ E)).
Defined.

Lemma is_update_available_raises_witness :
  exists hdrs st',
    Http.get_url_headers Sample.offline_net "https://x/y.bin" Sample.empty_state
    = (Return hdrs, st')
    /\ PyStr.int (default "0" (hdrs !! "content-length")) <> None
    /\ Http.st_size Sample.empty_state "/apps/widget.AppImage" = None
    /\ Http.is_update_available Sample.offline_net "https://x/y.bin"
         "/apps/widget.AppImage" Sample.empty_state
       = (Raise OSError, st').
Proof.
  destruct (is_update_available_raises Sample.offline_net "https://x/y.bin"
              "/apps/widget.AppImage" Sample.empty_state)
    as (hdrs & st' & E & _ & H).
  exists hdrs, st'.
  assert (Hh : hdrs = ∅).
  { vm_compute in E. injection E as <- _. reflexivity. }
  assert (Hi : PyStr.int (default "0" (hdrs !! "content-length")) <> None).
  { rewrite Hh. vm_compute. discriminate. }
  split; [exact E|]. split; [exact Hi|]. split; [reflexivity|].
  exact (H Hi eq_refl).
Defined.
